(** * PiAware e-Paper status monitor: the aggregation and alerting engine

    A shallow embedding of [piaware-epaper.py] (class [PiAware] and its
    [Helpers]), the current generation of the script; the older [epd.py]
    has the same filter, range and emergency logic and is not modelled
    apart.  JSON documents are kept dynamically typed, as Python has them,
    and every Python operator the engine applies to them is given with the
    exceptions it raises.  Effects (HTTP requests, the log, the notification
    transport, the e-Paper device, the cached receiver position) are threaded
    through an explicit world. Floating point values are idealised as real
    numbers. Text is ASCII. *)

From Stdlib Require Import ZArith QArith Reals Lra Lia List String Ascii Bool.
Import ListNotations.

Set Warnings "-register-all".

Local Open Scope string_scope.
Local Open Scope list_scope.
Local Open Scope Z_scope.

(* ================================================================= *)
(** ** Python values and exceptions *)

(** What [r.json()] yields: None, bool, int/float (finite), str, list, dict.
    A dict is an association list read through [lookup]: the first binding
    of a key is the live one. *)
Inductive json : Type :=
| JNull
| JBool (b : bool)
| JNum (q : Q)
| JStr (s : string)
| JArr (items : list json)
| JObj (members : list (string * json)).

(** [OSError] stands for [IOError] (its alias) and every subclass, among them
    the exceptions of the requests library. *)
Inductive exn_class : Type :=
| ValueError | RuntimeError | TypeError | KeyError | IndexError
| AttributeError | OSError | OtherError.

Inductive exn : Type :=
| Exn (cls : exn_class) (msg : string).

(** The three ways a call ends: a value, an exception, or [sys.exit]. *)
Inductive outcome (A : Type) : Type :=
| Ok (a : A)
| Raise (e : exn)
| Exit (code : Z).

Arguments Ok {A} a.
Arguments Raise {A} e.
Arguments Exit {A} code.

Definition exn_class_eqb (a b : exn_class) : bool :=
  match a, b with
  | ValueError, ValueError | RuntimeError, RuntimeError
  | TypeError, TypeError | KeyError, KeyError | IndexError, IndexError
  | AttributeError, AttributeError | OSError, OSError
  | OtherError, OtherError => true
  | _, _ => false
  end.

Definition class_of (e : exn) : exn_class :=
  match e with Exn c _ => c end.

(** [isinstance(e, IOError)]. *)
Definition is_IOError (e : exn) : bool := exn_class_eqb (class_of e) OSError.

Definition raised {A : Type} (o : outcome A) : bool :=
  match o with Raise _ => true | _ => false end.

Definition returned {A : Type} (o : outcome A) : bool :=
  match o with Ok _ => true | _ => false end.

Definition obind {A B : Type} (o : outcome A) (k : A -> outcome B) : outcome B :=
  match o with
  | Ok a => k a
  | Raise e => Raise e
  | Exit c => Exit c
  end.

(* ----------------------------------------------------------------- *)
(** *** Strings *)

Definition dquote : string := String (ascii_of_nat 34) EmptyString.
Definition squote : string := String (ascii_of_nat 39) EmptyString.

Definition upper_ascii (c : ascii) : ascii :=
  let n := nat_of_ascii c in
  if ((97 <=? n) && (n <=? 122))%nat then ascii_of_nat (n - 32) else c.

Definition lower_ascii (c : ascii) : ascii :=
  let n := nat_of_ascii c in
  if ((65 <=? n) && (n <=? 90))%nat then ascii_of_nat (n + 32) else c.

Fixpoint map_string (f : ascii -> ascii) (s : string) : string :=
  match s with
  | EmptyString => EmptyString
  | String c s' => String (f c) (map_string f s')
  end.

(** [str.upper], [str.lower]. *)
Definition upper (s : string) : string := map_string upper_ascii s.
Definition lower (s : string) : string := map_string lower_ascii s.

(** The ASCII characters [str.strip] removes. *)
Definition is_space (c : ascii) : bool :=
  let n := nat_of_ascii c in
  (((9 <=? n) && (n <=? 13)) || ((28 <=? n) && (n <=? 32)))%nat.

Fixpoint lstrip (s : string) : string :=
  match s with
  | EmptyString => EmptyString
  | String c s' => if is_space c then lstrip s' else s
  end.

Fixpoint rstrip (s : string) : string :=
  match s with
  | EmptyString => EmptyString
  | String c s' =>
      match rstrip s' with
      | EmptyString => if is_space c then EmptyString else String c EmptyString
      | r => String c r
      end
  end.

Definition strip (s : string) : string := rstrip (lstrip s).

(** [needle in s] on two strings. *)
Fixpoint is_substring (needle s : string) : bool :=
  String.prefix needle s
  || match s with
     | EmptyString => false
     | String _ s' => is_substring needle s'
     end.

Fixpoint chars (s : string) : list string :=
  match s with
  | EmptyString => []
  | String c s' => String c EmptyString :: chars s'
  end.

Fixpoint join (sep : string) (l : list string) : string :=
  match l with
  | [] => EmptyString
  | [x] => x
  | x :: rest => (x ++ sep ++ join sep rest)%string
  end.

(** [repr] of a list of plain strings, as an f-string prints it. *)
Definition repr_list (l : list string) : string :=
  ("[" ++ join ", " (map (fun s => squote ++ s ++ squote)%string l) ++ "]")%string.

(* ----------------------------------------------------------------- *)
(** *** Operators on JSON values *)

Fixpoint lookup (k : string) (kv : list (string * json)) : option json :=
  match kv with
  | [] => None
  | (k', v) :: rest => if String.eqb k k' then Some v else lookup k rest
  end.

Definition dict_has (k : string) (kv : list (string * json)) : bool :=
  match lookup k kv with Some _ => true | None => false end.

Definition dict_keys (kv : list (string * json)) : list string :=
  nodup string_dec (map fst kv).

(** [v == s] for a string [s]. *)
Definition is_str (s : string) (v : json) : bool :=
  match v with JStr s' => String.eqb s s' | _ => false end.

(** Lists and dicts cannot be hashed. *)
Definition unhashable (v : json) : bool :=
  match v with JArr _ | JObj _ => true | _ => false end.

(** [needle in v]. *)
Definition py_in (needle : string) (v : json) : outcome bool :=
  match v with
  | JObj kv => Ok (dict_has needle kv)
  | JArr l => Ok (existsb (is_str needle) l)
  | JStr s => Ok (is_substring needle s)
  | _ => Raise (Exn TypeError "argument is not iterable")
  end.

(** [v[key]] with a string key. *)
Definition py_getitem (v : json) (key : string) : outcome json :=
  match v with
  | JObj kv =>
      match lookup key kv with
      | Some x => Ok x
      | None => Raise (Exn KeyError key)
      end
  | JArr _ | JStr _ => Raise (Exn TypeError "indices must be integers")
  | _ => Raise (Exn TypeError "object is not subscriptable")
  end.

(** [for x in v]. *)
Definition py_iter (v : json) : outcome (list json) :=
  match v with
  | JArr l => Ok l
  | JObj kv => Ok (map JStr (dict_keys kv))
  | JStr s => Ok (map JStr (chars s))
  | _ => Raise (Exn TypeError "object is not iterable")
  end.

(** [set(keys).issubset(v)]: [v] is turned into a set first. *)
Definition issubset (keys : list string) (v : json) : outcome bool :=
  match v with
  | JObj kv => Ok (forallb (fun k => dict_has k kv) keys)
  | JArr l =>
      if existsb unhashable l then Raise (Exn TypeError "unhashable type")
      else Ok (forallb (fun k => existsb (is_str k) l) keys)
  | JStr s => Ok (forallb (fun k => existsb (String.eqb k) (chars s)) keys)
  | _ => Raise (Exn TypeError "object is not iterable")
  end.

(** The number a value counts as in arithmetic: bool is an int. *)
Definition py_number (v : json) : option Q :=
  match v with
  | JNum q => Some q
  | JBool true => Some 1%Q
  | JBool false => Some 0%Q
  | _ => None
  end.

(** [v <= threshold] against an int. *)
Definition py_le (v : json) (threshold : Z) : outcome bool :=
  match py_number v with
  | Some q => Ok (Qle_bool q (inject_Z threshold))
  | None => Raise (Exn TypeError "<= not supported")
  end.

(** [v.upper()]. *)
Definition py_upper (v : json) : outcome string :=
  match v with
  | JStr s => Ok (upper s)
  | _ => Raise (Exn AttributeError "object has no attribute upper")
  end.

(** [float(v)] as [math.radians] converts its argument. *)
Definition py_float (v : json) : outcome R :=
  match py_number v with
  | Some q => Ok (Q2R q)
  | None => Raise (Exn TypeError "must be real number")
  end.

(* ================================================================= *)
(** ** Geodesy *)

(** Python computes the distance on doubles.  The embedding takes the
    numbers as reals and [sin], [cos], [asin] and [sqrt] as the real
    functions: rounding is outside it, and so are the exceptions [math]
    raises on doubles (OverflowError for an integer beyond their range,
    ValueError for an argument that rounding pushed out of the domain). *)

(** [class Position(NamedTuple)]: the fields are whatever the caller stored,
    here values taken from a JSON document. *)
Record Position : Type := mkPosition {
  latitude : json;
  longitude : json
}.

Definition earth_radius : R := 6371000%R.

Definition radians (x : R) : R := (x * PI / 180)%R.

(** The formula of [haversine_distance] on four angles in radians. *)
Definition haversine (lat1 lon1 lat2 lon2 radius : R) : R :=
  let hav :=
    (sin ((lat2 - lat1) / 2) ^ 2
     + cos lat1 * cos lat2 * sin ((lon2 - lon1) / 2) ^ 2)%R in
  (2 * radius * asin (sqrt hav))%R.

Definition haversine_distance (pos1 pos2 : Position) (radius : R) : outcome R :=
  obind (py_float (latitude pos1)) (fun lat1 =>
  obind (py_float (longitude pos1)) (fun lon1 =>
  obind (py_float (latitude pos2)) (fun lat2 =>
  obind (py_float (longitude pos2)) (fun lon2 =>
  Ok (haversine (radians lat1) (radians lon1)
                (radians lat2) (radians lon2) radius))))).

(** A position whose coordinates are (finite) numbers. *)
Definition finite_position (p : Position) : bool :=
  match py_number (latitude p), py_number (longitude p) with
  | Some _, Some _ => true
  | _, _ => false
  end.

(* ================================================================= *)
(** ** The world the engine runs in *)

(** An f-string or a log line: literal text and the interpolated values,
    left unformatted. *)
Inductive piece : Type :=
| PStr (s : string)
| PVal (v : json)
| PInt (z : Z)
| PFloat (r : R).

Definition text : Type := list piece.

Inductive level : Type := DEBUG | INFO | WARNING | ERROR.

Record log_record : Type := mkLog {
  log_level : level;
  log_format : string;
  log_args : text
}.

(** [requests.Response]: the status code and what [r.json()] does. *)
Inductive body : Type :=
| Parsed (j : json)
| Malformed (e : exn).

Record response : Type := mkResponse {
  status_code : Z;
  content : body
}.

(** [session.get]: an exception once the retries are used up, or a response. *)
Inductive http_outcome : Type :=
| HttpRaise (e : exn)
| HttpResponse (r : response).

(** The transport adapter of a session: [HTTPAdapter()], which retries
    nothing, or [HTTPAdapter(max_retries=Retry(total, backoff_factor))]. *)
Inductive adapter : Type :=
| DefaultAdapter
| RetryAdapter (total : Z) (backoff_factor : Q).

(** A call of [session.get]: the URL, whether the cache-busting parameter
    was sent, and the adapter the session has for the URL, None when no
    mounted prefix matches it. *)
Record request : Type := mkRequest {
  req_url : string;
  req_bust : bool;
  req_adapter : option adapter
}.

Record SlackMessage : Type := mkSlackMessage {
  msg_token : string;
  msg_channel : string;
  msg_text : text;
  msg_header : text;
  msg_description : string;
  msg_fields : list text
}.

(** [client.chat_postMessage]: an exception, or the truth of
    [response.get("ok", False)]. *)
Inductive slack_outcome : Type :=
| SlackRaise (e : exn)
| SlackResponse (ok : bool).

Inductive draw_cmd : Type :=
| DrawLine (x0 y0 x1 y1 : Z)
| DrawText (x y : Z) (t : text) (font_size : Z).

(** Calls on the e-Paper driver, the GPIO library and the image file. *)
Inductive device_op : Type :=
| EpdOpen
| EpdInit
| EpdClear (color : string)
| EpdSleep
| EpdDisplay (canvas : list draw_cmd)
| SaveImage (canvas : list draw_cmd)
| GpioCleanup
| GpioSetmode.

Record World : Type := mkWorld {
  (* the outside: what each call will answer *)
  getenv : string -> option string;
  http_get : nat -> string -> http_outcome;
  chat_postMessage : nat -> SlackMessage -> slack_outcome;
  device_fault : nat -> bool;
  (* what has happened so far *)
  requests : list request;
  slack_sent : list SlackMessage;
  device_calls : nat;
  device_trace : list device_op;
  log : list log_record;
  (* PiAware.receiver_position *)
  receiver_position : option Position
}.

(** The host platform, the libraries and the constants read from the
    environment when the module is imported. *)
Record Platform : Type := mkPlatform {
  (* urllib.parse.urlparse: scheme and netloc, None when it raises *)
  urlparse : string -> option (string * string);
  sys_maxsize : Z;
  (* str(v) of a value that is not a string *)
  py_repr : json -> string;
  (* round(x, ndigits) *)
  py_round : R -> Z -> R;
  (* signal.Signals(n).name, None when n is no signal *)
  signal_name : Z -> option string;
  (* str(timedelta(seconds=v)) *)
  str_timedelta : json -> outcome string;
  (* datetime.fromtimestamp(v / 1000).strftime(...) *)
  strftime_millis : json -> outcome string;
  (* round(v, 2) *)
  round2 : json -> outcome json;
  (* os.cpu_count() * 100 *)
  cpu_count_percent : outcome json;
  (* Helpers.get_local_ip() *)
  local_ip : outcome string;
  (* ImageFont.truetype, twice *)
  load_fonts : outcome unit;
  PIAWARE_HOST : string;
  FLIGHTRADAR_HOST : string;
  (* int(PIAWARE_RETRIES), float(PIAWARE_BACKOFF): None when they raise *)
  PIAWARE_RETRIES : option Z;
  PIAWARE_BACKOFF : option Q;
  RUNNING_IN_DOCKER : bool
}.

Definition EMERGENCY_SQUAWK : list (string * string) :=
  [ ("7500", "Unlawful interference (hijacking)");
    ("7600", "Aircraft has lost verbal communication");
    ("7700", "General emergency") ].

Definition ICAO_OF_SPECIAL_INTEREST : list (string * string) :=
  [ ("3EA12C", "Luftwaffe A350-900 VIP 10+01 Konrad Adenauer");
    ("3F5D91", "Luftwaffe A350-900 VIP 10+02 Theodor Heuss");
    ("3E854F", "Luftwaffe A350-900 VIP 10+03 Kurt Schumacher") ].

Definition REGISTRATION_OF_SPECIAL_INTEREST : list (string * string) := [].

(* ----------------------------------------------------------------- *)
(** *** The monad of engine calls *)

Definition M (A : Type) : Type := World -> outcome A * World.

Definition ret {A : Type} (a : A) : M A := fun w => (Ok a, w).

Definition bind {A B : Type} (c : M A) (k : A -> M B) : M B :=
  fun w =>
    match c w with
    | (Ok a, w') => k a w'
    | (Raise e, w') => (Raise e, w')
    | (Exit n, w') => (Exit n, w')
    end.

Definition throw {A : Type} (e : exn) : M A := fun w => (Raise e, w).

Definition sys_exit {A : Type} (code : Z) : M A := fun w => (Exit code, w).

Definition lift {A : Type} (o : outcome A) : M A := fun w => (o, w).

(** [try: c except E as e: h e], [catches] telling which exceptions are E. *)
Definition try_except {A : Type} (c : M A) (catches : exn -> bool)
  (h : exn -> M A) : M A :=
  fun w =>
    match c w with
    | (Raise e, w') => if catches e then h e w' else (Raise e, w')
    | r => r
    end.

Declare Scope engine_scope.
Delimit Scope engine_scope with engine.

Notation "x <- c1 ;; c2" := (bind c1 (fun x => c2))
  (at level 100, c1 at next level, right associativity) : engine_scope.
Notation "c1 ;; c2" := (bind c1 (fun _ => c2))
  (at level 100, right associativity) : engine_scope.

Local Open Scope engine_scope.

Definition set_log (w : World) (l : list log_record) : World :=
  mkWorld (getenv w) (http_get w) (chat_postMessage w) (device_fault w)
    (requests w) (slack_sent w) (device_calls w) (device_trace w) l
    (receiver_position w).

Definition set_requests (w : World) (r : list request) : World :=
  mkWorld (getenv w) (http_get w) (chat_postMessage w) (device_fault w)
    r (slack_sent w) (device_calls w) (device_trace w) (log w)
    (receiver_position w).

Definition set_slack_sent (w : World) (s : list SlackMessage) : World :=
  mkWorld (getenv w) (http_get w) (chat_postMessage w) (device_fault w)
    (requests w) s (device_calls w) (device_trace w) (log w)
    (receiver_position w).

Definition set_device (w : World) (n : nat) (t : list device_op) : World :=
  mkWorld (getenv w) (http_get w) (chat_postMessage w) (device_fault w)
    (requests w) (slack_sent w) n t (log w) (receiver_position w).

Definition set_receiver_position (w : World) (p : option Position) : World :=
  mkWorld (getenv w) (http_get w) (chat_postMessage w) (device_fault w)
    (requests w) (slack_sent w) (device_calls w) (device_trace w) (log w) p.

(** [logging.<level>(format, *args)]. *)
Definition logging (lv : level) (format : string) (args : text) : M unit :=
  fun w => (Ok tt, set_log w (log w ++ [mkLog lv format args])).

(** [os.getenv(name)]. *)
Definition os_getenv (name : string) : M (option string) :=
  fun w => (Ok (getenv w name), w).

(** [Session.mount(prefix, adapter)]: the prefix takes the adapter, in
    its place when it is mounted already and last otherwise, and every
    shorter prefix is moved behind. *)
Definition mount (adapters : list (string * adapter)) (prefix : string)
  (a : adapter) : list (string * adapter) :=
  let mounted :=
    if existsb (fun kv => String.eqb (fst kv) prefix) adapters
    then map (fun kv => if String.eqb (fst kv) prefix then (prefix, a) else kv)
           adapters
    else adapters ++ [(prefix, a)] in
  let shorter (kv : string * adapter) :=
    (String.length (fst kv) <? String.length prefix)%nat in
  filter (fun kv => negb (shorter kv)) mounted ++ filter shorter mounted.

(** [requests.Session()]: the two default adapters. *)
Definition new_session : list (string * adapter) :=
  mount (mount [] "https://" DefaultAdapter) "http://" DefaultAdapter.

(** [Session.get_adapter(url)]: the first mounted prefix the URL starts
    with, both in lower case. *)
Definition get_adapter (adapters : list (string * adapter)) (url : string)
  : option adapter :=
  option_map snd
    (find (fun kv => String.prefix (lower (fst kv)) (lower url)) adapters).

(** [session.get(url, params=cache_bust)]: the call is recorded with the
    adapter the session picks for the URL, and it ends as [http_get] says,
    with a response or with the exception the session raises (the retries
    of the adapter used up, no adapter mounted for the URL). *)
Definition session_get (session : list (string * adapter)) (url : string)
  (bust : bool) : M http_outcome :=
  fun w =>
    (Ok (http_get w (List.length (requests w)) url),
     set_requests w
       (requests w ++ [mkRequest url bust (get_adapter session url)])).

(** One call on the display, the GPIO pins or the image file: it raises
    IOError when the device faults, and is recorded when it succeeds. *)
Definition device (op : device_op) : M unit :=
  fun w =>
    if device_fault w (device_calls w)
    then (Raise (Exn OSError "device"),
          set_device w (S (device_calls w)) (device_trace w))
    else (Ok tt, set_device w (S (device_calls w)) (device_trace w ++ [op])).

(** [r.json()]. *)
Definition response_json (r : response) : outcome json :=
  match content r with
  | Parsed j => Ok j
  | Malformed e => Raise e
  end.

(** [bool(r)], which is [r.ok]: no status from 400 to 599. *)
Definition response_ok (r : response) : bool :=
  negb ((400 <=? status_code r) && (status_code r <? 600)).

(* ================================================================= *)
(** ** Helpers *)

Definition newline : string := String (ascii_of_nat 10) EmptyString.

Fixpoint assoc (k : string) (t : list (string * string)) : option string :=
  match t with
  | [] => None
  | (k', d) :: rest => if String.eqb k k' then Some d else assoc k rest
  end.

(** [table[key]] on one of the three constant tables. *)
Definition table_getitem (t : list (string * string)) (key : json)
  : outcome string :=
  match key with
  | JStr s =>
      match assoc s t with
      | Some d => Ok d
      | None => Raise (Exn KeyError s)
      end
  | JArr _ | JObj _ => Raise (Exn TypeError "unhashable type")
  | _ => Raise (Exn KeyError "key")
  end.

(** [string[0].upper() + string[1:]]. *)
Definition ucfirst (v : json) : outcome string :=
  match v with
  | JStr EmptyString => Raise (Exn IndexError "string index out of range")
  | JStr (String c s') => Ok (String (upper_ascii c) s')
  | JArr [] => Raise (Exn IndexError "list index out of range")
  | JArr (JStr _ :: _) => Raise (Exn TypeError "can only concatenate str to str")
  | JArr (_ :: _) => Raise (Exn AttributeError "object has no attribute upper")
  | JObj _ => Raise (Exn KeyError "0")
  | _ => Raise (Exn TypeError "object is not subscriptable")
  end.

Definition format_slack_field (key : string) (value : text) : text :=
  PStr ("*" ++ key ++ ":*" ++ newline)%string :: value.

(** Find a value in a list or throw. *)
Definition check_supported (needle : string) (haystack : list string)
  : outcome bool :=
  if existsb (String.eqb needle) haystack then Ok true
  else Raise (Exn ValueError
                ("Value " ++ dquote ++ needle ++ dquote
                 ++ " unsupported. Supported: " ++ repr_list haystack)%string).

(** [any(element.upper() == needle.upper() for element in haystack)]. *)
Fixpoint contains_any (needle : json) (haystack : list string) : outcome bool :=
  match haystack with
  | [] => Ok false
  | element :: rest =>
      obind (py_upper needle) (fun n =>
        if String.eqb (upper element) n then Ok true
        else contains_any needle rest)
  end.

Definition bool_from_env (needle : string) : M bool :=
  let wanted := upper needle in
  v <- os_getenv wanted;;
  let s := lower (match v with Some x => x | None => "False" end) in
  ret (existsb (String.eqb s) ["true"; "1"; "t"]).

(** What the caller passes as [distance]: kilometers, or a string. *)
Inductive distance_arg : Type :=
| DistKm (km : R)
| DistStr (s : string).

Section Engine.

Variable plat : Platform.

(** [str(string).strip()]. *)
Definition trim (v : json) : string :=
  strip (match v with JStr s => s | _ => py_repr plat v end).

Definition is_valid_url (url : string) : bool :=
  match urlparse plat url with
  | Some (scheme, netloc) =>
      negb (String.eqb scheme EmptyString)
      && negb (String.eqb netloc EmptyString)
  | None => false
  end.

Definition to_kilometers (meters : R) (decimals : Z) : R :=
  py_round plat (meters / 1000)%R decimals.

(** [Helpers.download]: the response, or None for the False it returns. *)
Definition download (url : string) (retry : option Z) (backoff : option Q)
  (bust : bool) : M (option response) :=
  if negb (is_valid_url url)
  then throw (Exn RuntimeError ("URL " ++ url ++ " is invalid")%string)
  else
    retry' <- match retry with
              | Some r => ret r
              | None =>
                  match PIAWARE_RETRIES plat with
                  | Some r => ret r
                  | None => throw (Exn ValueError "invalid literal for int()")
                  end
              end;;
    backoff' <- match backoff with
                | Some b => ret b
                | None =>
                    match PIAWARE_BACKOFF plat with
                    | Some b => ret b
                    | None => throw (Exn ValueError "could not convert string to float")
                    end
                end;;
    let session :=
      mount new_session (PIAWARE_HOST plat) (RetryAdapter retry' backoff') in
    got <- session_get session url bust;;
    match got with
    | HttpResponse r =>
        if status_code r =? 200 then ret (Some r) else ret None
    | HttpRaise (Exn _ msg) =>
        logging ERROR "Error GETing %s (error: %s)" [PStr url; PStr msg];;
        ret None
    end.

Definition status_url : string := (PIAWARE_HOST plat ++ "/status.json")%string.
Definition receiver_url : string :=
  (PIAWARE_HOST plat ++ "/skyaware/data/receiver.json")%string.
Definition aircraft_url : string :=
  (PIAWARE_HOST plat ++ "/skyaware/data/aircraft.json")%string.
Definition monitor_url : string :=
  (FLIGHTRADAR_HOST plat ++ "/monitor.json")%string.

Definition get_status : M json :=
  r <- download status_url None None true;;
  match r with
  | Some resp =>
      if response_ok resp then lift (response_json resp) else ret (JObj [])
  | None => ret (JObj [])
  end.

Definition get_receiver : M json :=
  r <- download receiver_url None None true;;
  match r with
  | Some resp => lift (response_json resp)
  | None => ret (JObj [])
  end.

Definition get_receiver_position : M Position :=
  fun w =>
    match receiver_position w with
    | Some p =>
        (logging DEBUG "Found own %s"
           [PVal (latitude p); PVal (longitude p)];;
         ret p) w
    | None =>
        (receiver <- get_receiver;;
         has_pos <- lift (issubset ["lat"; "lon"] receiver);;
         if has_pos then
           lat <- lift (py_getitem receiver "lat");;
           lon <- lift (py_getitem receiver "lon");;
           logging DEBUG "Own %s" [PVal lat; PVal lon];;
           ret (mkPosition lat lon)
         else
           logging ERROR "Could not get own Location. Own %s"
             [PVal (JNum 0); PVal (JNum 0)];;
           ret (mkPosition (JNum 0) (JNum 0))) w
    end.

(* ----------------------------------------------------------------- *)
(** *** Notification dispatcher *)

Definition distance_field (distance : distance_arg) : text :=
  match distance with
  | DistStr s =>
      if String.eqb (lower s) "unknown" then [PStr s]
      else [PStr s; PStr " km"]
  | DistKm km => [PFloat km; PStr " km"]
  end.

(** The body of the [try] in [send_slack_notification]. *)
Definition post_slack_message (slack_token slack_channel : string)
  (icao_reg : json) (callsign : string) (squawk : json)
  (distance : distance_arg) (mode : string) : M bool :=
  piaware_host <- match urlparse plat (PIAWARE_HOST plat) with
                  | Some (_, netloc) => ret netloc
                  | None => throw (Exn ValueError "urlparse")
                  end;;
  blocks <- lift
    (if String.eqb mode "emergency" then
       obind (table_getitem EMERGENCY_SQUAWK squawk) (fun d =>
         Ok ([PStr "ICAO Emergency Squawk "; PVal squawk],
             [PStr "ICAO Emergency Squawk on "; PStr piaware_host], d))
     else if String.eqb mode "registration" then
       obind (table_getitem REGISTRATION_OF_SPECIAL_INTEREST (JStr callsign))
         (fun d =>
         Ok ([PStr "Registration of Special Interest "; PStr callsign],
             [PStr "Registration of Special Interest on "; PStr piaware_host],
             d))
     else
       obind (table_getitem ICAO_OF_SPECIAL_INTEREST icao_reg) (fun d =>
         Ok ([PStr "Flight of Special Interest "; PStr callsign],
             [PStr "Flight of Special Interest on "; PStr piaware_host], d)));;
  let '(summary, header_block, description_block) := blocks in
  let message :=
    mkSlackMessage slack_token slack_channel summary header_block
      description_block
      [ format_slack_field "Aircraft" [PVal icao_reg];
        format_slack_field "Callsign" [PStr callsign];
        format_slack_field "Squawk" [PVal squawk];
        format_slack_field "Distance" (distance_field distance);
        format_slack_field "Tar1090"
          [PStr "<"; PStr (PIAWARE_HOST plat); PStr "/tar1090/?icao=";
           PVal icao_reg; PStr "|Open>"];
        format_slack_field "SkyAware"
          [PStr "<"; PStr (PIAWARE_HOST plat); PStr "/skyaware/|Open>"] ] in
  fun w =>
    let w' := set_slack_sent w (slack_sent w ++ [message]) in
    match chat_postMessage w (List.length (slack_sent w)) message with
    | SlackRaise e => (Raise e, w')
    | SlackResponse ok => (Ok ok, w')
    end.

Definition send_slack_notification (icao_reg : json) (callsign : string)
  (squawk : json) (distance : distance_arg) (mode : string) : M bool :=
  slack_token <- os_getenv "SLACK_BOT_TOKEN";;
  slack_channel <- os_getenv "SLACK_CHANNEL";;
  match slack_token, slack_channel with
  | Some token, Some channel =>
      lift (check_supported mode ["emergency"; "registration"; "icao"]);;
      try_except
        (post_slack_message token channel icao_reg callsign squawk
           distance mode)
        (fun _ => true)
        (fun e =>
           logging ERROR "Unable to Send Slack Message: %s"
             [PStr (match e with Exn _ msg => msg end)];;
           ret false)
  | _, _ => ret false
  end.

(* ----------------------------------------------------------------- *)
(** *** Watchlist scan *)

(** The distance of [aircraft] from the receiver, resolved as
    [__process_special_interest] does it. *)
Definition special_interest_distance (aircraft : json) : M distance_arg :=
  has_pos <- lift (issubset ["lat"; "lon"] aircraft);;
  if has_pos then
    origin <- get_receiver_position;;
    lat <- lift (py_getitem aircraft "lat");;
    lon <- lift (py_getitem aircraft "lon");;
    d <- lift (haversine_distance origin (mkPosition lat lon) earth_radius);;
    ret (DistKm (to_kilometers d 2))
  else ret (DistStr "unknown").

Definition trimmed_or_unknown (aircraft : json) (key : string) : M string :=
  has <- lift (py_in key aircraft);;
  if has then
    v <- lift (py_getitem aircraft key);;
    ret (trim v)
  else ret "unknown".

Definition process_special_interest (aircraft : json) : M unit :=
  has_flight <- lift (py_in "flight" aircraft);;
  (if has_flight
      && (1 <=? Z.of_nat (List.length REGISTRATION_OF_SPECIAL_INTEREST))
   then
     flight_value <- lift (py_getitem aircraft "flight");;
     let flight := trim flight_value in
     contains_registration <-
       lift (contains_any (JStr flight)
               (map fst REGISTRATION_OF_SPECIAL_INTEREST));;
     if contains_registration then
       distance <- special_interest_distance aircraft;;
       squawk <- trimmed_or_unknown aircraft "squawk";;
       hex <- lift (py_getitem aircraft "hex");;
       sent <- send_slack_notification hex flight (JStr squawk) distance
                 "registration";;
       if sent then
         remarks <- lift (table_getitem REGISTRATION_OF_SPECIAL_INTEREST
                            (JStr flight));;
         logging INFO
           "Found Registration of Special Interest (%s) in %s km distance. Remarks: %s"
           ([PStr flight] ++ distance_field distance ++ [PStr remarks])
       else ret tt
     else ret tt
   else ret tt);;
  has_hex <- lift (py_in "hex" aircraft);;
  if has_hex && (1 <=? Z.of_nat (List.length ICAO_OF_SPECIAL_INTEREST))
  then
    hex_value <- lift (py_getitem aircraft "hex");;
    let hex := upper (trim hex_value) in
    contains_icao <-
      lift (contains_any (JStr hex) (map fst ICAO_OF_SPECIAL_INTEREST));;
    if contains_icao then
      distance <- special_interest_distance aircraft;;
      flight <- trimmed_or_unknown aircraft "flight";;
      squawk <- trimmed_or_unknown aircraft "squawk";;
      sent <- send_slack_notification (JStr hex) flight (JStr squawk) distance
                "icao";;
      if sent then
        remarks <- lift (table_getitem ICAO_OF_SPECIAL_INTEREST
                           (JStr (upper hex)));;
        logging INFO
          "Found Flight of Special Interest (hex:%s) in %s km distance. Remarks: %s"
          ([PStr (lower hex)] ++ distance_field distance ++ [PStr remarks])
      else ret tt
    else ret tt
  else ret tt.

(* ----------------------------------------------------------------- *)
(** *** Aircraft filter *)

(** [key in aircraft and aircraft[key] <= threshold]. *)
Definition seen_within (key : string) (threshold : Z) (aircraft : json)
  : outcome bool :=
  obind (py_in key aircraft) (fun has =>
    if has then
      obind (py_getitem aircraft key) (fun v => py_le v threshold)
    else Ok false).

(** ["mlat" in aircraft and "lat" in aircraft["mlat"]]. *)
Definition has_mlat (aircraft : json) : outcome bool :=
  obind (py_in "mlat" aircraft) (fun has =>
    if has then
      obind (py_getitem aircraft "mlat") (fun m => py_in "lat" m)
    else Ok false).

(** The loop of [get_aircrafts] over [json["aircraft"]], [res] being the
    list built so far. *)
Fixpoint filter_aircrafts (pos : bool) (mode : string) (threshold : Z)
  (aircrafts : list json) (res : list json) : M (list json) :=
  match aircrafts with
  | [] => ret res
  | aircraft :: rest =>
      res' <-
        (if String.eqb mode "adsb" then
           if pos then
             keep <- lift (seen_within "seen_pos" threshold aircraft);;
             if keep then
               process_special_interest aircraft;;
               ret (res ++ [aircraft])
             else ret res
           else
             keep <- lift (seen_within "seen" threshold aircraft);;
             if keep then ret (res ++ [aircraft]) else ret res
         else if String.eqb mode "mlat" then
           keep <- lift (has_mlat aircraft);;
           if keep then ret (res ++ [aircraft]) else ret res
         else
           logging WARNING "Unknown Mode: %s" [PStr mode];;
           ret res);;
      filter_aircrafts pos mode threshold rest res'
  end.

(** The tail of [get_aircrafts]: log the count and return it. *)
Definition count_aircrafts (pos : bool) (mode : string) (threshold : Z)
  (res : list json) : M json :=
  let ac_count := Z.of_nat (List.length res) in
  logging INFO "Found %s total Flights (Position: %s, Mode: %s, Threshold: %ss)"
    [PInt ac_count; PVal (JBool pos); PStr mode; PInt threshold];;
  ret (JNum (inject_Z ac_count)).

(** [PiAware.get_aircrafts]: the raw document or the count, both Python
    values. *)
Definition get_aircrafts (pos : bool) (mode : string) (threshold : Z)
  (raw : bool) : M json :=
  lift (check_supported mode ["adsb"; "mlat"]);;
  r <- download aircraft_url None None true;;
  json <- match r with
          | Some resp => lift (response_json resp)
          | None => ret (JObj [])
          end;;
  has_aircraft <- lift (py_in "aircraft" json);;
  if has_aircraft then
    if raw then ret json
    else
      aircrafts <- lift (obind (py_getitem json "aircraft") py_iter);;
      res <- filter_aircrafts pos mode threshold aircrafts [];;
      count_aircrafts pos mode threshold res
  else count_aircrafts pos mode threshold [].

(* ----------------------------------------------------------------- *)
(** *** Minimum and maximum range *)

(** The loop of [Helpers.distance]. *)
Fixpoint range_scan (origin : Position) (mode : string) (threshold : Z)
  (aircrafts : list json) (aircraft_range : R) : M R :=
  match aircrafts with
  | [] => ret aircraft_range
  | aircraft :: rest =>
      located <- lift (issubset ["lat"; "lon"; "seen_pos"] aircraft);;
      aircraft_range' <-
        (if located then
           seen_pos <- lift (py_getitem aircraft "seen_pos");;
           recent <- lift (py_le seen_pos threshold);;
           if recent then
             lat <- lift (py_getitem aircraft "lat");;
             lon <- lift (py_getitem aircraft "lon");;
             distance <- lift (haversine_distance origin (mkPosition lat lon)
                                 earth_radius);;
             if String.eqb mode "max" then
               ret (if Rgt_dec distance aircraft_range
                    then distance else aircraft_range)
             else
               ret (if Rlt_dec distance aircraft_range
                    then distance else aircraft_range)
           else ret aircraft_range
         else ret aircraft_range);;
      range_scan origin mode threshold rest aircraft_range'
  end.

(** The accumulator [Helpers.distance] starts from. *)
Definition initial_range (mode : string) : R :=
  if String.eqb mode "max" then 0%R else IZR (sys_maxsize plat).

Definition distance (origin : Position) (mode : string) (threshold : Z)
  : M R :=
  lift (check_supported mode ["min"; "max"]);;
  aircrafts <- get_aircrafts true "adsb" 120 true;;
  let aircraft_range := initial_range mode in
  items <- lift (obind (py_getitem aircrafts "aircraft") py_iter);;
  aircraft_range' <- range_scan origin mode threshold items aircraft_range;;
  mode_name <- lift (ucfirst (JStr mode));;
  logging INFO "%s Aircraft Distance: %s km"
    [PStr mode_name; PFloat (to_kilometers aircraft_range' 2)];;
  ret aircraft_range'.

(* ----------------------------------------------------------------- *)
(** *** Emergency scan *)

(** What [__has_emergency] returns: the status slug or the count. *)
Inductive emergency_result : Type :=
| Slug (status : text)
| Count (emergency : Z).

(** The loop of [__has_emergency]. *)
Fixpoint emergency_scan (origin : Position) (aircrafts : list json)
  (emergency : Z) : M Z :=
  match aircrafts with
  | [] => ret emergency
  | aircraft :: rest =>
      has_squawk <- lift (py_in "squawk" aircraft);;
      emergency' <-
        (if has_squawk then
           squawk <- lift (py_getitem aircraft "squawk");;
           contains <- lift (contains_any squawk (map fst EMERGENCY_SQUAWK));;
           if contains then
             flight <- trimmed_or_unknown aircraft "flight";;
             has_pos <- lift (issubset ["lat"; "lon"] aircraft);;
             aircraft_distance <-
               (if has_pos then
                  lat <- lift (py_getitem aircraft "lat");;
                  lon <- lift (py_getitem aircraft "lon");;
                  d <- lift (haversine_distance origin (mkPosition lat lon)
                               earth_radius);;
                  ret (DistKm (to_kilometers d 2))
                else ret (DistStr "unknown"));;
             hex <- lift (py_getitem aircraft "hex");;
             notification_sent <-
               send_slack_notification hex flight squawk aircraft_distance
                 "emergency";;
             logging WARNING
               "Aircraft %s (Callsign %s) with ICAO Emergency Squawk %s found in %s km distance (Notification sent %s)"
               ([PVal hex; PStr flight; PVal squawk]
                ++ distance_field aircraft_distance
                ++ [PVal (JBool notification_sent)]);;
             ret (emergency + 1)
           else ret emergency
         else ret emergency);;
      emergency_scan origin rest emergency'
  end.

Definition has_emergency (current_status : text) (mode : string)
  : M emergency_result :=
  lift (check_supported mode ["slug"; "count"]);;
  aircrafts <- get_aircrafts true "adsb" 120 true;;
  present <- lift (py_in "aircraft" aircrafts);;
  emergency <-
    (if present then
       origin <- get_receiver_position;;
       items <- lift (obind (py_getitem aircrafts "aircraft") py_iter);;
       emergency_scan origin items 0
     else ret 666);;
  if String.eqb mode "slug" then
    if 1 <=? emergency
    then ret (Slug [PStr "!!! SQUAWK 7x00 (Count: "; PInt emergency;
                    PStr ") !!!"])
    else ret (Slug current_status)
  else ret (Count emergency).

(* ----------------------------------------------------------------- *)
(** *** Secondary feed status *)

Definition get_fr24_status : M text :=
  r <- download monitor_url (Some 2) (Some (1 # 10)%Q) true;;
  fr24 <- match r with
          | Some resp => lift (response_json resp)
          | None => ret (JObj [])
          end;;
  has_status <- lift (py_in "feed_status" fr24);;
  connected <-
    (if has_status then
       v <- lift (py_getitem fr24 "feed_status");;
       ret (is_str "connected" v)
     else ret false);;
  status <-
    (if connected then
       current_mode <- lift (py_getitem fr24 "feed_current_mode");;
       ret [PStr "Connected via "; PVal current_mode]
     else
       has_status' <- lift (py_in "feed_status" fr24);;
       if has_status' then
         v <- lift (py_getitem fr24 "feed_status");;
         s <- lift (ucfirst v);;
         ret [PStr s]
       else ret [PStr "unknown"]);;
  logging INFO "Flightradar24 Status: %s" status;;
  ret status.

(* ----------------------------------------------------------------- *)
(** *** Display, shutdown and the refresh cycle *)

(** [PiAware.__clear]. *)
Definition clear (do_clear do_sleep : bool) (display_color : string) : M unit :=
  device EpdOpen;;
  device EpdInit;;
  (if do_clear then
     color <-
       (if existsb (String.eqb display_color) ["0x00"; "0xFF"]
        then ret display_color
        else
          logging WARNING "Got invalid Display Color: %s - Resetting to 0xFF."
            [PStr display_color];;
          ret "0xFF");;
     device (EpdClear color)
   else ret tt);;
  if do_sleep then device EpdSleep else ret tt.

(** [PiAware.__shutdown]. *)
Definition shutdown (signal_number : Z) : M unit :=
  match signal_name plat signal_number with
  | None => throw (Exn ValueError "is not a valid Signals")
  | Some name =>
      if String.eqb name "SIGHUP" then
        logging INFO "Received %s, ignoring." [PStr name]
      else
        logging INFO "Shutting down on Signal %s (%s)."
          [PInt signal_number; PStr name];;
        clear true true "0xFF";;
        device GpioCleanup;;
        device GpioSetmode;;
        logging INFO "Shutdown on Signal %s complete." [PStr name];;
        sys_exit 0
  end.

(** One field of the status document for the display: the text to show and
    whether the field was missing. *)
Definition status_field (status : json) (key : string)
  (show : json -> outcome text) (fallback : string) : M (bool * text) :=
  present <- lift (py_in key status);;
  if present then
    v <- lift (py_getitem status key);;
    t <- lift (show v);;
    ret (false, t)
  else ret (true, [PStr fallback]).

Definition show_message (v : json) : outcome text :=
  obind (py_getitem v "message") (fun m => Ok [PVal m]).

Definition show_string (f : json -> outcome string) (v : json) : outcome text :=
  obind (f v) (fun s => Ok [PStr s]).

(** The status block of [refresh]: the five display lines and the slug. *)
Definition refresh_status (status : json) : M (text * list text) :=
  let status_slug := [PStr "OK"] in
  enable_fr24 <- bool_from_env "ENABLE_FR24";;
  status_slug <-
    (if enable_fr24 then
       fr24 <- get_fr24_status;;
       ret (status_slug ++ [PStr ", fr24: "] ++ fr24)
     else ret status_slug);;
  uptime <- status_field status "system_uptime"
              (show_string (str_timedelta plat)) "Failed API Call";;
  status_time <- status_field status "time"
                   (show_string (strftime_millis plat))
                   "!!! Failed to get System Time";;
  status_gps <- status_field status "gps" show_message
                  "!!! Failed to get GPS Status";;
  status_radio <- status_field status "radio" show_message
                    "!!! Failed to get Radio Status";;
  status_piaware <- status_field status "piaware" show_message
                      "!!! Failed to get PiAware Status";;
  let error :=
    fst uptime || fst status_time || fst status_gps || fst status_radio
    || fst status_piaware in
  let status_slug :=
    if error then [PStr "NEEDS ATTENTION"] else status_slug in
  slug <- has_emergency status_slug "slug";;
  let status_slug :=
    match slug with Slug t => t | Count n => [PInt n] end in
  ret (status_slug,
       [snd uptime; snd status_time; snd status_piaware; snd status_gps;
        snd status_radio]).

(** The aircraft block of [refresh]: three counters and two ranges. *)
Definition refresh_aircrafts : M (list draw_cmd) :=
  origin <- get_receiver_position;;
  let ths := 120 in
  count_all <- get_aircrafts false "adsb" ths false;;
  count_pos <- get_aircrafts true "adsb" ths false;;
  count_mlat <- get_aircrafts true "mlat" ths false;;
  min_range <- distance origin "min" ths;;
  max_range <- distance origin "max" ths;;
  ret [ DrawText 4 90 [PStr "Aircrafts"] 11;
        DrawText 8 103 [PStr "Count (all): "; PVal count_all] 12;
        DrawText 8 116 [PStr "Count (w/ pos): "; PVal count_pos] 12;
        DrawText 8 129 [PStr "Count (MLAT): "; PVal count_mlat] 12;
        DrawText 8 142
          [PStr "Min Range: "; PFloat (to_kilometers min_range 1);
           PStr " km"] 12;
        DrawText 8 155
          [PStr "Max Range: "; PFloat (to_kilometers max_range 1);
           PStr " km"] 12 ].

(** The operating system block of [refresh]. *)
Definition refresh_os (status : json) (uptime : text) (cycle : option Z)
  : M (list draw_cmd) :=
  has_temp <- lift (py_in "cpu_temp_celcius" status);;
  status_temp <-
    (if has_temp then
       v <- lift (py_getitem status "cpu_temp_celcius");;
       t <- lift (round2 plat v);;
       ret (PVal t)
     else ret (PStr "-273.15"));;
  has_load <- lift (py_in "cpu_load_percent" status);;
  status_load <-
    (if has_load then lift (py_getitem status "cpu_load_percent")
     else lift (cpu_count_percent plat));;
  ip <- lift (local_ip plat);;
  cycle_text <-
    match cycle with
    | Some c => ret (PInt c)
    | None => throw (Exn TypeError "unsupported format string")
    end;;
  ret [ DrawText 136 90 [PStr "Receiver OS"] 11;
        DrawText 140 103 (PStr "Up: " :: uptime) 12;
        DrawText 140 116 [PStr "CPU Load: "; PVal status_load; PStr "%"] 12;
        DrawText 140 129 [PStr "CPU Temp: "; status_temp; PStr " C"] 12;
        DrawText 136 147 [PStr "Cycle: "; cycle_text] 11;
        DrawText 136 160 [PStr "Display IP: "; PStr ip] 11 ].

Definition cycle_is_one (cycle : option Z) : bool :=
  match cycle with Some c => c =? 1 | None => false end.

(** The [try] block of [refresh]. *)
Definition refresh_body (cycle : option Z) : M (option Z) :=
  status <- get_status;;
  lines <- refresh_status status;;
  let '(status_slug, status_lines) := lines in
  let clear_display := cycle_is_one cycle in
  clear clear_display false "0xFF";;
  logging DEBUG "e-Paper Display is %sx%s (Height x Width)" [];;
  let header :=
    [ DrawLine 0 88 264 88; DrawLine 132 88 132 176;
      DrawText 4 4 ([PStr "Status ("] ++ status_slug ++ [PStr ")"]) 11;
      DrawText 8 20 (nth 1 status_lines []) 12;
      DrawText 8 35 (nth 2 status_lines []) 12;
      DrawText 8 50 (nth 3 status_lines []) 12;
      DrawText 8 65 (nth 4 status_lines []) 12 ] in
  aircrafts <- refresh_aircrafts;;
  os <- refresh_os status (nth 0 status_lines []) cycle;;
  let ep_image := header ++ aircrafts ++ os in
  device (EpdDisplay ep_image);;
  device EpdSleep;;
  (if RUNNING_IN_DOCKER plat then ret tt else device (SaveImage ep_image));;
  new_cycle <- match cycle with
               | Some c => ret (c + 1)
               | None => throw (Exn TypeError "unsupported operand type")
               end;;
  logging INFO "Refresh cycle %s complete after %ss"
    [match cycle with Some c => PInt c | None => PStr "None" end];;
  ret (Some new_cycle).

(** [PiAware.refresh]: the next cycle number, or None when the handler of
    IOError comes back from [__shutdown]. *)
Definition refresh (cycle : option Z) : M (option Z) :=
  lift (load_fonts plat);;
  try_except (refresh_body cycle) is_IOError
    (fun e =>
       logging ERROR "%s" [PStr (match e with Exn _ msg => msg end)];;
       shutdown 15;;
       ret None).

(** [PiAware.__process_interrupt]. *)
Definition process_interrupt (channel : Z) : M unit :=
  if channel =? 5 then
    logging INFO "Received Event on Pin %s - Clearing Display (Black)."
      [PInt channel];;
    clear true false "0x00"
  else if channel =? 6 then
    logging INFO "Received Event on Pin %s - Clearing Display (White)."
      [PInt channel];;
    clear true false "0xFF"
  else if channel =? 13 then
    logging INFO "Received Event on Pin %s - Executing Refresh."
      [PInt channel];;
    refresh (Some 0);;
    ret tt
  else if channel =? 19 then
    logging INFO "Received Event on Pin %s - Executing Shutdown."
      [PInt channel];;
    shutdown 15
  else throw (Exn ValueError "Unexpected Pin: %s").

(** The sleep of [process], [i] seconds of [sleepy_display] slept so far;
    the loop runs at most [n] more times. *)
Fixpoint sleeping (n : nat) (i : Z) (current_cycle : option Z) : M unit :=
  match n with
  | O => ret tt
  | S n' =>
      if i <? 300 then
        let i' := i + 1 in
        (if i' mod 30 =? 0 then
           logging INFO "Slept %s/%s seconds after refresh cycle %s"
             [PInt i'; PInt 300]
         else ret tt);;
        sleeping n' i' current_cycle
      else ret tt
  end.

(** One turn of the [while True] loop of [process]: the value of [cycle]
    for the next turn. *)
Definition process_iteration (cycle : option Z) : M (option Z) :=
  logging INFO "Starting Refresh Cycle %s" [];;
  let current_cycle := cycle in
  cycle' <- refresh current_cycle;;
  logging INFO
    "Sleeping for %s seconds after refresh cycle %s (Ping every %ss)"
    [PInt 300; PInt 30];;
  sleeping 300 0 current_cycle;;
  ret cycle'.

(** The part of [setup] that touches the engine: the receiver position is
    fetched once and cached. *)
Definition setup : M unit :=
  logging INFO "Running on PID: %s" [];;
  origin <- get_receiver_position;;
  fun w => (Ok tt, set_receiver_position w (Some origin)).

(* ----------------------------------------------------------------- *)
(** *** The loop and the events that reach it *)

(** The local variable [cycle] of [process], and the world. *)
Record System : Type := mkSystem {
  loop_cycle : option Z;
  world : World
}.

Inductive event : Type :=
| Tick
| Interrupt (channel : Z)
| Signal (signal_number : Z).

(** One event taken whole: a turn of the loop assigns [cycle], the
    handlers of pin events and signals have no access to it. *)
Definition step (ev : event) (s : System) : outcome unit * System :=
  match ev with
  | Tick =>
      match process_iteration (loop_cycle s) (world s) with
      | (Ok c, w) => (Ok tt, mkSystem c w)
      | (Raise e, w) => (Raise e, mkSystem (loop_cycle s) w)
      | (Exit n, w) => (Exit n, mkSystem (loop_cycle s) w)
      end
  | Interrupt channel =>
      let (r, w) := process_interrupt channel (world s) in
      (r, mkSystem (loop_cycle s) w)
  | Signal n =>
      let (r, w) := shutdown n (world s) in
      (r, mkSystem (loop_cycle s) w)
  end.

(** The device calls a run added to the trace. *)
Definition new_device_ops (before after : World) : list device_op :=
  skipn (List.length (device_trace before)) (device_trace after).

Definition is_clear (op : device_op) : bool :=
  match op with EpdClear _ => true | _ => false end.

End Engine.

(* ================================================================= *)
(** ** Sample platform and worlds *)

Fixpoint until_slash (s : string) : string :=
  match s with
  | EmptyString => EmptyString
  | String c s' =>
      if Ascii.eqb c "/"%char then EmptyString else String c (until_slash s')
  end.

(** A stand-in for [urlparse] that knows one scheme. *)
Definition sample_urlparse (url : string) : option (string * string) :=
  if String.prefix "http://" url
  then Some ("http", until_slash (String.substring 7 (String.length url) url))
  else Some (EmptyString, EmptyString).

Definition sample_signal_name (n : Z) : option string :=
  if n =? 1 then Some "SIGHUP"
  else if n =? 2 then Some "SIGINT"
  else if n =? 3 then Some "SIGQUIT"
  else if n =? 15 then Some "SIGTERM"
  else None.

Definition sample_platform : Platform :=
  mkPlatform sample_urlparse (2 ^ 63 - 1) (fun _ => "?") (fun x _ => x)
    sample_signal_name (fun _ => Ok "1:00:00")
    (fun _ => Ok "01.01.2024, 00:00:00") (fun v => Ok v) (Ok (JNum 400))
    (Ok "192.168.0.2") (Ok tt) "http://127.0.0.1:8080"
    "http://127.0.0.1:8754" (Some 10) (Some 1%Q) false.

(** The same with the secondary feed behind the PiAware host. *)
Definition proxied_platform : Platform :=
  mkPlatform sample_urlparse (2 ^ 63 - 1) (fun _ => "?") (fun x _ => x)
    sample_signal_name (fun _ => Ok "1:00:00")
    (fun _ => Ok "01.01.2024, 00:00:00") (fun v => Ok v) (Ok (JNum 400))
    (Ok "192.168.0.2") (Ok tt) "http://127.0.0.1:8080"
    "http://127.0.0.1:8080/fr24" (Some 10) (Some 1%Q) false.

(** A fresh world: nothing has happened, the transport acknowledges, the
    device works, no receiver position is cached. *)
Definition fresh_world (env : string -> option string)
  (http : nat -> string -> http_outcome) : World :=
  mkWorld env http (fun _ _ => SlackResponse true) (fun _ => false)
    [] [] O [] [] None.

Definition no_env (name : string) : option string := None.

Definition slack_env (name : string) : option string :=
  if String.eqb name "SLACK_BOT_TOKEN" then Some "xoxb-token"
  else if String.eqb name "SLACK_CHANNEL" then Some "#alerts"
  else None.

(** Every request fails after its retries. *)
Definition unreachable_world : World :=
  fresh_world no_env (fun _ _ => HttpRaise (Exn OSError "Connection refused")).

(** Every request is answered 500. *)
Definition server_error_world : World :=
  fresh_world no_env
    (fun _ _ => HttpResponse (mkResponse 500 (Malformed (Exn OSError "Expecting value")))).

(** Every request is answered 200 with a body that is not JSON. *)
Definition malformed_world : World :=
  fresh_world no_env
    (fun _ _ => HttpResponse (mkResponse 200 (Malformed (Exn OSError "Expecting value")))).

(** Every request is answered 200 with a document without "aircraft". *)
Definition keyless_world : World :=
  fresh_world no_env
    (fun _ _ => HttpResponse (mkResponse 200 (Parsed (JObj [("now", JNum 1)])))).

Definition sample_status : json :=
  JObj [ ("system_uptime", JNum 3600); ("time", JNum 1700000000000);
         ("gps", JObj [("message", JStr "GPS 3D fix")]);
         ("radio", JObj [("message", JStr "Receiving")]);
         ("piaware", JObj [("message", JStr "PiAware is running")]);
         ("cpu_temp_celcius", JNum 45); ("cpu_load_percent", JNum 7) ].

Definition sample_receiver : json :=
  JObj [("lat", JNum (51 # 1)); ("lon", JNum (7 # 1))].

Definition serve (aircraft : json) (n : nat) (url : string) : http_outcome :=
  if String.eqb url "http://127.0.0.1:8080/status.json"
  then HttpResponse (mkResponse 200 (Parsed sample_status))
  else if String.eqb url "http://127.0.0.1:8080/skyaware/data/receiver.json"
  then HttpResponse (mkResponse 200 (Parsed sample_receiver))
  else if String.eqb url "http://127.0.0.1:8080/skyaware/data/aircraft.json"
  then HttpResponse (mkResponse 200 (Parsed aircraft))
  else HttpRaise (Exn OSError "Connection refused").

(** The feed is up and no aircraft is in sight. *)
Definition empty_sky : json := JObj [("now", JNum 1); ("aircraft", JArr [])].

Definition empty_sky_world : World := fresh_world no_env (serve empty_sky).

(** The same after [setup]: the receiver position is cached. *)
Definition settled_empty_sky_world : World :=
  set_receiver_position empty_sky_world
    (Some (mkPosition (JNum 51) (JNum 7))).

(** The same with a display that fails its first call. *)
Definition faulty_display_world : World :=
  mkWorld no_env (serve empty_sky) (fun _ _ => SlackResponse true)
    (fun n => Nat.eqb n 0) [] [] O [] [] None.

(** The credentials are set and the transport raises on every send. *)
Definition refused_transport_world : World :=
  mkWorld slack_env (serve empty_sky)
    (fun _ _ => SlackRaise (Exn OtherError "channel_not_found"))
    (fun _ => false) [] [] O [] [] (Some (mkPosition (JNum 51) (JNum 7))).

(** Five records: position 30s old, position exactly 120s old, position
    121s old, no position age at all, and one seen 5s ago without position. *)
Definition sample_traffic : list json :=
  [ JObj [("hex", JStr "4ca2d1"); ("seen_pos", JNum 30); ("seen", JNum 1)];
    JObj [("hex", JStr "3c6444"); ("seen_pos", JNum 120); ("seen", JNum 2)];
    JObj [("hex", JStr "a1b2c3"); ("seen_pos", JNum 121); ("seen", JNum 120)];
    JObj [("hex", JStr "40621d"); ("seen", JNum 500)];
    JObj [("hex", JStr "abcdef"); ("seen", JNum 5)] ].

Definition traffic_world : World :=
  set_receiver_position
    (fresh_world slack_env
       (serve (JObj [("now", JNum 1); ("aircraft", JArr sample_traffic)])))
    (Some (mkPosition (JNum 51) (JNum 7))).

(** Three records, none with a recent position next to lat and lon. *)
Definition distant_traffic : list json :=
  [ JObj [("hex", JStr "4ca2d1"); ("lat", JNum 50); ("lon", JNum 8);
          ("seen_pos", JNum 300)];
    JObj [("hex", JStr "3c6444"); ("seen_pos", JNum 2)];
    JObj [("hex", JStr "a1b2c3"); ("lat", JNum 50); ("lon", JNum 8)] ].

Definition distant_world : World :=
  fresh_world no_env
    (serve (JObj [("now", JNum 1); ("aircraft", JArr distant_traffic)])).

(** The feed lists [aircrafts], the notification credentials are set and
    the receiver position is cached. *)
Definition feed_world (aircrafts : list json) : World :=
  set_receiver_position
    (fresh_world slack_env
       (serve (JObj [("now", JNum 1); ("aircraft", JArr aircrafts)])))
    (Some (mkPosition (JNum 51) (JNum 7))).

Definition quiet_record : json :=
  JObj [("hex", JStr "3c6444"); ("squawk", JStr "1000")].

(** One record squawking 7700 with its hex and position, one squawking
    1000 and one without a squawk. *)
Definition emergency_traffic : list json :=
  [ JObj [("hex", JStr "4ca2d1"); ("flight", JStr "RYR4AB  ");
          ("squawk", JStr "7700"); ("lat", JNum (101 # 2)); ("lon", JNum 8)];
    quiet_record;
    JObj [("hex", JStr "a1b2c3")] ].

(** A record squawking 7500 that lacks its hex. *)
Definition hexless_members : list (string * json) :=
  [("flight", JStr "DLH4AB"); ("squawk", JStr "7500")].

(** A record whose squawk came as a number. *)
Definition numeric_squawk_members : list (string * json) :=
  [("hex", JStr "4ca2d1"); ("squawk", JNum 7700)].

(** One record placed by multilateration, one with an empty mlat list and
    one without the list. *)
Definition mlat_traffic : list json :=
  [ JObj [("hex", JStr "4ca2d1"); ("mlat", JArr [JStr "lat"; JStr "lon"])];
    JObj [("hex", JStr "3c6444"); ("mlat", JArr [])];
    JObj [("hex", JStr "a1b2c3")] ].

(** Two records with a recent position. *)
Definition ranged_traffic : list json :=
  [ JObj [("hex", JStr "4ca2d1"); ("lat", JNum (101 # 2)); ("lon", JNum 8);
          ("seen_pos", JNum 3)];
    JObj [("hex", JStr "3c6444"); ("lat", JNum 52); ("lon", JNum 7);
          ("seen_pos", JNum 10)] ].

(** A record of the first aircraft of the watchlist, its hex in lower
    case and padded as the feed sends it. *)
Definition watchlist_members : list (string * json) :=
  [("hex", JStr "3ea12c "); ("flight", JStr "GAF001  ")].

(** The secondary feed answers with [feed_status] alone. *)
Definition fr24_world (feed_status : json) : World :=
  fresh_world no_env
    (fun _ url =>
       if String.eqb url "http://127.0.0.1:8754/monitor.json"
       then HttpResponse
              (mkResponse 200 (Parsed (JObj [("feed_status", feed_status)])))
       else HttpRaise (Exn OSError "Connection refused")).

(* ================================================================= *)
(** ** Vocabulary of the properties *)

(** The answer the next GET of [url] will get. *)
Definition fetched (w : World) (url : string) : http_outcome :=
  http_get w (List.length (requests w)) url.

(** The adapter that serves a GET of [url] in the session of [download]. *)
Definition served_by (plat : Platform) (url : string) (retry : Z)
  (backoff : Q) : option adapter :=
  get_adapter
    (mount new_session (PIAWARE_HOST plat) (RetryAdapter retry backoff)) url.

(** The world once that GET has been recorded. *)
Definition after_get (plat : Platform) (w : World) (url : string)
  (retry : Z) (backoff : Q) : World :=
  set_requests w
    (requests w ++ [mkRequest url true (served_by plat url retry backoff)]).

(** A transfer that fails: the retries are used up, or the status is not
    200. *)
Definition transfer_failed (o : http_outcome) : bool :=
  match o with
  | HttpRaise _ => true
  | HttpResponse r => negb (status_code r =? 200)
  end.

(** The aircraft resource is unavailable, or it is a mapping that lacks the
    "aircraft" key. *)
Definition feed_lost (o : http_outcome) : bool :=
  match o with
  | HttpRaise _ => true
  | HttpResponse r =>
      if status_code r =? 200 then
        match content r with
        | Parsed (JObj kv) => negb (dict_has "aircraft" kv)
        | _ => false
        end
      else true
  end.

(** [int(PIAWARE_RETRIES)] and [float(PIAWARE_BACKOFF)] succeed. *)
Definition defaults_ok (plat : Platform) : bool :=
  match PIAWARE_RETRIES plat, PIAWARE_BACKOFF plat with
  | Some _, Some _ => true
  | _, _ => false
  end.

(** A URL with no scheme or no network location (or one [urlparse]
    refuses). *)
Definition not_well_formed (plat : Platform) (url : string) : bool :=
  match urlparse plat url with
  | Some (scheme, netloc) =>
      String.eqb scheme EmptyString || String.eqb netloc EmptyString
  | None => true
  end.

(** The three kinds of notification. *)
Definition notification_kind (mode : string) : bool :=
  existsb (String.eqb mode) ["emergency"; "registration"; "icao"].

Definition credentials (w : World) : option (string * string) :=
  match getenv w "SLACK_BOT_TOKEN", getenv w "SLACK_CHANNEL" with
  | Some t, Some c => Some (t, c)
  | _, _ => None
  end.

(** The age field the adsb filter reads. *)
Definition age_field (pos : bool) : string :=
  if pos then "seen_pos" else "seen".

(** The record has the age field and its value is at most the threshold. *)
Definition age_within (pos : bool) (threshold : Z) (aircraft : json) : Prop :=
  exists kv v q,
    aircraft = JObj kv /\ lookup (age_field pos) kv = Some v
    /\ py_number v = Some q /\ (q <= inject_Z threshold)%Q.

(** The same, as a test. *)
Definition keeps (pos : bool) (threshold : Z) (aircraft : json) : bool :=
  match aircraft with
  | JObj kv =>
      match lookup (age_field pos) kv with
      | Some v =>
          match py_number v with
          | Some q => Qle_bool q (inject_Z threshold)
          | None => false
          end
      | None => false
      end
  | _ => false
  end.

Definition numeric_or_absent (key : string) (kv : list (string * json))
  : bool :=
  match lookup key kv with
  | Some v => match py_number v with Some _ => true | None => false end
  | None => true
  end.

(** An aircraft record as the feed documents it: a mapping whose ages and
    coordinates, when present, are numbers. *)
Definition record_ok (aircraft : json) : bool :=
  match aircraft with
  | JObj kv =>
      numeric_or_absent "seen" kv && numeric_or_absent "seen_pos" kv
      && numeric_or_absent "lat" kv && numeric_or_absent "lon" kv
  | _ => false
  end.

(** The receiver position is cached, as [setup] leaves it, and numeric. *)
Definition origin_cached (w : World) : bool :=
  match receiver_position w with
  | Some p => finite_position p
  | None => false
  end.

(** The record has lat, lon and seen_pos, and seen_pos is at most the
    threshold. *)
Definition in_range (threshold : Z) (aircraft : json) : bool :=
  match aircraft with
  | JObj kv =>
      dict_has "lat" kv && dict_has "lon" kv && keeps true threshold aircraft
  | _ => false
  end.

(** A mapping whose seen_pos, when present, is a number. *)
Definition aged_record (aircraft : json) : bool :=
  match aircraft with
  | JObj kv => numeric_or_absent "seen_pos" kv
  | _ => false
  end.

(** The next GET of the aircraft resource is answered 200 with a mapping
    whose "aircraft" entry is the list [l]. *)
Definition feed_lists (plat : Platform) (w : World) (l : list json) : Prop :=
  exists r doc,
    fetched w (aircraft_url plat) = HttpResponse r
    /\ status_code r = 200 /\ content r = Parsed (JObj doc)
    /\ lookup "aircraft" doc = Some (JArr l).

(** Every GET of the aircraft resource is answered 200 with a mapping whose
    "aircraft" entry is the empty list: the feed is up, the sky is empty. *)
Definition always_empty_sky (plat : Platform) (w : World) : Prop :=
  forall n, exists r doc,
    http_get w n (aircraft_url plat) = HttpResponse r
    /\ status_code r = 200 /\ content r = Parsed (JObj doc)
    /\ lookup "aircraft" doc = Some (JArr []).

(** Every key of the table is its own upper case. *)
Definition upper_keys (t : list (string * string)) : bool :=
  forallb (fun k => String.eqb (upper k) k) (map fst t).

(* ----------------------------------------------------------------- *)
(** *** Frame conditions *)

(** [c] leaves the observation [f] of the world as it found it. *)
Definition preserves {X A : Type} (f : World -> X) (c : M A) : Prop :=
  forall w, f (snd (c w)) = f w.

(** [f] does not look at the log, the requests or the messages sent. *)
Definition stable {X : Type} (f : World -> X) : Prop :=
  (forall w l, f (set_log w l) = f w)
  /\ (forall w r, f (set_requests w r) = f w)
  /\ (forall w s, f (set_slack_sent w s) = f w).

(** Whatever [c] does on the device, it is no clear. *)
Definition quiet {A : Type} (c : M A) : Prop :=
  forall w, exists ops,
    device_trace (snd (c w)) = device_trace w ++ ops
    /\ existsb is_clear ops = false.

(** When [c] returns, what it did on the device was no clear. *)
Definition clear_free {A : Type} (c : M A) : Prop :=
  forall w a w', c w = (Ok a, w') ->
    exists ops,
      device_trace w' = device_trace w ++ ops
      /\ existsb is_clear ops = false.

(** [c] returns or raises: it never ends the process. *)
Definition never_exits {A : Type} (c : M A) : Prop :=
  forall w n, fst (c w) <> Exit n.

(* ----------------------------------------------------------------- *)
(** *** Vocabulary of the further properties *)

Definition is_digit (c : ascii) : bool :=
  let n := nat_of_ascii c in ((48 <=? n) && (n <=? 57))%nat.

Fixpoint all_digits (s : string) : bool :=
  match s with
  | EmptyString => true
  | String c s' => is_digit c && all_digits s'
  end.

(** One of the three emergency codes, as written. *)
Definition emergency_code (s : string) : bool :=
  existsb (String.eqb s) ["7500"; "7600"; "7700"].

(** The record squawks one of the three emergency codes. *)
Definition squawks_emergency (aircraft : json) : bool :=
  match aircraft with
  | JObj kv =>
      match lookup "squawk" kv with
      | Some (JStr s) => emergency_code s
      | _ => false
      end
  | _ => false
  end.

(** A record the emergency scan gets through: a mapping whose squawk, when
    present, is a string; one that squawks an emergency also has its hex,
    and its coordinates, when present, are numbers. *)
Definition squawk_record_ok (aircraft : json) : bool :=
  match aircraft with
  | JObj kv =>
      match lookup "squawk" kv with
      | Some (JStr s) =>
          if emergency_code s
          then dict_has "hex" kv && numeric_or_absent "lat" kv
               && numeric_or_absent "lon" kv
          else true
      | Some _ => false
      | None => true
      end
  | _ => false
  end.

(** The record carries an mlat list that names lat. *)
Definition mlat_listed (aircraft : json) : bool :=
  match aircraft with
  | JObj kv =>
      match lookup "mlat" kv with
      | Some (JArr items) => existsb (is_str "lat") items
      | _ => false
      end
  | _ => false
  end.

(** A mapping whose mlat entry, when present, is a list. *)
Definition mlat_record_ok (aircraft : json) : bool :=
  match aircraft with
  | JObj kv =>
      match lookup "mlat" kv with
      | Some (JArr _) | None => true
      | Some _ => false
      end
  | _ => false
  end.

(** The distance of a record from [origin], as the range loop computes
    it. *)
Definition record_distance (origin : Position) (aircraft : json)
  : outcome R :=
  obind (py_getitem aircraft "lat") (fun lat =>
  obind (py_getitem aircraft "lon") (fun lon =>
  haversine_distance origin (mkPosition lat lon) earth_radius)).

(** [y] is at least as far out as [x] in the direction of [mode]: no
    smaller for max, no larger for min. *)
Definition beyond (mode : string) (x y : R) : Prop :=
  if String.eqb mode "max" then (x <= y)%R else (y <= x)%R.

(** The hex of the record, trimmed and in upper case, is a key of the
    watchlist of identifiers. *)
Definition on_watchlist (plat : Platform) (aircraft : json) : bool :=
  match aircraft with
  | JObj kv =>
      match lookup "hex" kv with
      | Some v =>
          existsb (String.eqb (upper (trim plat v)))
            (map fst ICAO_OF_SPECIAL_INTEREST)
      | None => false
      end
  | _ => false
  end.

(** What the transport acknowledged for [m], false when it raised. *)
Definition acknowledged (w : World) (m : SlackMessage) : bool :=
  match chat_postMessage w (List.length (slack_sent w)) m with
  | SlackResponse ok => ok
  | SlackRaise _ => false
  end.

(** A clear of the display in one of its two colors; any other call. *)
Definition valid_clear (op : device_op) : bool :=
  match op with
  | EpdClear color => String.eqb color "0x00" || String.eqb color "0xFF"
  | _ => true
  end.

(** Whatever [c] does on the device, every clear has a valid color. *)
Definition tidy {A : Type} (c : M A) : Prop :=
  forall w, exists ops,
    device_trace (snd (c w)) = device_trace w ++ ops
    /\ forallb valid_clear ops = true.

(** [f] does not look at the device either. *)
Definition settled {X : Type} (f : World -> X) : Prop :=
  stable f /\ forall w n t, f (set_device w n t) = f w.

(** The calls of the shutdown procedure on the device. *)
Definition final_clear : list device_op :=
  [EpdOpen; EpdInit; EpdClear "0xFF"; EpdSleep; GpioCleanup; GpioSetmode].

(** Every transfer fails: the host is down. *)
Definition host_down (w : World) : Prop :=
  forall n url, transfer_failed (http_get w n url) = true.

(** The lines [refresh] shows when the status document has none of its
    five fields. *)
Definition fallback_lines : list text :=
  [ [PStr "Failed API Call"]; [PStr "!!! Failed to get System Time"];
    [PStr "!!! Failed to get PiAware Status"];
    [PStr "!!! Failed to get GPS Status"];
    [PStr "!!! Failed to get Radio Status"] ].

(** A status document with none of the five fields [refresh] shows. *)
Definition status_blank (status : json) : bool :=
  match status with
  | JObj kv =>
      negb (dict_has "system_uptime" kv) && negb (dict_has "time" kv)
      && negb (dict_has "gps" kv) && negb (dict_has "radio" kv)
      && negb (dict_has "piaware" kv)
  | _ => false
  end.

(** The next [k] calls on the device succeed. *)
Definition device_works (w : World) (k : nat) : Prop :=
  forall i, (i < k)%nat -> device_fault w (device_calls w + i) = false.

(** The events taken one after the other, up to the first that does not
    return. *)
Fixpoint run (plat : Platform) (events : list event) (s : System)
  : outcome unit * System :=
  match events with
  | [] => (Ok tt, s)
  | ev :: rest =>
      match step plat ev s with
      | (Ok _, s') => run plat rest s'
      | r => r
      end
  end.

(** The turns of the loop among the events. *)
Fixpoint ticks (events : list event) : Z :=
  match events with
  | [] => 0
  | Tick :: rest => 1 + ticks rest
  | _ :: rest => ticks rest
  end.

(** The field [key] of the status document can be shown: it is absent, or
    [show] returns on it. *)
Definition shows (show : json -> outcome text) (key : string)
  (kv : list (string * json)) : bool :=
  match lookup key kv with
  | Some v => returned (show v)
  | None => true
  end.

(** A status document [refresh] gets through: a mapping, each of the five
    fields absent or one its formatter returns on. *)
Definition status_shows (plat : Platform) (status : json) : bool :=
  match status with
  | JObj kv =>
      shows (show_string (str_timedelta plat)) "system_uptime" kv
      && shows (show_string (strftime_millis plat)) "time" kv
      && shows show_message "gps" kv
      && shows show_message "radio" kv
      && shows show_message "piaware" kv
  | _ => false
  end.

(** One of the five fields is missing. *)
Definition field_missing (status : json) : bool :=
  match status with
  | JObj kv =>
      negb (dict_has "system_uptime" kv) || negb (dict_has "time" kv)
      || negb (dict_has "gps" kv) || negb (dict_has "radio" kv)
      || negb (dict_has "piaware" kv)
  | _ => false
  end.

(** The banner of the status line for [n] emergency squawks. *)
Definition emergency_banner (n : Z) : text :=
  [PStr "!!! SQUAWK 7x00 (Count: "; PInt n; PStr ") !!!"].

(** Every character is ASCII: on such strings [lower], [upper] and the
    length are those of Python's [str]. *)
Fixpoint ascii_only (s : string) : bool :=
  match s with
  | EmptyString => true
  | String c s' => (nat_of_ascii c <? 128)%nat && ascii_only s'
  end.

(** The URL starts with the prefix, both in lower case. *)
Definition under_prefix (prefix url : string) : bool :=
  String.prefix (lower prefix) (lower url).

(* ================================================================= *)
(** ** Geodesy: the formula in exact arithmetic *)

(** The embedding computes the haversine formula over the reals, where
    Python computes it on doubles.  What follows holds of the formula
    itself; rounding, and the exceptions [math] raises on doubles, are
    outside it. *)

Lemma haversine_sym (lat1 lon1 lat2 lon2 radius : R) :
  haversine lat1 lon1 lat2 lon2 radius = haversine lat2 lon2 lat1 lon1 radius.
Proof.
  unfold haversine.
  replace ((lat1 - lat2) / 2)%R with (- ((lat2 - lat1) / 2))%R by lra.
  replace ((lon1 - lon2) / 2)%R with (- ((lon2 - lon1) / 2))%R by lra.
  rewrite !sin_neg.
  do 3 f_equal. ring.
Qed.

Lemma haversine_same (lat lon radius : R) :
  haversine lat lon lat lon radius = 0%R.
Proof.
  unfold haversine.
  replace ((lat - lat) / 2)%R with 0%R by lra.
  replace ((lon - lon) / 2)%R with 0%R by lra.
  rewrite sin_0.
  replace (0 ^ 2 + cos lat * cos lat * 0 ^ 2)%R with 0%R by ring.
  rewrite sqrt_0, asin_0. ring.
Qed.

Lemma finite_position_floats (p : Position) :
  finite_position p = true ->
  exists lat lon,
    py_float (latitude p) = Ok lat /\ py_float (longitude p) = Ok lon.
Proof.
  unfold finite_position, py_float.
  destruct (py_number (latitude p)) as [qlat|]; [|discriminate].
  destruct (py_number (longitude p)) as [qlon|]; [|discriminate].
  intros _. exists (Q2R qlat), (Q2R qlon). split; reflexivity.
Qed.

Lemma haversine_distance_finite (a b : Position) (radius : R) :
  finite_position a = true -> finite_position b = true ->
  exists lat1 lon1 lat2 lon2,
    py_float (latitude a) = Ok lat1 /\ py_float (longitude a) = Ok lon1
    /\ py_float (latitude b) = Ok lat2 /\ py_float (longitude b) = Ok lon2
    /\ haversine_distance a b radius
       = Ok (haversine (radians lat1) (radians lon1)
               (radians lat2) (radians lon2) radius).
Proof.
  intros Ha Hb.
  destruct (finite_position_floats a Ha) as (lat1 & lon1 & E1 & E2).
  destruct (finite_position_floats b Hb) as (lat2 & lon2 & E3 & E4).
  exists lat1, lon1, lat2, lon2. repeat split; try assumption.
  unfold haversine_distance. rewrite E1, E2, E3, E4. reflexivity.
Qed.

(* ================================================================= *)
(** ** Running the monad *)

Lemma bind_ok {A B : Type} (c : M A) (k : A -> M B) (w w' : World) (a : A) :
  c w = (Ok a, w') -> bind c k w = k a w'.
Proof. intros H. unfold bind. now rewrite H. Qed.

Lemma bind_raise {A B : Type} (c : M A) (k : A -> M B) (w w' : World)
  (e : exn) :
  c w = (Raise e, w') -> bind c k w = (Raise e, w').
Proof. intros H. unfold bind. now rewrite H. Qed.

Lemma bind_exit {A B : Type} (c : M A) (k : A -> M B) (w w' : World) (n : Z) :
  c w = (Exit n, w') -> bind c k w = (Exit n, w').
Proof. intros H. unfold bind. now rewrite H. Qed.

Lemma bind_returns {A B : Type} (c : M A) (k : A -> M B) (w w2 : World)
  (b : B) :
  bind c k w = (Ok b, w2) ->
  exists a w1, c w = (Ok a, w1) /\ k a w1 = (Ok b, w2).
Proof.
  unfold bind. destruct (c w) as [[a|e|n] w1]; intros H; try discriminate.
  now exists a, w1.
Qed.

Lemma run_ok {A : Type} (c : M A) (w : World) (a : A) :
  fst (c w) = Ok a -> c w = (Ok a, snd (c w)).
Proof. destruct (c w) as [o w']. cbn. now intros ->. Qed.

Lemma check_supported_in (needle : string) (haystack : list string) :
  existsb (String.eqb needle) haystack = true ->
  check_supported needle haystack = Ok true.
Proof. intros H. unfold check_supported. now rewrite H. Qed.

Lemma check_supported_out (needle : string) (haystack : list string) :
  existsb (String.eqb needle) haystack = false ->
  exists msg, check_supported needle haystack = Raise (Exn ValueError msg).
Proof. intros H. unfold check_supported. rewrite H. eauto. Qed.

Section Telemetry.

Variable plat : Platform.

(* ----------------------------------------------------------------- *)
(** *** URL validation *)

Lemma not_well_formed_invalid (url : string) :
  not_well_formed plat url = negb (is_valid_url plat url).
Proof.
  unfold not_well_formed, is_valid_url.
  destruct (urlparse plat url) as [[scheme netloc]|]; [|reflexivity].
  now rewrite negb_andb, !negb_involutive.
Qed.

(** C7. A URL that is not well formed (no scheme or no network location)
    makes [download] raise RuntimeError with the world untouched: no request
    was attempted and nothing was logged, where a network failure returns
    the failure value instead. *)
Theorem download_invalid_url_raises (url : string) (retry : option Z)
  (backoff : option Q) (bust : bool) (w : World) :
  not_well_formed plat url = true ->
  download plat url retry backoff bust w
  = (Raise (Exn RuntimeError ("URL " ++ url ++ " is invalid")%string), w).
Proof.
  intros H. rewrite not_well_formed_invalid in H.
  unfold download. rewrite H. reflexivity.
Qed.

(** What [download] does on a URL that passed validation, with the
    defaults for retry and backoff. *)
Lemma download_valid (url : string) (retry : Z) (backoff : Q) (w : World) :
  is_valid_url plat url = true ->
  PIAWARE_RETRIES plat = Some retry ->
  PIAWARE_BACKOFF plat = Some backoff ->
  download plat url None None true w
  = match fetched w url with
    | HttpResponse r =>
        (Ok (if status_code r =? 200 then Some r else None),
         after_get plat w url retry backoff)
    | HttpRaise (Exn c msg) =>
        (Ok None,
         set_log (after_get plat w url retry backoff)
           (log w ++ [mkLog ERROR "Error GETing %s (error: %s)"
                        [PStr url; PStr msg]]))
    end.
Proof.
  intros Hv Hr Hb. unfold download. rewrite Hv, Hr, Hb. cbn [negb].
  unfold bind at 1. cbn [ret].
  unfold bind at 1. cbn [ret].
  unfold bind at 1. unfold session_get at 1. fold (fetched w url).
  fold (served_by plat url retry backoff).
  fold (after_get plat w url retry backoff).
  destruct (fetched w url) as [[c msg]|r].
  - reflexivity.
  - destruct (status_code r =? 200); reflexivity.
Qed.

Lemma defaults_ok_values :
  defaults_ok plat = true ->
  exists retry backoff,
    PIAWARE_RETRIES plat = Some retry /\ PIAWARE_BACKOFF plat = Some backoff.
Proof.
  unfold defaults_ok.
  destruct (PIAWARE_RETRIES plat) as [r|]; [|discriminate].
  destruct (PIAWARE_BACKOFF plat) as [b|]; [|discriminate].
  eauto.
Qed.

(** A failed transfer is the failure value of [download], never an
    exception. *)
Lemma download_failed (url : string) (w : World) :
  defaults_ok plat = true ->
  is_valid_url plat url = true ->
  transfer_failed (fetched w url) = true ->
  exists w', download plat url None None true w = (Ok None, w').
Proof.
  intros Hd Hv Hf.
  destruct (defaults_ok_values Hd) as (retry & backoff & Hr & Hb).
  rewrite (download_valid url retry backoff w Hv Hr Hb).
  destruct (fetched w url) as [[c msg]|r]; cbn in Hf.
  - eauto.
  - apply negb_true_iff in Hf. rewrite Hf. eauto.
Qed.

(* ----------------------------------------------------------------- *)
(** *** The aircraft filter on a bad mode or a lost feed *)

(** C8. With a mode outside adsb and mlat, [get_aircrafts] raises
    ValueError with the world untouched: before any fetch or filtering, and
    without logging a warning. *)
Theorem get_aircrafts_unsupported_mode_raises (pos : bool) (mode : string)
  (threshold : Z) (raw : bool) (w : World) :
  mode <> "adsb" -> mode <> "mlat" ->
  exists msg,
    get_aircrafts plat pos mode threshold raw w
    = (Raise (Exn ValueError msg), w).
Proof.
  intros Ha Hm.
  assert (H : existsb (String.eqb mode) ["adsb"; "mlat"] = false).
  { cbn. apply String.eqb_neq in Ha, Hm. now rewrite Ha, Hm. }
  destruct (check_supported_out _ _ H) as (msg & E).
  exists msg. unfold get_aircrafts, bind, lift. now rewrite E.
Qed.

(** On a lost feed the filter returns the count 0, raw or not. *)
Lemma get_aircrafts_feed_lost (pos : bool) (mode : string) (threshold : Z)
  (raw : bool) (w : World) :
  defaults_ok plat = true ->
  is_valid_url plat (aircraft_url plat) = true ->
  existsb (String.eqb mode) ["adsb"; "mlat"] = true ->
  feed_lost (fetched w (aircraft_url plat)) = true ->
  exists w',
    get_aircrafts plat pos mode threshold raw w = (Ok (JNum 0), w').
Proof.
  intros Hd Hv Hm Hl.
  destruct (defaults_ok_values Hd) as (retry & backoff & Hr & Hb).
  unfold get_aircrafts.
  unfold bind at 1. unfold lift at 1. rewrite (check_supported_in _ _ Hm).
  unfold bind at 1.
  rewrite (download_valid _ retry backoff w Hv Hr Hb).
  destruct (fetched w (aircraft_url plat)) as [[c msg]|r]; cbn in Hl.
  - cbv [bind ret lift py_in dict_has lookup count_aircrafts logging].
    eauto.
  - destruct (status_code r =? 200).
    + unfold response_json.
      destruct (content r) as [[| | | | |kv]|]; try discriminate.
      apply negb_true_iff in Hl.
      cbv [bind ret lift py_in count_aircrafts logging]. rewrite Hl.
      eauto.
    + cbv [bind ret lift py_in dict_has lookup count_aircrafts logging].
      eauto.
Qed.

(** With the "aircraft" key in the fetched document, raw mode hands the
    document back as it came. *)
Lemma get_aircrafts_raw_present (pos : bool) (mode : string) (threshold : Z)
  (w : World) (retry : Z) (backoff : Q) (r : response) (j : json) :
  PIAWARE_RETRIES plat = Some retry ->
  PIAWARE_BACKOFF plat = Some backoff ->
  is_valid_url plat (aircraft_url plat) = true ->
  existsb (String.eqb mode) ["adsb"; "mlat"] = true ->
  fetched w (aircraft_url plat) = HttpResponse r ->
  status_code r = 200 ->
  content r = Parsed j ->
  py_in "aircraft" j = Ok true ->
  get_aircrafts plat pos mode threshold true w
  = (Ok j, after_get plat w (aircraft_url plat) retry backoff).
Proof.
  intros Hr Hb Hv Hm Hf Hs Hc Hin.
  unfold get_aircrafts.
  unfold bind at 1. unfold lift at 1. rewrite (check_supported_in _ _ Hm).
  unfold bind at 1.
  rewrite (download_valid _ retry backoff w Hv Hr Hb), Hf, Hs.
  cbn [Z.eqb Pos.eqb].
  unfold bind at 1. unfold lift at 1. unfold response_json. rewrite Hc.
  unfold bind at 1. unfold lift at 1. rewrite Hin.
  reflexivity.
Qed.

(** C4 (the code departs from the claim). In raw mode [get_aircrafts]
    hands back the fetched document untouched only when that document has
    the "aircraft" key; on a lost feed (transfer failed, or a mapping
    without the key) the same raw call returns the integer count 0, which
    is no container. *)
Theorem get_aircrafts_raw_lost_feed_returns_count (pos : bool)
  (mode : string) (threshold : Z) (w : World) :
  defaults_ok plat = true ->
  is_valid_url plat (aircraft_url plat) = true ->
  existsb (String.eqb mode) ["adsb"; "mlat"] = true ->
  feed_lost (fetched w (aircraft_url plat)) = true ->
  fst (get_aircrafts plat pos mode threshold true w) = Ok (JNum 0)
  /\ py_in "aircraft" (JNum 0) = Raise (Exn TypeError "argument is not iterable").
Proof.
  intros Hd Hv Hm Hl.
  destruct (get_aircrafts_feed_lost pos mode threshold true w Hd Hv Hm Hl)
    as (w' & E).
  rewrite E. split; reflexivity.
Qed.

(** C1 (the code departs from the claim). When the aircraft resource is
    unavailable or lacks the "aircraft" key, the emergency scan in count
    mode does not return the sentinel 666: the raw fetch has handed it the
    integer 0, and testing ["aircraft" in 0] raises TypeError. *)
Theorem has_emergency_lost_feed_raises (current_status : text) (w : World) :
  defaults_ok plat = true ->
  is_valid_url plat (aircraft_url plat) = true ->
  feed_lost (fetched w (aircraft_url plat)) = true ->
  fst (has_emergency plat current_status "count" w)
  = Raise (Exn TypeError "argument is not iterable").
Proof.
  intros Hd Hv Hl.
  destruct (get_aircrafts_feed_lost true "adsb" 120 true w Hd Hv eq_refl Hl)
    as (w' & E).
  unfold has_emergency.
  unfold bind at 1. unfold lift at 1. cbn [check_supported existsb String.eqb
    Ascii.eqb Bool.eqb orb].
  cbv beta iota.
  rewrite (bind_ok _ _ _ _ _ E).
  reflexivity.
Qed.

(* ----------------------------------------------------------------- *)
(** *** Fetch failures *)

(** A body that is no JSON is not among the failures the fetch absorbs:
    [r.json()] is called outside any [try], and what it raises leaves
    [get_status]. *)
Lemma get_status_malformed_body_raises (w : World) (r : response) (e : exn) :
  defaults_ok plat = true ->
  is_valid_url plat (status_url plat) = true ->
  fetched w (status_url plat) = HttpResponse r ->
  status_code r = 200 ->
  content r = Malformed e ->
  fst (get_status plat w) = Raise e.
Proof.
  intros Hd Hv Hf Hs Hc.
  destruct (defaults_ok_values Hd) as (retry & backoff & Hr & Hb).
  unfold get_status. unfold bind at 1.
  rewrite (download_valid _ retry backoff w Hv Hr Hb), Hf, Hs.
  cbn [Z.eqb Pos.eqb]. unfold response_ok, response_json. rewrite Hs, Hc.
  reflexivity.
Qed.

(** C3, as amended. Once the defaults parse and the URL passed validation,
    a failed transfer (connection error after the retries, or a status
    other than 200) makes [get_status] and [get_receiver] return the empty
    mapping without raising; [get_aircrafts], asked for its count (raw
    false), returns the count 0 in that case, an integer and no
    mapping. *)
Theorem fetch_failure_is_absorbed (w : World) :
  defaults_ok plat = true ->
  (is_valid_url plat (status_url plat) = true ->
   transfer_failed (fetched w (status_url plat)) = true ->
   fst (get_status plat w) = Ok (JObj []))
  /\ (is_valid_url plat (receiver_url plat) = true ->
      transfer_failed (fetched w (receiver_url plat)) = true ->
      fst (get_receiver plat w) = Ok (JObj []))
  /\ (forall pos mode threshold,
        existsb (String.eqb mode) ["adsb"; "mlat"] = true ->
        is_valid_url plat (aircraft_url plat) = true ->
        transfer_failed (fetched w (aircraft_url plat)) = true ->
        fst (get_aircrafts plat pos mode threshold false w) = Ok (JNum 0)).
Proof.
  intros Hd. repeat split.
  - intros Hv Hf.
    destruct (download_failed _ w Hd Hv Hf) as (w' & E).
    unfold get_status. now rewrite (bind_ok _ _ _ _ _ E).
  - intros Hv Hf.
    destruct (download_failed _ w Hd Hv Hf) as (w' & E).
    unfold get_receiver. now rewrite (bind_ok _ _ _ _ _ E).
  - intros pos mode threshold Hm Hv Hf.
    assert (Hl : feed_lost (fetched w (aircraft_url plat)) = true).
    { destruct (fetched w (aircraft_url plat)) as [e|r]; [reflexivity|].
      cbn in Hf |- *. apply negb_true_iff in Hf. now rewrite Hf. }
    destruct (get_aircrafts_feed_lost pos mode threshold false w Hd Hv Hm Hl)
      as (w' & E).
    now rewrite E.
Qed.

(* ----------------------------------------------------------------- *)
(** *** Notification dispatcher *)

Lemma table_getitem_outcome (t : list (string * string)) (key : json) :
  (exists d, table_getitem t key = Ok d)
  \/ (exists e, table_getitem t key = Raise e).
Proof.
  unfold table_getitem. destruct key; eauto.
  destruct (assoc s t); eauto.
Qed.

(** The [try] body either got an answer from the transport or raised. *)
Lemma post_slack_message_outcome (token channel : string) (icao_reg : json)
  (callsign : string) (squawk : json) (distance : distance_arg)
  (mode : string) (w : World) :
  (exists ok w' m,
      post_slack_message plat token channel icao_reg callsign squawk
        distance mode w = (Ok ok, w')
      /\ chat_postMessage w (List.length (slack_sent w)) m = SlackResponse ok)
  \/ (exists e w',
         post_slack_message plat token channel icao_reg callsign squawk
           distance mode w = (Raise e, w')
         /\ log w' = log w).
Proof.
  unfold post_slack_message.
  destruct (urlparse plat (PIAWARE_HOST plat)) as [[scheme netloc]|].
  2:{ right. cbv [bind throw]. eauto. }
  destruct (table_getitem_outcome EMERGENCY_SQUAWK squawk)
    as [[d1 E1]|[e1 E1]];
  destruct (table_getitem_outcome REGISTRATION_OF_SPECIAL_INTEREST
              (JStr callsign)) as [[d2 E2]|[e2 E2]];
  destruct (table_getitem_outcome ICAO_OF_SPECIAL_INTEREST icao_reg)
    as [[d3 E3]|[e3 E3]];
  rewrite E1, E2, E3;
  destruct (String.eqb mode "emergency");
  try destruct (String.eqb mode "registration");
  cbv beta iota zeta delta [bind ret lift obind];
  try (right; do 2 eexists; split; reflexivity);
  match goal with
  | |- context [chat_postMessage w ?n ?m] =>
      destruct (chat_postMessage w n m) as [e|ok] eqn:Et;
        [ right; do 2 eexists; split; reflexivity
        | left; exists ok; eexists; exists m; split; [reflexivity|exact Et] ]
  end.
Qed.

(** What the dispatcher does once the credentials are read. *)
Lemma send_slack_notification_configured (icao_reg : json)
  (callsign : string) (squawk : json) (distance : distance_arg)
  (mode : string) (w : World) (token channel : string) :
  getenv w "SLACK_BOT_TOKEN" = Some token ->
  getenv w "SLACK_CHANNEL" = Some channel ->
  notification_kind mode = true ->
  send_slack_notification plat icao_reg callsign squawk distance mode w
  = match post_slack_message plat token channel icao_reg callsign squawk
            distance mode w with
    | (Raise (Exn c msg), w') =>
        (Ok false,
         set_log w' (log w' ++ [mkLog ERROR "Unable to Send Slack Message: %s"
                                  [PStr msg]]))
    | r => r
    end.
Proof.
  intros Ht Hc Hm.
  unfold send_slack_notification.
  unfold bind at 1. unfold os_getenv at 1. rewrite Ht.
  unfold bind at 1. unfold os_getenv at 1. rewrite Hc.
  unfold bind at 1. unfold lift at 1.
  unfold notification_kind in Hm. rewrite (check_supported_in _ _ Hm).
  unfold try_except.
  destruct (post_slack_message plat token channel icao_reg callsign squawk
              distance mode w) as [[ok|[c msg]|n] w']; reflexivity.
Qed.

Lemma send_slack_notification_unconfigured (icao_reg : json)
  (callsign : string) (squawk : json) (distance : distance_arg)
  (mode : string) (w : World) :
  credentials w = None ->
  send_slack_notification plat icao_reg callsign squawk distance mode w
  = (Ok false, w).
Proof.
  unfold credentials, send_slack_notification. intros H.
  unfold bind at 1. unfold os_getenv at 1.
  unfold bind at 1. unfold os_getenv at 1.
  destruct (getenv w "SLACK_BOT_TOKEN"); [|reflexivity].
  destruct (getenv w "SLACK_CHANNEL"); [discriminate|reflexivity].
Qed.

(** A kind outside the three is refused by [check_supported], which sits
    between the test of the credentials and the [try]: ValueError, the
    world untouched. *)
Lemma send_slack_notification_unknown_kind_raises (icao_reg : json)
  (callsign : string) (squawk : json) (distance : distance_arg)
  (mode : string) (w : World) :
  credentials w <> None ->
  notification_kind mode = false ->
  exists msg,
    send_slack_notification plat icao_reg callsign squawk distance mode w
    = (Raise (Exn ValueError msg), w).
Proof.
  unfold credentials, notification_kind. intros Hc Hm.
  destruct (getenv w "SLACK_BOT_TOKEN") as [t|] eqn:Ht; [|congruence].
  destruct (getenv w "SLACK_CHANNEL") as [c|] eqn:Hch; [|congruence].
  destruct (check_supported_out _ _ Hm) as (msg & E).
  exists msg. unfold send_slack_notification.
  unfold bind at 1. unfold os_getenv at 1. rewrite Ht.
  unfold bind at 1. unfold os_getenv at 1. rewrite Hch.
  unfold bind at 1. unfold lift at 1. now rewrite E.
Qed.

(** For a notification of one of the three kinds the dispatcher returns a
    boolean; it changes nothing but the log and the list of messages. *)
Lemma send_slack_notification_returns (icao_reg : json) (callsign : string)
  (squawk : json) (distance : distance_arg) (mode : string) (w : World) :
  notification_kind mode = true ->
  exists delivered w',
    send_slack_notification plat icao_reg callsign squawk distance mode w
    = (Ok delivered, w').
Proof.
  intros Hm.
  destruct (credentials w) as [[token channel]|] eqn:Hc.
  - unfold credentials in Hc.
    destruct (getenv w "SLACK_BOT_TOKEN") as [t|] eqn:Ht; [|discriminate].
    destruct (getenv w "SLACK_CHANNEL") as [c|] eqn:Hch; [|discriminate].
    rewrite (send_slack_notification_configured icao_reg callsign squawk
               distance mode w t c Ht Hch Hm).
    destruct (post_slack_message_outcome t c icao_reg callsign squawk
                distance mode w)
      as [(ok & w' & m & E & _)|([cl msg] & w' & E & _)]; rewrite E; eauto.
  - rewrite (send_slack_notification_unconfigured icao_reg callsign squawk
               distance mode w Hc). eauto.
Qed.

(** C6. For a notification of one of the three kinds there are
    (emergency, registration, icao) the dispatcher returns a boolean and
    raises nothing: without the token or the channel it returns false with
    the world untouched, so no send was attempted; and when the transport
    raises on the send, the exception is caught, an error is logged and
    false is returned. *)
Theorem send_slack_notification_never_raises (icao_reg : json)
  (callsign : string) (squawk : json) (distance : distance_arg)
  (mode : string) (w : World) :
  notification_kind mode = true ->
  (exists delivered w',
      send_slack_notification plat icao_reg callsign squawk distance mode w
      = (Ok delivered, w'))
  /\ (credentials w = None ->
      send_slack_notification plat icao_reg callsign squawk distance mode w
      = (Ok false, w))
  /\ (credentials w <> None ->
      (forall n m, exists e, chat_postMessage w n m = SlackRaise e) ->
      exists w' msg,
        send_slack_notification plat icao_reg callsign squawk distance mode w
        = (Ok false, w')
        /\ log w' = log w ++ [mkLog ERROR "Unable to Send Slack Message: %s"
                                [PStr msg]]).
Proof.
  intros Hm. split; [|split].
  - now apply send_slack_notification_returns.
  - now apply send_slack_notification_unconfigured.
  - intros Hc Hraise.
    unfold credentials in Hc.
    destruct (getenv w "SLACK_BOT_TOKEN") as [t|] eqn:Ht; [|congruence].
    destruct (getenv w "SLACK_CHANNEL") as [c|] eqn:Hch; [|congruence].
    rewrite (send_slack_notification_configured icao_reg callsign squawk
               distance mode w t c Ht Hch Hm).
    destruct (post_slack_message_outcome t c icao_reg callsign squawk
                distance mode w)
      as [(ok & w' & m & E & Et)|([cl msg] & w' & E & El)].
    + destruct (Hraise (List.length (slack_sent w)) m) as (e & Ee).
      congruence.
    + rewrite E. exists (set_log w'
        (log w' ++ [mkLog ERROR "Unable to Send Slack Message: %s"
                      [PStr msg]])), msg.
      split; [reflexivity|]. cbn. now rewrite El.
Qed.

(* ----------------------------------------------------------------- *)
(** *** Frame lemmas *)

Lemma bind_lift_ok {A B : Type} (o : outcome A) (a : A) (k : A -> M B)
  (w : World) :
  o = Ok a -> bind (lift o) k w = k a w.
Proof. intros ->. reflexivity. Qed.

Lemma bind_ret {A B : Type} (a : A) (k : A -> M B) (w : World) :
  bind (ret a) k w = k a w.
Proof. reflexivity. Qed.

Lemma bind_logging {B : Type} (lv : level) (format : string) (args : text)
  (k : unit -> M B) (w : World) :
  bind (logging lv format args) k w
  = k tt (set_log w (log w ++ [mkLog lv format args])).
Proof. reflexivity. Qed.

Section Frame.

Context {X : Type} (f : World -> X) (Hf : stable f).

Lemma preserves_ret {A : Type} (a : A) : preserves f (ret a).
Proof. intros w. reflexivity. Qed.

Lemma preserves_throw {A : Type} (e : exn) : preserves f (@throw A e).
Proof. intros w. reflexivity. Qed.

Lemma preserves_sys_exit {A : Type} (n : Z) : preserves f (@sys_exit A n).
Proof. intros w. reflexivity. Qed.

Lemma preserves_lift {A : Type} (o : outcome A) : preserves f (lift o).
Proof. intros w. reflexivity. Qed.

Lemma preserves_bind {A B : Type} (c : M A) (k : A -> M B) :
  preserves f c -> (forall a, preserves f (k a)) -> preserves f (bind c k).
Proof.
  intros Hc Hk w. unfold bind. specialize (Hc w).
  destruct (c w) as [[a|e|n] w']; cbn in Hc |- *; try assumption.
  now rewrite Hk.
Qed.

Lemma preserves_try_except {A : Type} (c : M A) (catches : exn -> bool)
  (h : exn -> M A) :
  preserves f c -> (forall e, preserves f (h e)) ->
  preserves f (try_except c catches h).
Proof.
  intros Hc Hh w. unfold try_except. specialize (Hc w).
  destruct (c w) as [[a|e|n] w']; cbn in Hc |- *; try assumption.
  destruct (catches e); [now rewrite Hh|assumption].
Qed.

Lemma preserves_logging (lv : level) (format : string) (args : text) :
  preserves f (logging lv format args).
Proof. intros w. apply Hf. Qed.

Lemma preserves_os_getenv (name : string) : preserves f (os_getenv name).
Proof. intros w. reflexivity. Qed.

Lemma preserves_session_get (session : list (string * adapter))
  (url : string) (bust : bool) :
  preserves f (session_get session url bust).
Proof. intros w. apply Hf. Qed.

Lemma preserves_fun {A : Type} (c : M A) :
  (forall w, f (snd (c w)) = f w) -> preserves f c.
Proof. intros H. exact H. Qed.

End Frame.

Create HintDb frame.

#[local] Hint Resolve preserves_ret preserves_throw preserves_sys_exit
  preserves_lift preserves_logging preserves_os_getenv
  preserves_session_get : frame.

(** One step of a frame proof: split a bind, or take a branch apart. *)
Ltac frame_step :=
  cbv beta;
  match goal with
  | |- preserves _ (bind _ _) => apply preserves_bind; [|intros ?]
  | |- preserves _ (try_except _ _ _) =>
      apply preserves_try_except; [|intros ?]
  | |- preserves _ (if ?b then _ else _) => destruct b
  | |- preserves _ (match ?x with _ => _ end) => destruct x
  end.

Ltac frame := repeat first [ solve [auto with frame] | frame_step ].

Section FrameOfEngine.

Context {X : Type} (f : World -> X) (Hf : stable f).

Lemma preserves_download (url : string) (retry : option Z)
  (backoff : option Q) (bust : bool) :
  preserves f (download plat url retry backoff bust).
Proof. unfold download. frame. Qed.

Hint Resolve preserves_download : frame.

Lemma preserves_get_status : preserves f (get_status plat).
Proof. unfold get_status. frame. Qed.

Lemma preserves_get_receiver : preserves f (get_receiver plat).
Proof. unfold get_receiver. frame. Qed.

Hint Resolve preserves_get_status preserves_get_receiver : frame.

Lemma preserves_get_receiver_position :
  preserves f (get_receiver_position plat).
Proof.
  intros w. unfold get_receiver_position.
  destruct (receiver_position w) as [p|].
  - match goal with
    | |- f (snd (?c w)) = _ => enough (H : preserves f c) by apply H
    end.
    frame.
  - match goal with
    | |- f (snd (?c w)) = _ => enough (H : preserves f c) by apply H
    end.
    frame.
Qed.

Hint Resolve preserves_get_receiver_position : frame.

Lemma preserves_post_slack_message (token channel : string)
  (icao_reg : json) (callsign : string) (squawk : json)
  (distance : distance_arg) (mode : string) :
  preserves f (post_slack_message plat token channel icao_reg callsign
                 squawk distance mode).
Proof.
  unfold post_slack_message.
  apply preserves_bind; [frame|intros host].
  apply preserves_bind; [frame|intros [[summary header] description]].
  intros w.
  match goal with
  | |- context [chat_postMessage w ?n ?m] =>
      destruct (chat_postMessage w n m)
  end; apply Hf.
Qed.

Hint Resolve preserves_post_slack_message : frame.

Lemma preserves_send_slack_notification (icao_reg : json)
  (callsign : string) (squawk : json) (distance : distance_arg)
  (mode : string) :
  preserves f (send_slack_notification plat icao_reg callsign squawk
                 distance mode).
Proof. unfold send_slack_notification. frame. Qed.

Hint Resolve preserves_send_slack_notification : frame.

Lemma preserves_special_interest_distance (aircraft : json) :
  preserves f (special_interest_distance plat aircraft).
Proof. unfold special_interest_distance. frame. Qed.

Lemma preserves_trimmed_or_unknown (aircraft : json) (key : string) :
  preserves f (trimmed_or_unknown plat aircraft key).
Proof. unfold trimmed_or_unknown. frame. Qed.

Hint Resolve preserves_special_interest_distance
  preserves_trimmed_or_unknown : frame.

Lemma preserves_process_special_interest (aircraft : json) :
  preserves f (process_special_interest plat aircraft).
Proof. unfold process_special_interest. frame. Qed.

Hint Resolve preserves_process_special_interest : frame.

Lemma preserves_filter_aircrafts (pos : bool) (mode : string)
  (threshold : Z) (aircrafts res : list json) :
  preserves f (filter_aircrafts plat pos mode threshold aircrafts res).
Proof.
  revert res. induction aircrafts as [|aircraft rest IH]; intros res.
  - cbn. frame.
  - cbn [filter_aircrafts]. apply preserves_bind; [frame|intros res'].
    apply IH.
Qed.

Lemma preserves_count_aircrafts (pos : bool) (mode : string)
  (threshold : Z) (res : list json) :
  preserves f (count_aircrafts pos mode threshold res).
Proof. unfold count_aircrafts. frame. Qed.

Hint Resolve preserves_filter_aircrafts preserves_count_aircrafts : frame.

Lemma preserves_get_aircrafts (pos : bool) (mode : string) (threshold : Z)
  (raw : bool) :
  preserves f (get_aircrafts plat pos mode threshold raw).
Proof. unfold get_aircrafts. frame. Qed.

Hint Resolve preserves_get_aircrafts : frame.

Lemma preserves_range_scan (origin : Position) (mode : string)
  (threshold : Z) (aircrafts : list json) (aircraft_range : R) :
  preserves f (range_scan origin mode threshold aircrafts aircraft_range).
Proof.
  revert aircraft_range.
  induction aircrafts as [|aircraft rest IH]; intros aircraft_range.
  - cbn. frame.
  - cbn [range_scan]. apply preserves_bind; [frame|intros located].
    apply preserves_bind; [frame|intros r; apply IH].
Qed.

Hint Resolve preserves_range_scan : frame.

Lemma preserves_distance (origin : Position) (mode : string)
  (threshold : Z) :
  preserves f (distance plat origin mode threshold).
Proof. unfold distance. frame. Qed.

Lemma preserves_emergency_scan (origin : Position) (aircrafts : list json)
  (emergency : Z) :
  preserves f (emergency_scan plat origin aircrafts emergency).
Proof.
  revert emergency.
  induction aircrafts as [|aircraft rest IH]; intros emergency.
  - cbn. frame.
  - cbn [emergency_scan]. apply preserves_bind; [frame|intros has].
    apply preserves_bind; [frame|intros e'; apply IH].
Qed.

Hint Resolve preserves_distance preserves_emergency_scan : frame.

Lemma preserves_has_emergency (current_status : text) (mode : string) :
  preserves f (has_emergency plat current_status mode).
Proof. unfold has_emergency. frame. Qed.

Lemma preserves_get_fr24_status : preserves f (get_fr24_status plat).
Proof. unfold get_fr24_status. frame. Qed.

Lemma preserves_bool_from_env (needle : string) :
  preserves f (bool_from_env needle).
Proof. unfold bool_from_env. frame. Qed.

Lemma preserves_status_field (status : json) (key : string)
  (show : json -> outcome text) (fallback : string) :
  preserves f (status_field status key show fallback).
Proof. unfold status_field. frame. Qed.

Hint Resolve preserves_has_emergency preserves_get_fr24_status
  preserves_bool_from_env preserves_status_field : frame.

Lemma preserves_refresh_status (status : json) :
  preserves f (refresh_status plat status).
Proof. unfold refresh_status. frame. Qed.

Lemma preserves_refresh_aircrafts : preserves f (refresh_aircrafts plat).
Proof. unfold refresh_aircrafts. frame. Qed.

Lemma preserves_refresh_os (status : json) (uptime : text)
  (cycle : option Z) :
  preserves f (refresh_os plat status uptime cycle).
Proof. unfold refresh_os. frame. Qed.

End FrameOfEngine.

(* ----------------------------------------------------------------- *)
(** *** The watchlist scan on a documented record *)

Lemma stable_receiver_position : stable receiver_position.
Proof. repeat split. Qed.

Lemma stable_origin_cached : stable origin_cached.
Proof. repeat split. Qed.

Lemma stable_device_trace : stable device_trace.
Proof. repeat split. Qed.

Lemma stable_device_calls : stable device_calls.
Proof. repeat split. Qed.

Lemma dict_has_getitem (key : string) (kv : list (string * json)) :
  dict_has key kv = true ->
  exists v, lookup key kv = Some v /\ py_getitem (JObj kv) key = Ok v.
Proof.
  unfold dict_has, py_getitem.
  destruct (lookup key kv) as [v|]; [eauto|discriminate].
Qed.

Lemma contains_any_str (s : string) (haystack : list string) :
  contains_any (JStr s) haystack
  = Ok (existsb (fun element => String.eqb (upper element) (upper s))
          haystack).
Proof.
  induction haystack as [|element rest IH]; [reflexivity|].
  cbn [contains_any py_upper obind existsb].
  destruct (String.eqb (upper element) (upper s)); [reflexivity|exact IH].
Qed.

Lemma upper_keys_assoc (t : list (string * string)) (u : string) :
  upper_keys t = true ->
  existsb (fun element => String.eqb (upper element) u) (map fst t) = true ->
  exists d, assoc u t = Some d.
Proof.
  unfold upper_keys.
  induction t as [|[k d] rest IH]; cbn [map fst forallb existsb assoc];
    [discriminate|].
  intros Hk Hex. apply andb_true_iff in Hk as [Hk Hrest].
  apply String.eqb_eq in Hk. rewrite Hk in Hex.
  rewrite (String.eqb_sym u k).
  destruct (String.eqb k u); [eauto|].
  now apply IH.
Qed.

Lemma trimmed_or_unknown_returns (kv : list (string * json)) (key : string)
  (w : World) :
  exists s, trimmed_or_unknown plat (JObj kv) key w = (Ok s, w).
Proof.
  unfold trimmed_or_unknown. cbn [py_in].
  rewrite (bind_lift_ok _ _ _ _ eq_refl).
  destruct (dict_has key kv) eqn:H; [|repeat eexists; reflexivity].
  destruct (dict_has_getitem _ _ H) as (v & _ & E).
  rewrite (bind_lift_ok _ _ _ _ E). repeat eexists; reflexivity.
Qed.

Lemma get_receiver_position_cached (w : World) (p : Position) :
  receiver_position w = Some p ->
  exists w', get_receiver_position plat w = (Ok p, w').
Proof.
  intros H. unfold get_receiver_position. rewrite H.
  rewrite bind_logging. repeat eexists; reflexivity.
Qed.

Lemma numeric_lookup (key : string) (kv : list (string * json)) (v : json) :
  numeric_or_absent key kv = true -> lookup key kv = Some v ->
  exists q, py_number v = Some q.
Proof.
  unfold numeric_or_absent. intros H E. rewrite E in H.
  destruct (py_number v) as [q|]; [eauto|discriminate].
Qed.

Lemma record_ok_fields (kv : list (string * json)) :
  record_ok (JObj kv) = true ->
  numeric_or_absent "seen" kv = true
  /\ numeric_or_absent "seen_pos" kv = true
  /\ numeric_or_absent "lat" kv = true
  /\ numeric_or_absent "lon" kv = true.
Proof.
  cbn [record_ok]. rewrite !andb_true_iff. tauto.
Qed.

Lemma special_interest_distance_returns (kv : list (string * json))
  (w : World) :
  record_ok (JObj kv) = true -> origin_cached w = true ->
  exists d w', special_interest_distance plat (JObj kv) w = (Ok d, w').
Proof.
  intros Hrec Hor.
  destruct (record_ok_fields kv Hrec) as (_ & _ & Hlat & Hlon).
  unfold special_interest_distance. cbn [issubset forallb].
  rewrite (bind_lift_ok _ _ _ _ eq_refl).
  destruct (dict_has "lat" kv) eqn:Dlat; cbn [andb]; [|repeat eexists; reflexivity].
  destruct (dict_has "lon" kv) eqn:Dlon; cbn [andb]; [|repeat eexists; reflexivity].
  unfold origin_cached in Hor.
  destruct (receiver_position w) as [p|] eqn:Hp; [|discriminate].
  destruct (get_receiver_position_cached w p Hp) as (w1 & E1).
  rewrite (bind_ok _ _ _ _ _ E1).
  destruct (dict_has_getitem _ _ Dlat) as (vlat & Llat & Glat).
  destruct (dict_has_getitem _ _ Dlon) as (vlon & Llon & Glon).
  rewrite (bind_lift_ok _ _ _ _ Glat), (bind_lift_ok _ _ _ _ Glon).
  destruct (numeric_lookup _ _ _ Hlat Llat) as (qlat & Nlat).
  destruct (numeric_lookup _ _ _ Hlon Llon) as (qlon & Nlon).
  assert (Hfin : finite_position (mkPosition vlat vlon) = true).
  { unfold finite_position. cbn [latitude longitude].
    now rewrite Nlat, Nlon. }
  destruct (haversine_distance_finite p (mkPosition vlat vlon) earth_radius
              Hor Hfin) as (a & b & c & d & _ & _ & _ & _ & E).
  rewrite (bind_lift_ok _ _ _ _ E). repeat eexists; reflexivity.
Qed.

(** On a documented record, with the receiver position cached, the
    watchlist scan returns. *)
Lemma process_special_interest_returns (kv : list (string * json))
  (w : World) :
  record_ok (JObj kv) = true -> origin_cached w = true ->
  exists w', process_special_interest plat (JObj kv) w = (Ok tt, w').
Proof.
  intros Hrec Hor. unfold process_special_interest. cbn [py_in].
  rewrite (bind_lift_ok _ _ _ _ eq_refl).
  replace (dict_has "flight" kv
           && (1 <=? Z.of_nat (List.length REGISTRATION_OF_SPECIAL_INTEREST)))
    with false by (cbn; now rewrite andb_false_r).
  rewrite bind_ret.
  rewrite (bind_lift_ok _ _ _ _ eq_refl).
  destruct (dict_has "hex" kv) eqn:Dhex; cbn [andb]; [|repeat eexists; reflexivity].
  replace (1 <=? Z.of_nat (List.length ICAO_OF_SPECIAL_INTEREST))
    with true by reflexivity.
  destruct (dict_has_getitem _ _ Dhex) as (vhex & _ & Ghex).
  rewrite (bind_lift_ok _ _ _ _ Ghex).
  rewrite (bind_lift_ok _ _ _ _ (contains_any_str _ _)).
  destruct (existsb _ (map fst ICAO_OF_SPECIAL_INTEREST)) eqn:Hc; [|repeat eexists; reflexivity].
  destruct (special_interest_distance_returns kv w Hrec Hor)
    as (d & w1 & E1).
  rewrite (bind_ok _ _ _ _ _ E1).
  destruct (trimmed_or_unknown_returns kv "flight" w1) as (flight & E2).
  rewrite (bind_ok _ _ _ _ _ E2).
  destruct (trimmed_or_unknown_returns kv "squawk" w1) as (squawk & E3).
  rewrite (bind_ok _ _ _ _ _ E3).
  destruct (send_slack_notification_returns (JStr (upper (trim plat vhex)))
              flight (JStr squawk) d "icao" w1 eq_refl) as (sent & w2 & E4).
  rewrite (bind_ok _ _ _ _ _ E4).
  destruct sent; [|repeat eexists; reflexivity].
  destruct (upper_keys_assoc ICAO_OF_SPECIAL_INTEREST _ eq_refl Hc)
    as (remarks & Ha).
  assert (Et : table_getitem ICAO_OF_SPECIAL_INTEREST
                 (JStr (upper (upper (trim plat vhex)))) = Ok remarks).
  { unfold table_getitem. now rewrite Ha. }
  rewrite (bind_lift_ok _ _ _ _ Et).
  unfold logging. repeat eexists; reflexivity.
Qed.

(* ----------------------------------------------------------------- *)
(** *** The adsb filter *)

Lemma keeps_age_within (pos : bool) (threshold : Z) (aircraft : json) :
  keeps pos threshold aircraft = true <-> age_within pos threshold aircraft.
Proof.
  unfold keeps, age_within. split.
  - destruct aircraft as [| | | | |kv]; try discriminate.
    destruct (lookup (age_field pos) kv) as [v|] eqn:L; [|discriminate].
    destruct (py_number v) as [q|] eqn:N; [|discriminate].
    intros H. apply Qle_bool_iff in H. exists kv, v, q. auto.
  - intros (kv & v & q & -> & L & N & H). rewrite L, N.
    now apply Qle_bool_iff.
Qed.

Lemma seen_within_keeps (pos : bool) (threshold : Z)
  (kv : list (string * json)) :
  numeric_or_absent (age_field pos) kv = true ->
  seen_within (age_field pos) threshold (JObj kv)
  = Ok (keeps pos threshold (JObj kv)).
Proof.
  unfold numeric_or_absent, seen_within, keeps, py_in, dict_has, py_getitem,
    py_le. cbn [obind].
  destruct (lookup (age_field pos) kv) as [v|]; [|reflexivity].
  cbn [obind]. destruct (py_number v); [reflexivity|discriminate].
Qed.

Lemma record_ok_age (pos : bool) (kv : list (string * json)) :
  record_ok (JObj kv) = true -> numeric_or_absent (age_field pos) kv = true.
Proof.
  intros H. destruct (record_ok_fields kv H) as (Hs & Hp & _).
  now destruct pos.
Qed.

(** On documented records the adsb loop returns, and appends to [res] the
    records the age test keeps, in order. *)
Lemma filter_aircrafts_adsb (pos : bool) (threshold : Z) (l res : list json)
  (w : World) :
  forallb record_ok l = true -> origin_cached w = true ->
  exists w',
    filter_aircrafts plat pos "adsb" threshold l res w
    = (Ok (res ++ filter (keeps pos threshold) l), w').
Proof.
  revert res w. induction l as [|aircraft rest IH]; intros res w Hl Hor.
  - cbn. rewrite app_nil_r. eexists. reflexivity.
  - cbn [forallb] in Hl. apply andb_true_iff in Hl as [Hrec Hrest].
    destruct aircraft as [| | | | |kv]; try discriminate.
    cbn [filter_aircrafts filter].
    replace (String.eqb "adsb" "adsb") with true by reflexivity.
    pose proof (seen_within_keeps pos threshold kv (record_ok_age pos kv Hrec))
      as Hseen.
    destruct pos; cbn [age_field] in Hseen.
    + unfold bind at 1. unfold bind at 1. unfold lift at 1. rewrite Hseen.
      destruct (keeps true threshold (JObj kv)).
      * destruct (process_special_interest_returns kv w Hrec Hor)
          as (w1 & E1).
        rewrite (bind_ok _ _ _ _ _ E1). cbn [ret].
        assert (Hor1 : origin_cached w1 = true).
        { pose proof (preserves_process_special_interest origin_cached
                        stable_origin_cached (JObj kv) w) as Hp.
          rewrite E1 in Hp. cbn in Hp. now rewrite Hp. }
        destruct (IH (res ++ [JObj kv]) w1 Hrest Hor1) as (w' & E).
        rewrite E, <- app_assoc. eexists. reflexivity.
      * cbn [ret]. apply IH; assumption.
    + unfold bind at 1. unfold bind at 1. unfold lift at 1. rewrite Hseen.
      destruct (keeps false threshold (JObj kv)).
      * cbn [ret].
        destruct (IH (res ++ [JObj kv]) w Hrest Hor) as (w' & E).
        rewrite E, <- app_assoc. eexists. reflexivity.
      * cbn [ret]. apply IH; assumption.
Qed.


Lemma keeps_without_field (pos : bool) (threshold : Z)
  (kv : list (string * json)) :
  lookup (age_field pos) kv = None -> keeps pos threshold (JObj kv) = false.
Proof. intros H. unfold keeps. now rewrite H. Qed.

Lemma keeps_at_threshold (pos : bool) (threshold : Z)
  (kv : list (string * json)) :
  lookup (age_field pos) kv = Some (JNum (inject_Z threshold)) ->
  keeps pos threshold (JObj kv) = true.
Proof.
  intros H. unfold keeps. rewrite H. cbn [py_number].
  apply Qle_bool_iff. apply Qle_refl.
Qed.

(* ----------------------------------------------------------------- *)
(** *** Minimum and maximum range *)

Lemma range_scan_without_candidates (origin : Position) (mode : string)
  (threshold : Z) (l : list json) (aircraft_range : R) (w : World) :
  forallb aged_record l = true ->
  existsb (in_range threshold) l = false ->
  range_scan origin mode threshold l aircraft_range w
  = (Ok aircraft_range, w).
Proof.
  induction l as [|aircraft rest IH]; intros Hrec Hout; [reflexivity|].
  cbn [forallb] in Hrec. apply andb_true_iff in Hrec as [Ha Hrest].
  cbn [existsb] in Hout. apply orb_false_iff in Hout as [Hin Hothers].
  destruct aircraft as [| | | | |kv]; try discriminate.
  cbn [range_scan issubset forallb].
  rewrite (bind_lift_ok _ _ _ _ eq_refl).
  cbn [in_range aged_record] in Hin, Ha.
  destruct (dict_has "lat" kv); cbn [andb] in Hin |- *;
    [|rewrite bind_ret; now apply IH].
  destruct (dict_has "lon" kv); cbn [andb] in Hin |- *;
    [|rewrite bind_ret; now apply IH].
  destruct (dict_has "seen_pos" kv) eqn:Dseen; cbn [andb];
    [|rewrite bind_ret; now apply IH].
  destruct (dict_has_getitem _ _ Dseen) as (v & L & G).
  unfold bind at 1. rewrite (bind_lift_ok _ _ _ _ G).
  unfold keeps in Hin. cbn [age_field] in Hin. rewrite L in Hin.
  destruct (numeric_lookup _ _ _ Ha L) as (q & N). rewrite N in Hin.
  assert (Hle : py_le v threshold = Ok false).
  { unfold py_le. now rewrite N, Hin. }
  rewrite (bind_lift_ok _ _ _ _ Hle). cbn [ret].
  now apply IH.
Qed.

Lemma ucfirst_min_max (mode : string) :
  existsb (String.eqb mode) ["min"; "max"] = true ->
  exists s, ucfirst (JStr mode) = Ok s.
Proof.
  cbn [existsb]. rewrite orb_false_r. intros H.
  apply orb_true_iff in H as [H|H]; apply String.eqb_eq in H; subst mode;
    eexists; reflexivity.
Qed.

Lemma feed_lists_has_key (w : World) (l : list json) :
  feed_lists plat w l ->
  exists r doc,
    fetched w (aircraft_url plat) = HttpResponse r
    /\ status_code r = 200 /\ content r = Parsed (JObj doc)
    /\ py_in "aircraft" (JObj doc) = Ok true
    /\ obind (py_getitem (JObj doc) "aircraft") py_iter = Ok l.
Proof.
  intros (r & doc & Hf & Hs & Hc & Hl). exists r, doc.
  repeat split; try assumption.
  - cbn [py_in]. unfold dict_has. now rewrite Hl.
  - cbn [py_getitem]. now rewrite Hl.
Qed.

(** Without a candidate in the feed, [Helpers.distance] returns the
    accumulator it started from. *)
Lemma distance_run_without_candidates (origin : Position) (mode : string)
  (threshold : Z) (l : list json) (w : World) :
  defaults_ok plat = true ->
  is_valid_url plat (aircraft_url plat) = true ->
  existsb (String.eqb mode) ["min"; "max"] = true ->
  feed_lists plat w l ->
  forallb aged_record l = true ->
  existsb (in_range threshold) l = false ->
  exists w',
    distance plat origin mode threshold w = (Ok (initial_range plat mode), w').
Proof.
  intros Hd Hv Hm Hfeed Hrec Hout.
  destruct (defaults_ok_values Hd) as (retry & backoff & Hr & Hb).
  destruct (feed_lists_has_key w l Hfeed)
    as (r & doc & Hf & Hs & Hc & Hin & Hit).
  unfold distance.
  rewrite (bind_lift_ok _ _ _ _ (check_supported_in _ _ Hm)).
  rewrite (bind_ok _ _ _ _ _
             (get_aircrafts_raw_present true "adsb" 120 w retry backoff r
                (JObj doc) Hr Hb Hv eq_refl Hf Hs Hc Hin)).
  rewrite (bind_lift_ok _ _ _ _ Hit).
  rewrite (bind_ok _ _ _ _ _
             (range_scan_without_candidates origin mode threshold l
                (initial_range plat mode) _ Hrec Hout)).
  destruct (ucfirst_min_max mode Hm) as (s & Es).
  rewrite (bind_lift_ok _ _ _ _ Es).
  rewrite bind_logging. eexists. reflexivity.
Qed.

Lemma stable_http_get : stable http_get.
Proof. repeat split. Qed.

Lemma always_empty_sky_feed (w : World) :
  always_empty_sky plat w -> feed_lists plat w [].
Proof. intros H. exact (H (List.length (requests w))). Qed.

(* ----------------------------------------------------------------- *)
(** *** The display clear of a refresh *)

#[local] Hint Resolve stable_device_trace stable_device_calls
  stable_receiver_position stable_origin_cached : frame.

#[local] Hint Resolve preserves_download preserves_get_status
  preserves_get_receiver preserves_get_receiver_position
  preserves_send_slack_notification preserves_get_aircrafts
  preserves_distance preserves_has_emergency preserves_get_fr24_status
  preserves_bool_from_env preserves_status_field preserves_refresh_status
  preserves_refresh_aircrafts preserves_refresh_os : frame.

Lemma quiet_of_preserves {A : Type} (c : M A) :
  preserves device_trace c -> quiet c.
Proof.
  intros H w. exists []. rewrite app_nil_r. split; [apply H|reflexivity].
Qed.

Lemma quiet_bind {A B : Type} (c : M A) (k : A -> M B) :
  quiet c -> (forall a, quiet (k a)) -> quiet (bind c k).
Proof.
  intros Hc Hk w. unfold bind. destruct (Hc w) as (ops1 & E1 & N1).
  destruct (c w) as [[a|e|n] w1]; cbn [snd] in E1 |- *;
    try (exists ops1; now split).
  destruct (Hk a w1) as (ops2 & E2 & N2).
  exists (ops1 ++ ops2). rewrite E2, E1, app_assoc. split; [reflexivity|].
  now rewrite existsb_app, N1, N2.
Qed.

Lemma quiet_device (op : device_op) :
  is_clear op = false -> quiet (device op).
Proof.
  intros Hop w. unfold device.
  destruct (device_fault w (device_calls w)); cbn [snd set_device device_trace].
  - exists []. now rewrite app_nil_r.
  - exists [op]. split; [reflexivity|]. cbn. now rewrite Hop.
Qed.

(** One step of a proof that a computation is quiet. *)
Ltac quiet_step :=
  cbv beta;
  match goal with
  | |- quiet (bind _ _) => apply quiet_bind; [|intros ?]
  | |- quiet (device _) => apply quiet_device; reflexivity
  | |- quiet (if ?b then _ else _) => destruct b
  | |- quiet (match ?x with _ => _ end) => destruct x
  end.

Ltac quiet :=
  repeat first [ solve [apply quiet_of_preserves; auto with frame]
               | quiet_step ].

Lemma quiet_clear_without_clear (do_sleep : bool) (display_color : string) :
  quiet (clear false do_sleep display_color).
Proof. unfold clear. quiet. Qed.

(** Unless the cycle is 1, the [try] block of [refresh] clears nothing,
    however it ends. *)
Lemma quiet_refresh_body (cycle : option Z) :
  cycle_is_one cycle = false -> quiet (refresh_body plat cycle).
Proof.
  intros H. unfold refresh_body. rewrite H.
  apply quiet_bind; [quiet|intros status].
  apply quiet_bind; [quiet|intros [status_slug status_lines]].
  apply quiet_bind; [apply quiet_clear_without_clear|intros _].
  quiet.
Qed.

(** [__shutdown] comes back only for SIGHUP, having touched no device. *)
Lemma shutdown_returns (signal_number : Z) (w w' : World) :
  shutdown plat signal_number w = (Ok tt, w') ->
  device_trace w' = device_trace w.
Proof.
  unfold shutdown. destruct (signal_name plat signal_number) as [name|].
  2:{ discriminate. }
  destruct (String.eqb name "SIGHUP").
  - unfold logging. intros H. injection H as <-. reflexivity.
  - intros H.
    apply bind_returns in H as (? & ? & _ & H).
    apply bind_returns in H as (? & ? & _ & H).
    apply bind_returns in H as (? & ? & _ & H).
    apply bind_returns in H as (? & ? & _ & H).
    apply bind_returns in H as (? & ? & _ & H).
    discriminate.
Qed.

Lemma skipn_app_length {A : Type} (l ops : list A) :
  skipn (List.length l) (l ++ ops) = ops.
Proof. induction l as [|x l IH]; [reflexivity|exact IH]. Qed.

(** A refresh that returns has cleared nothing, unless its cycle is 1. *)
Lemma refresh_clears_only_on_cycle_one (cycle r : option Z) (w w' : World) :
  cycle_is_one cycle = false ->
  refresh plat cycle w = (Ok r, w') ->
  existsb is_clear (new_device_ops w w') = false.
Proof.
  intros Hc H. unfold refresh in H.
  apply bind_returns in H as (u & w0 & Hfonts & H).
  unfold lift in Hfonts. injection Hfonts as _ <-.
  unfold try_except in H.
  destruct (quiet_refresh_body cycle Hc w) as (ops & Eops & Nops).
  destruct (refresh_body plat cycle w) as [[a|e|n] w1]; cbn [snd] in Eops.
  - injection H as _ <-. unfold new_device_ops.
    now rewrite Eops, skipn_app_length.
  - destruct (is_IOError e); [|discriminate].
    apply bind_returns in H as (? & w2 & Hlog & H).
    apply bind_returns in H as ([] & w3 & Hshut & H).
    unfold ret in H. injection H as _ <-.
    apply shutdown_returns in Hshut.
    unfold logging in Hlog. injection Hlog as _ <-.
    unfold new_device_ops. rewrite Hshut. cbn [set_log device_trace].
    now rewrite Eops, skipn_app_length.
  - discriminate.
Qed.

(** A refresh that returns hands back its cycle plus one, or None from the
    handler of IOError. *)
Lemma refresh_returns_next_cycle (c : Z) (r : option Z) (w w' : World) :
  refresh plat (Some c) w = (Ok r, w') -> r = Some (c + 1) \/ r = None.
Proof.
  intros H. unfold refresh in H.
  apply bind_returns in H as (u & w0 & _ & H).
  unfold try_except in H.
  destruct (refresh_body plat (Some c) w0) as [[a|e|n] w1] eqn:Eb.
  - left. injection H as <- _.
    unfold refresh_body in Eb.
    apply bind_returns in Eb as (status & ? & _ & Eb).
    apply bind_returns in Eb as ([slug lines] & ? & _ & Eb).
    apply bind_returns in Eb as (? & ? & _ & Eb).
    apply bind_returns in Eb as (? & ? & _ & Eb).
    apply bind_returns in Eb as (? & ? & _ & Eb).
    apply bind_returns in Eb as (? & ? & _ & Eb).
    apply bind_returns in Eb as (? & ? & _ & Eb).
    apply bind_returns in Eb as (? & ? & _ & Eb).
    apply bind_returns in Eb as (? & ? & _ & Eb).
    apply bind_returns in Eb as (n & ? & En & Eb).
    apply bind_returns in Eb as (? & ? & _ & Eb).
    unfold ret in En, Eb. injection En as <- _. now injection Eb as <- _.
  - destruct (is_IOError e); [|discriminate].
    right.
    apply bind_returns in H as (? & ? & _ & H).
    apply bind_returns in H as (? & ? & _ & H).
    unfold ret in H. now injection H as <- _.
  - discriminate.
Qed.

(** The pin handlers and the signal handler cannot assign the loop's
    [cycle]: whatever they do, it stays. *)
Lemma handlers_keep_loop_cycle (s : System) (channel n : Z) :
  loop_cycle (snd (step plat (Interrupt channel) s)) = loop_cycle s
  /\ loop_cycle (snd (step plat (Signal n) s)) = loop_cycle s.
Proof.
  unfold step. split.
  - now destruct (process_interrupt plat channel (world s)).
  - now destruct (shutdown plat n (world s)).
Qed.

(** The pin 13 event, when its handler returns, has cleared nothing. *)
Lemma pin_refresh_clears_nothing (s s' : System) :
  step plat (Interrupt 13) s = (Ok tt, s') ->
  existsb is_clear (new_device_ops (world s) (world s')) = false.
Proof.
  unfold step, process_interrupt. cbn [Z.eqb Pos.eqb].
  rewrite bind_logging.
  match goal with
  | |- context [bind (refresh plat (Some 0)) ?k ?w0] =>
      destruct (bind (refresh plat (Some 0)) k w0) as [o w1] eqn:E
  end.
  intros H. injection H as -> <-. cbn [world].
  apply bind_returns in E as (r & w2 & Er & E).
  unfold ret in E. injection E as <-.
  apply (refresh_clears_only_on_cycle_one (Some 0) r _ _ eq_refl) in Er.
  exact Er.
Qed.

(** C2, as amended. A forced refresh, [refresh] called with cycle 0,
    performs no display clear when it returns: the clear is tied to cycle
    1 alone. It hands back 1 (or None from the handler of IOError), which
    the pin handler drops: the pin 13 event leaves the loop's counter as
    it was. *)
Theorem forced_refresh_skips_clear (w w' : World) (r : option Z)
  (s : System) :
  refresh plat (Some 0) w = (Ok r, w') ->
  existsb is_clear (new_device_ops w w') = false
  /\ (r = Some 1 \/ r = None)
  /\ loop_cycle (snd (step plat (Interrupt 13) s)) = loop_cycle s.
Proof.
  intros H. split; [|split].
  - exact (refresh_clears_only_on_cycle_one (Some 0) r w w' eq_refl H).
  - exact (refresh_returns_next_cycle 0 r w w' H).
  - apply (handlers_keep_loop_cycle s 13 0).
Qed.

(** A turn of the loop that returns leaves in [cycle] what its refresh
    handed back: the old value plus one, or None. *)
Lemma tick_advances_loop_cycle (s s' : System) (c : Z) :
  loop_cycle s = Some c ->
  step plat Tick s = (Ok tt, s') ->
  loop_cycle s' = Some (c + 1) \/ loop_cycle s' = None.
Proof.
  intros Hc. unfold step. rewrite Hc.
  destruct (process_iteration plat (Some c) (world s)) as [[r|e|n] w'] eqn:E;
    intros H; try discriminate.
  injection H as <-. cbn [loop_cycle].
  unfold process_iteration in E. rewrite bind_logging in E.
  apply bind_returns in E as (r' & w1 & Er & E).
  apply bind_returns in E as (? & ? & _ & E).
  apply bind_returns in E as (? & ? & _ & E).
  unfold ret in E. injection E as <- _.
  exact (refresh_returns_next_cycle c r' _ _ Er).
Qed.

End Telemetry.

(* ================================================================= *)
(** ** The properties on the sample worlds *)

Lemma download_invalid_url_raises_witness :
  download sample_platform "127.0.0.1:8080/status.json" None None true
    unreachable_world
  = (Raise (Exn RuntimeError
              ("URL " ++ "127.0.0.1:8080/status.json" ++ " is invalid")%string),
     unreachable_world).
Proof.
  apply (download_invalid_url_raises sample_platform
           "127.0.0.1:8080/status.json" None None true unreachable_world).
  reflexivity.
Defined.

Lemma get_aircrafts_unsupported_mode_raises_witness :
  exists msg,
    get_aircrafts sample_platform true "tisb" 120 false traffic_world
    = (Raise (Exn ValueError msg), traffic_world).
Proof.
  apply (get_aircrafts_unsupported_mode_raises sample_platform true "tisb"
           120 false traffic_world); discriminate.
Defined.

Lemma get_aircrafts_raw_lost_feed_returns_count_witness :
  fst (get_aircrafts sample_platform true "adsb" 120 true unreachable_world)
  = Ok (JNum 0)
  /\ py_in "aircraft" (JNum 0)
     = Raise (Exn TypeError "argument is not iterable").
Proof.
  apply (get_aircrafts_raw_lost_feed_returns_count sample_platform true
           "adsb" 120 unreachable_world); reflexivity.
Defined.

Lemma has_emergency_lost_feed_raises_witness :
  fst (has_emergency sample_platform [PStr "OK"] "count" keyless_world)
  = Raise (Exn TypeError "argument is not iterable").
Proof.
  apply (has_emergency_lost_feed_raises sample_platform [PStr "OK"]
           keyless_world); reflexivity.
Defined.

(** C3, the claim as stated fails: when the connection fails,
    [get_aircrafts], asked for its count, returns the integer 0, which is
    no empty mapping. *)
Lemma fetch_failure_not_always_empty_mapping :
  transfer_failed
    (fetched unreachable_world (aircraft_url sample_platform)) = true
  /\ fst (get_aircrafts sample_platform true "adsb" 120 false
            unreachable_world) = Ok (JNum 0)
  /\ JNum 0 <> JObj [].
Proof.
  repeat split; try reflexivity. discriminate.
Qed.

(** The body that is no JSON, on the sample world that answers 200 with
    one. *)
Lemma get_status_malformed_body_sample :
  fst (get_status sample_platform malformed_world)
  = Raise (Exn OSError "Expecting value").
Proof.
  exact (get_status_malformed_body_raises sample_platform malformed_world
           (mkResponse 200 (Malformed (Exn OSError "Expecting value")))
           (Exn OSError "Expecting value") eq_refl eq_refl eq_refl eq_refl
           eq_refl).
Qed.

Lemma fetch_failure_is_absorbed_witness :
  fst (get_status sample_platform unreachable_world) = Ok (JObj [])
  /\ fst (get_receiver sample_platform server_error_world) = Ok (JObj [])
  /\ fst (get_aircrafts sample_platform true "mlat" 120 false
            server_error_world) = Ok (JNum 0).
Proof.
  destruct (fetch_failure_is_absorbed sample_platform unreachable_world
              eq_refl) as (Hstatus & _ & _).
  destruct (fetch_failure_is_absorbed sample_platform server_error_world
              eq_refl) as (_ & Hreceiver & Haircraft).
  split; [apply Hstatus; reflexivity|].
  split; [apply Hreceiver; reflexivity|].
  apply Haircraft; reflexivity.
Defined.

Lemma send_slack_notification_never_raises_witness :
  (exists delivered w',
      send_slack_notification sample_platform (JStr "4ca2d1") "DLH4AB"
        (JStr "7700") (DistStr "unknown") "emergency" traffic_world
      = (Ok delivered, w'))
  /\ send_slack_notification sample_platform (JStr "4ca2d1") "DLH4AB"
       (JStr "7700") (DistStr "unknown") "icao" empty_sky_world
     = (Ok false, empty_sky_world)
  /\ (exists w' msg,
        send_slack_notification sample_platform (JStr "4ca2d1") "DLH4AB"
          (JStr "7700") (DistStr "unknown") "emergency"
          refused_transport_world
        = (Ok false, w')
        /\ log w' = log refused_transport_world
                    ++ [mkLog ERROR "Unable to Send Slack Message: %s"
                          [PStr msg]]).
Proof.
  split; [|split].
  - exact (proj1
             (send_slack_notification_never_raises sample_platform
                (JStr "4ca2d1") "DLH4AB" (JStr "7700") (DistStr "unknown")
                "emergency" traffic_world eq_refl)).
  - exact (proj1
             (proj2
                (send_slack_notification_never_raises sample_platform
                   (JStr "4ca2d1") "DLH4AB" (JStr "7700")
                   (DistStr "unknown") "icao" empty_sky_world eq_refl))
             eq_refl).
  - apply (proj2
             (proj2
                (send_slack_notification_never_raises sample_platform
                   (JStr "4ca2d1") "DLH4AB" (JStr "7700")
                   (DistStr "unknown") "emergency" refused_transport_world
                   eq_refl))).
    + discriminate.
    + intros n m. eexists. reflexivity.
Defined.

(** C2, the claim as stated fails: on an empty sky the forced refresh,
    cycle 0, runs to its end and clears nothing, where the same refresh
    with cycle 1 does clear. *)
Lemma forced_refresh_clears_nothing :
  fst (refresh sample_platform (Some 0) empty_sky_world) = Ok (Some 1)
  /\ existsb is_clear
       (device_trace (snd (refresh sample_platform (Some 0) empty_sky_world)))
     = false
  /\ existsb is_clear
       (device_trace (snd (refresh sample_platform (Some 1) empty_sky_world)))
     = true.
Proof.
  repeat split; lazy; reflexivity.
Qed.

Lemma forced_refresh_skips_clear_witness :
  existsb is_clear
    (new_device_ops empty_sky_world
       (snd (refresh sample_platform (Some 0) empty_sky_world))) = false
  /\ (Some 1 = Some 1 \/ Some 1 = @None Z)
  /\ loop_cycle
       (snd (step sample_platform (Interrupt 13)
               (mkSystem (Some 7) empty_sky_world)))
     = loop_cycle (mkSystem (Some 7) empty_sky_world).
Proof.
  refine (forced_refresh_skips_clear sample_platform empty_sky_world
            (snd (refresh sample_platform (Some 0) empty_sky_world))
            (Some 1) (mkSystem (Some 7) empty_sky_world) _).
  apply run_ok. lazy. reflexivity.
Defined.

(** The sample traffic under the position filter at 120 seconds: the
    records aged 30 and exactly 120 stay, the one aged 121 and the two
    without a position age go. *)
Lemma sample_traffic_kept :
  filter (keeps true 120) sample_traffic
  = [ JObj [("hex", JStr "4ca2d1"); ("seen_pos", JNum 30); ("seen", JNum 1)];
      JObj [("hex", JStr "3c6444"); ("seen_pos", JNum 120); ("seen", JNum 2)] ]
  /\ fst (get_aircrafts sample_platform true "adsb" 120 false traffic_world)
     = Ok (JNum 2)
  /\ fst (get_aircrafts sample_platform false "adsb" 120 false traffic_world)
     = Ok (JNum 4).
Proof. repeat split; reflexivity. Qed.


(* ================================================================= *)
(** ** Further properties of the engine *)

(* ----------------------------------------------------------------- *)
(** *** Case-insensitive matching *)

Lemma upper_lower_ascii (c : ascii) :
  upper_ascii (lower_ascii c) = upper_ascii c.
Proof.
  destruct c as [[] [] [] [] [] [] [] []]; reflexivity.
Qed.

Lemma upper_upper_ascii (c : ascii) :
  upper_ascii (upper_ascii c) = upper_ascii c.
Proof.
  destruct c as [[] [] [] [] [] [] [] []]; reflexivity.
Qed.

Lemma upper_lower (s : string) : upper (lower s) = upper s.
Proof.
  unfold upper, lower.
  induction s as [|c s IH]; [reflexivity|].
  cbn [map_string]. now rewrite upper_lower_ascii, IH.
Qed.

Lemma upper_upper (s : string) : upper (upper s) = upper s.
Proof.
  unfold upper.
  induction s as [|c s IH]; [reflexivity|].
  cbn [map_string]. now rewrite upper_upper_ascii, IH.
Qed.

Lemma upper_ascii_digit (c d : ascii) :
  upper_ascii c = d -> is_digit d = true -> c = d.
Proof.
  intros H Hd. subst d.
  destruct c as [[] [] [] [] [] [] [] []];
    first [reflexivity | discriminate Hd].
Qed.

Lemma upper_eq_digits (k s : string) :
  all_digits k = true -> upper s = k -> s = k.
Proof.
  revert s. induction k as [|d k IH]; intros s Hk H.
  - destruct s; [reflexivity|discriminate].
  - destruct s as [|c s]; [discriminate|].
    unfold upper in H. cbn [map_string] in H. injection H as Hc Hs.
    cbn [all_digits] in Hk. apply andb_true_iff in Hk as [Hd Hk].
    f_equal; [exact (upper_ascii_digit c d Hc Hd)|exact (IH s Hk Hs)].
Qed.

Lemma upper_digits (k : string) : all_digits k = true -> upper k = k.
Proof.
  induction k as [|d k IH]; [reflexivity|].
  cbn [all_digits]. intros H. apply andb_true_iff in H as [Hd Hk].
  unfold upper in *. cbn [map_string]. rewrite (IH Hk). f_equal.
  destruct d as [[] [] [] [] [] [] [] []];
    first [reflexivity | discriminate Hd].
Qed.

(** On a key written in digits the comparison in upper case is the
    comparison as written. *)
Lemma upper_eqb_digits (k s : string) :
  all_digits k = true ->
  String.eqb (upper k) (upper s) = String.eqb s k.
Proof.
  intros Hk. rewrite (upper_digits k Hk).
  destruct (String.eqb s k) eqn:E.
  - apply String.eqb_eq in E. subst s. rewrite (upper_digits k Hk).
    apply String.eqb_refl.
  - apply String.eqb_neq. intros Heq. apply String.eqb_neq in E.
    apply E. symmetry in Heq. exact (upper_eq_digits k s Hk Heq).
Qed.

(** X1. On a haystack written in digits the test of [contains_any], made
    in upper case, is exact membership: a needle passes exactly when it
    is one of the elements as written, no other spelling of it does.  The
    keys of the table of emergency squawks are such a haystack, so a
    squawk passes exactly when it is 7500, 7600 or 7700. *)
Theorem contains_any_exact_on_digits (s : string) (haystack : list string) :
  forallb all_digits haystack = true ->
  contains_any (JStr s) haystack = Ok (existsb (String.eqb s) haystack)
  /\ (contains_any (JStr s) haystack = Ok true <-> In s haystack)
  /\ contains_any (JStr s) (map fst EMERGENCY_SQUAWK)
     = Ok (emergency_code s).
Proof.
  intros Hd.
  assert (H : forall l, forallb all_digits l = true ->
                contains_any (JStr s) l = Ok (existsb (String.eqb s) l)).
  { intros l Hl. rewrite contains_any_str. f_equal.
    induction l as [|k rest IH]; [reflexivity|].
    cbn [forallb] in Hl. apply andb_true_iff in Hl as [Hk Hrest].
    cbn [existsb]. now rewrite (upper_eqb_digits k s Hk), (IH Hrest). }
  split; [exact (H haystack Hd)|split].
  - rewrite (H haystack Hd). split.
    + intros [= E]. apply existsb_exists in E as (k & Hin & Ek).
      apply String.eqb_eq in Ek. now subst k.
    + intros Hin. f_equal. apply existsb_exists. exists s.
      split; [exact Hin|apply String.eqb_refl].
  - exact (H (map fst EMERGENCY_SQUAWK) eq_refl).
Qed.

Section Alerts.

Variable plat : Platform.

(* ----------------------------------------------------------------- *)
(** *** The emergency scan *)

Lemma emergency_code_upper (s : string) :
  existsb (fun element => String.eqb (upper element) (upper s))
    (map fst EMERGENCY_SQUAWK)
  = emergency_code s.
Proof.
  assert (H : forall k, all_digits k = true ->
                String.eqb (upper k) (upper s) = String.eqb s k).
  { intros k Hk. rewrite (upper_digits k Hk).
    destruct (String.eqb s k) eqn:E.
    - apply String.eqb_eq in E. subst s. rewrite (upper_digits k Hk).
      apply String.eqb_refl.
    - apply String.eqb_neq. intros Heq. apply String.eqb_neq in E.
      apply E. symmetry in Heq. exact (upper_eq_digits k s Hk Heq). }
  unfold emergency_code. cbn [map fst EMERGENCY_SQUAWK existsb].
  now rewrite !H by reflexivity.
Qed.

(** The distance the emergency scan resolves for a record. *)
Lemma emergency_distance_returns (origin : Position)
  (kv : list (string * json)) (w : World) :
  finite_position origin = true ->
  numeric_or_absent "lat" kv = true -> numeric_or_absent "lon" kv = true ->
  exists d,
    (if dict_has "lat" kv && (dict_has "lon" kv && true)
     then
       bind (lift (py_getitem (JObj kv) "lat")) (fun lat =>
       bind (lift (py_getitem (JObj kv) "lon")) (fun lon =>
       bind (lift (haversine_distance origin (mkPosition lat lon)
                     earth_radius)) (fun d =>
       ret (DistKm (to_kilometers plat d 2)))))
     else ret (DistStr "unknown")) w = (Ok d, w).
Proof.
  intros Hor Hlat Hlon.
  destruct (dict_has "lat" kv) eqn:Dlat; cbn [andb];
    [|eexists; reflexivity].
  destruct (dict_has "lon" kv) eqn:Dlon; cbn [andb];
    [|eexists; reflexivity].
  destruct (dict_has_getitem _ _ Dlat) as (vlat & Llat & Glat).
  destruct (dict_has_getitem _ _ Dlon) as (vlon & Llon & Glon).
  rewrite (bind_lift_ok _ _ _ _ Glat), (bind_lift_ok _ _ _ _ Glon).
  destruct (numeric_lookup _ _ _ Hlat Llat) as (qlat & Nlat).
  destruct (numeric_lookup _ _ _ Hlon Llon) as (qlon & Nlon).
  assert (Hfin : finite_position (mkPosition vlat vlon) = true).
  { unfold finite_position. cbn [latitude longitude].
    now rewrite Nlat, Nlon. }
  destruct (haversine_distance_finite origin (mkPosition vlat vlon)
              earth_radius Hor Hfin) as (a & b & c & d & _ & _ & _ & _ & E).
  rewrite (bind_lift_ok _ _ _ _ E). eexists. reflexivity.
Qed.

(** One turn of the loop on a record it gets through: the count goes up
    by one when the record squawks an emergency. *)
Lemma emergency_scan_step (origin : Position) (aircraft : json)
  (rest : list json) (emergency : Z) (w : World) :
  finite_position origin = true ->
  squawk_record_ok aircraft = true ->
  exists w',
    emergency_scan plat origin (aircraft :: rest) emergency w
    = emergency_scan plat origin rest
        (emergency + (if squawks_emergency aircraft then 1 else 0)) w'.
Proof.
  intros Hor Hrec.
  destruct aircraft as [| | | | |kv]; try discriminate.
  cbn [emergency_scan squawks_emergency py_in].
  rewrite (bind_lift_ok _ _ _ _ eq_refl).
  cbn [squawk_record_ok] in Hrec. unfold dict_has at 1.
  destruct (lookup "squawk" kv) as [[| | |s| |]|] eqn:L; try discriminate.
  2:{ rewrite bind_ret, Z.add_0_r. eexists. reflexivity. }
  assert (G : py_getitem (JObj kv) "squawk" = Ok (JStr s)).
  { cbn [py_getitem]. now rewrite L. }
  unfold bind at 1. rewrite (bind_lift_ok _ _ _ _ G).
  rewrite (bind_lift_ok _ _ _ _ (contains_any_str _ _)).
  rewrite emergency_code_upper.
  destruct (emergency_code s);
    [|cbn [ret]; rewrite Z.add_0_r; eexists; reflexivity].
  apply andb_true_iff in Hrec as [Hrec Hlon].
  apply andb_true_iff in Hrec as [Hhex Hlat].
  destruct (trimmed_or_unknown_returns plat kv "flight" w) as (flight & E2).
  rewrite (bind_ok _ _ _ _ _ E2).
  cbn [issubset forallb].
  rewrite (bind_lift_ok _ _ _ _ eq_refl).
  destruct (dict_has_getitem _ _ Hhex) as (vhex & _ & Ghex).
  destruct (emergency_distance_returns origin kv w Hor Hlat Hlon)
    as (d & Ed).
  rewrite (bind_ok _ _ _ _ _ Ed).
  rewrite (bind_lift_ok _ _ _ _ Ghex).
  destruct (send_slack_notification_returns plat vhex flight (JStr s) d
              "emergency" w eq_refl) as (sent & w1 & E4).
  rewrite (bind_ok _ _ _ _ _ E4).
  rewrite bind_logging. cbn [ret].
  eexists. reflexivity.
Qed.

(** The loop gets through a prefix of such records and goes on with the
    rest. *)
Lemma emergency_scan_prefix (origin : Position) (pre rest : list json)
  (emergency : Z) (w : World) :
  finite_position origin = true ->
  forallb squawk_record_ok pre = true ->
  exists w',
    emergency_scan plat origin (pre ++ rest) emergency w
    = emergency_scan plat origin rest
        (emergency + Z.of_nat (List.length (filter squawks_emergency pre)))
        w'.
Proof.
  intros Hor. revert emergency w.
  induction pre as [|aircraft pre IH]; intros emergency w Hl.
  - cbn [app filter List.length Z.of_nat]. rewrite Z.add_0_r.
    eexists. reflexivity.
  - cbn [forallb] in Hl. apply andb_true_iff in Hl as [Hrec Hpre].
    cbn [app].
    destruct (emergency_scan_step origin aircraft (pre ++ rest) emergency w
                Hor Hrec) as (w1 & E1).
    rewrite E1.
    destruct (IH (emergency + (if squawks_emergency aircraft then 1 else 0))
                w1 Hpre) as (w' & E).
    rewrite E. exists w'. f_equal.
    cbn [filter]. destruct (squawks_emergency aircraft);
      cbn [List.length]; lia.
Qed.

(** On records it gets through, the loop of the emergency scan adds one
    to the count for every record that squawks an emergency. *)
Lemma emergency_scan_counts (origin : Position) (l : list json)
  (emergency : Z) (w : World) :
  finite_position origin = true ->
  forallb squawk_record_ok l = true ->
  exists w',
    emergency_scan plat origin l emergency w
    = (Ok (emergency + Z.of_nat (List.length (filter squawks_emergency l))),
       w').
Proof.
  intros Hor Hl.
  destruct (emergency_scan_prefix origin l [] emergency w Hor Hl)
    as (w' & E).
  rewrite app_nil_r in E. rewrite E. eexists. reflexivity.
Qed.

(** What [__has_emergency] does up to its loop, on a fetched list with the
    receiver position cached. *)
Lemma has_emergency_reaches_scan (current_status : text) (mode : string)
  (l : list json) (w : World) :
  defaults_ok plat = true ->
  is_valid_url plat (aircraft_url plat) = true ->
  existsb (String.eqb mode) ["slug"; "count"] = true ->
  feed_lists plat w l ->
  origin_cached w = true ->
  exists origin w1,
    finite_position origin = true
    /\ has_emergency plat current_status mode w
       = bind (emergency_scan plat origin l 0) (fun emergency =>
           if String.eqb mode "slug" then
             if 1 <=? emergency
             then ret (Slug [PStr "!!! SQUAWK 7x00 (Count: "; PInt emergency;
                             PStr ") !!!"])
             else ret (Slug current_status)
           else ret (Count emergency)) w1.
Proof.
  intros Hd Hv Hm Hfeed Hor.
  destruct (defaults_ok_values plat Hd) as (retry & backoff & Hr & Hb).
  destruct (feed_lists_has_key plat w l Hfeed)
    as (r & doc & Hf & Hs & Hc & Hin & Hit).
  unfold origin_cached in Hor.
  destruct (receiver_position w) as [p|] eqn:Hp; [|discriminate].
  destruct (get_receiver_position_cached plat
              (after_get plat w (aircraft_url plat) retry backoff) p Hp)
    as (w1 & E1).
  exists p, w1. split; [exact Hor|].
  unfold has_emergency.
  rewrite (bind_lift_ok _ _ _ _ (check_supported_in _ _ Hm)).
  rewrite (bind_ok _ _ _ _ _
             (get_aircrafts_raw_present plat true "adsb" 120 w retry backoff
                r (JObj doc) Hr Hb Hv eq_refl Hf Hs Hc Hin)).
  rewrite (bind_lift_ok _ _ _ _ Hin).
  unfold bind at 1. unfold bind at 1. rewrite E1.
  rewrite (bind_lift_ok _ _ _ _ Hit).
  reflexivity.
Qed.




(* ----------------------------------------------------------------- *)
(** *** The mlat filter *)

Lemma has_mlat_listed (kv : list (string * json)) :
  mlat_record_ok (JObj kv) = true ->
  has_mlat (JObj kv) = Ok (mlat_listed (JObj kv)).
Proof.
  unfold mlat_record_ok, has_mlat, mlat_listed, py_in, dict_has, py_getitem.
  cbn [obind].
  destruct (lookup "mlat" kv) as [[| | | |items|]|]; try discriminate;
    reflexivity.
Qed.

Lemma filter_aircrafts_mlat (pos : bool) (threshold : Z) (l res : list json)
  (w : World) :
  forallb mlat_record_ok l = true ->
  filter_aircrafts plat pos "mlat" threshold l res w
  = (Ok (res ++ filter mlat_listed l), w).
Proof.
  revert res. induction l as [|aircraft rest IH]; intros res Hl.
  - cbn. now rewrite app_nil_r.
  - cbn [forallb] in Hl. apply andb_true_iff in Hl as [Hrec Hrest].
    destruct aircraft as [| | | | |kv]; try discriminate.
    cbn [filter_aircrafts filter].
    replace (String.eqb "mlat" "adsb") with false by reflexivity.
    replace (String.eqb "mlat" "mlat") with true by reflexivity.
    unfold bind at 1. unfold bind at 1. unfold lift at 1.
    rewrite (has_mlat_listed kv Hrec).
    destruct (mlat_listed (JObj kv)); cbn [ret].
    + rewrite (IH (res ++ [JObj kv]) Hrest). now rewrite <- app_assoc.
    + apply IH. exact Hrest.
Qed.

(** X5. In mode mlat the filter counts the records whose mlat list names
    lat, whatever [pos] and the threshold are, and it notifies nobody: the
    watchlist scan is not run. *)
Theorem get_aircrafts_mlat_counts (pos : bool) (threshold : Z)
  (l : list json) (w : World) :
  defaults_ok plat = true ->
  is_valid_url plat (aircraft_url plat) = true ->
  feed_lists plat w l ->
  forallb mlat_record_ok l = true ->
  fst (get_aircrafts plat pos "mlat" threshold false w)
  = Ok (JNum (inject_Z (Z.of_nat (List.length (filter mlat_listed l)))))
  /\ slack_sent (snd (get_aircrafts plat pos "mlat" threshold false w))
     = slack_sent w.
Proof.
  intros Hd Hv Hfeed Hl.
  destruct (defaults_ok_values plat Hd) as (retry & backoff & Hr & Hb).
  destruct (feed_lists_has_key plat w l Hfeed)
    as (r & doc & Hf & Hs & Hc & Hin & Hit).
  assert (E : exists w',
             get_aircrafts plat pos "mlat" threshold false w
             = (Ok (JNum (inject_Z
                            (Z.of_nat (List.length (filter mlat_listed l))))),
                w')
             /\ slack_sent w' = slack_sent w).
  { unfold get_aircrafts.
    rewrite (bind_lift_ok _ _ _ _
               (check_supported_in "mlat" ["adsb"; "mlat"] eq_refl)).
    unfold bind at 1.
    rewrite (download_valid plat _ retry backoff w Hv Hr Hb), Hf, Hs.
    cbn [Z.eqb Pos.eqb].
    unfold response_json. rewrite Hc.
    rewrite (bind_lift_ok _ _ _ _ eq_refl).
    rewrite (bind_lift_ok _ _ _ _ Hin). cbv iota.
    rewrite (bind_lift_ok _ _ _ _ Hit).
    rewrite (bind_ok _ _ _ _ _
               (filter_aircrafts_mlat pos threshold l [] _ Hl)).
    unfold count_aircrafts. rewrite bind_logging. cbn [app ret].
    eexists. split; reflexivity. }
  destruct E as (w' & E & Hsent). rewrite E. split; [reflexivity|exact Hsent].
Qed.

(* ----------------------------------------------------------------- *)
(** *** The range over the candidates *)

Lemma in_range_located (threshold : Z) (kv : list (string * json)) :
  numeric_or_absent "seen_pos" kv = true ->
  in_range threshold (JObj kv)
  = (dict_has "lat" kv && (dict_has "lon" kv && (dict_has "seen_pos" kv && true)))
    && keeps true threshold (JObj kv).
Proof.
  intros Hnum. cbn [in_range]. rewrite andb_true_r.
  unfold keeps, dict_has. cbn [age_field].
  destruct (lookup "lat" kv), (lookup "lon" kv), (lookup "seen_pos" kv);
    cbn [andb]; try reflexivity; now rewrite ?andb_true_r.
Qed.

(** One turn of the range loop on a documented record. *)
Lemma range_scan_step (origin : Position) (mode : string) (threshold : Z)
  (aircraft : json) (rest : list json) (r0 : R) (w : World) :
  finite_position origin = true ->
  record_ok aircraft = true ->
  exists r1,
    range_scan origin mode threshold (aircraft :: rest) r0 w
    = range_scan origin mode threshold rest r1 w
    /\ beyond mode r0 r1
    /\ (forall d, in_range threshold aircraft = true ->
                  record_distance origin aircraft = Ok d -> beyond mode d r1)
    /\ (r1 = r0
        \/ (in_range threshold aircraft = true
            /\ record_distance origin aircraft = Ok r1)).
Proof.
  intros Hor Hrec.
  destruct aircraft as [| | | | |kv]; try discriminate.
  destruct (record_ok_fields kv Hrec) as (_ & Hseen & Hlat & Hlon).
  assert (Hsame : beyond mode r0 r0).
  { unfold beyond. destruct (String.eqb mode "max"); apply Rle_refl. }
  rewrite (in_range_located threshold kv Hseen).
  cbn [range_scan issubset forallb].
  rewrite (bind_lift_ok _ _ _ _ eq_refl).
  destruct (dict_has "lat" kv) eqn:Dlat; cbn [andb].
  2:{ exists r0. rewrite bind_ret. repeat split; auto; discriminate. }
  destruct (dict_has "lon" kv) eqn:Dlon; cbn [andb].
  2:{ exists r0. rewrite bind_ret. repeat split; auto; discriminate. }
  destruct (dict_has "seen_pos" kv) eqn:Dseen; cbn [andb].
  2:{ exists r0. rewrite bind_ret. repeat split; auto; discriminate. }
  destruct (dict_has_getitem _ _ Dseen) as (v & L & G).
  unfold bind at 1. rewrite (bind_lift_ok _ _ _ _ G).
  destruct (numeric_lookup _ _ _ Hseen L) as (q & N).
  assert (Hle : py_le v threshold = Ok (keeps true threshold (JObj kv))).
  { unfold py_le, keeps. cbn [age_field]. now rewrite L, N. }
  rewrite (bind_lift_ok _ _ _ _ Hle).
  destruct (keeps true threshold (JObj kv)).
  2:{ exists r0. cbn [ret]. repeat split; auto; discriminate. }
  destruct (dict_has_getitem _ _ Dlat) as (vlat & Llat & Glat).
  destruct (dict_has_getitem _ _ Dlon) as (vlon & Llon & Glon).
  rewrite (bind_lift_ok _ _ _ _ Glat), (bind_lift_ok _ _ _ _ Glon).
  destruct (numeric_lookup _ _ _ Hlat Llat) as (qlat & Nlat).
  destruct (numeric_lookup _ _ _ Hlon Llon) as (qlon & Nlon).
  assert (Hfin : finite_position (mkPosition vlat vlon) = true).
  { unfold finite_position. cbn [latitude longitude]. now rewrite Nlat, Nlon. }
  destruct (haversine_distance_finite origin (mkPosition vlat vlon)
              earth_radius Hor Hfin) as (a & b & c & e & _ & _ & _ & _ & E).
  rewrite (bind_lift_ok _ _ _ _ E).
  assert (Hd : record_distance origin (JObj kv)
               = Ok (haversine (radians a) (radians b) (radians c)
                       (radians e) earth_radius)).
  { unfold record_distance. rewrite Glat, Glon. cbn [obind]. exact E. }
  rewrite Hd. unfold beyond in *.
  destruct (String.eqb mode "max"); cbn [ret].
  - match goal with |- context [Rgt_dec ?x ?y] => destruct (Rgt_dec x y) end;
      eexists; (split; [reflexivity|]); repeat split;
      try (intros d _ [= <-]); try lra; auto.
  - match goal with |- context [Rlt_dec ?x ?y] => destruct (Rlt_dec x y) end;
      eexists; (split; [reflexivity|]); repeat split;
      try (intros d _ [= <-]); try lra; auto.
Qed.

Lemma beyond_trans (mode : string) (x y z : R) :
  beyond mode x y -> beyond mode y z -> beyond mode x z.
Proof.
  unfold beyond. destruct (String.eqb mode "max"); intros; lra.
Qed.

(** The range loop on documented records: it touches nothing, and what it
    returns is beyond its start and beyond every candidate, and is one of
    them. *)
Lemma range_scan_bounds (origin : Position) (mode : string) (threshold : Z)
  (l : list json) (r0 : R) (w : World) :
  finite_position origin = true ->
  forallb record_ok l = true ->
  exists r,
    range_scan origin mode threshold l r0 w = (Ok r, w)
    /\ beyond mode r0 r
    /\ (forall aircraft d,
          In aircraft l -> in_range threshold aircraft = true ->
          record_distance origin aircraft = Ok d -> beyond mode d r)
    /\ (r = r0
        \/ exists aircraft,
             In aircraft l /\ in_range threshold aircraft = true
             /\ record_distance origin aircraft = Ok r).
Proof.
  intros Hor. revert r0.
  induction l as [|aircraft rest IH]; intros r0 Hl.
  - exists r0. repeat split; auto.
    + unfold beyond. destruct (String.eqb mode "max"); apply Rle_refl.
    + intros a d [].
  - cbn [forallb] in Hl. apply andb_true_iff in Hl as [Hrec Hrest].
    destruct (range_scan_step origin mode threshold aircraft rest r0 w
                Hor Hrec) as (r1 & E1 & B1 & C1 & O1).
    destruct (IH r1 Hrest) as (r & E & B & C & O).
    exists r. rewrite E1. split; [exact E|]. split; [|split].
    + exact (beyond_trans mode r0 r1 r B1 B).
    + intros a d [<-|Hin] Hr Hd.
      * exact (beyond_trans mode d r1 r (C1 d Hr Hd) B).
      * exact (C a d Hin Hr Hd).
    + destruct O as [->|(a & Hin & Hr & Hd)].
      * destruct O1 as [->|(Hr & Hd)]; [now left|].
        right. exists aircraft. cbn [In]. auto.
      * right. exists a. cbn [In]. auto.
Qed.


(* ----------------------------------------------------------------- *)
(** *** What reaches the transport *)

Lemma credentials_env (w : World) (token channel : string) :
  credentials w = Some (token, channel) ->
  getenv w "SLACK_BOT_TOKEN" = Some token
  /\ getenv w "SLACK_CHANNEL" = Some channel.
Proof.
  unfold credentials.
  destruct (getenv w "SLACK_BOT_TOKEN"); [|discriminate].
  destruct (getenv w "SLACK_CHANNEL"); [|discriminate].
  intros [= -> ->]. split; reflexivity.
Qed.

(** X7. With the credentials configured, an emergency notification is
    handed to the transport exactly when its code is a key of the table of
    emergency codes: then one message goes out, to the configured channel
    and with the table's description, and the result is what the transport
    acknowledged (false when it raised); for any other code nothing is
    sent, an error is logged and the result is false. *)
Theorem send_slack_notification_emergency (icao_reg : json)
  (callsign code : string) (distance : distance_arg) (w : World)
  (token channel scheme netloc : string) :
  credentials w = Some (token, channel) ->
  urlparse plat (PIAWARE_HOST plat) = Some (scheme, netloc) ->
  let call :=
    send_slack_notification plat icao_reg callsign (JStr code) distance
      "emergency" w in
  (forall description,
      assoc code EMERGENCY_SQUAWK = Some description ->
      exists m,
        slack_sent (snd call) = slack_sent w ++ [m]
        /\ msg_channel m = channel /\ msg_token m = token
        /\ msg_description m = description
        /\ List.length (msg_fields m) = 6%nat
        /\ fst call = Ok (acknowledged w m))
  /\ (assoc code EMERGENCY_SQUAWK = None ->
      fst call = Ok false
      /\ slack_sent (snd call) = slack_sent w
      /\ log (snd call)
         = log w ++ [mkLog ERROR "Unable to Send Slack Message: %s"
                       [PStr code]]).
Proof.
  intros Hc Hu call. subst call.
  destruct (credentials_env w token channel Hc) as (Ht & Hch).
  rewrite (send_slack_notification_configured plat icao_reg callsign
             (JStr code) distance "emergency" w token channel Ht Hch eq_refl).
  unfold post_slack_message. rewrite Hu.
  rewrite bind_ret.
  replace (String.eqb "emergency" "emergency") with true by reflexivity.
  cbn [table_getitem]. split.
  - intros description Ha. rewrite Ha. cbn [obind].
    rewrite (bind_lift_ok _ _ _ _ eq_refl). cbv beta iota zeta.
    match goal with
    | |- context [chat_postMessage w ?n ?m] =>
        exists m; unfold acknowledged;
          destruct (chat_postMessage w n m) as [[c msg]|ok]
    end; repeat split; reflexivity.
  - intros Ha. rewrite Ha. cbn [obind].
    unfold bind, lift. repeat split; reflexivity.
Qed.

(* ----------------------------------------------------------------- *)
(** *** The watchlist of identifiers *)

Lemma watchlist_test (u : string) :
  existsb (fun element => String.eqb (upper element) u)
    (map fst ICAO_OF_SPECIAL_INTEREST)
  = existsb (String.eqb u) (map fst ICAO_OF_SPECIAL_INTEREST).
Proof.
  cbn [map fst ICAO_OF_SPECIAL_INTEREST existsb].
  change (upper "3EA12C") with "3EA12C".
  change (upper "3F5D91") with "3F5D91".
  change (upper "3E854F") with "3E854F".
  now rewrite !(String.eqb_sym u).
Qed.

(** With the position cached, resolving the distance only logs. *)
Lemma special_interest_distance_cached (kv : list (string * json))
  (w : World) :
  record_ok (JObj kv) = true -> origin_cached w = true ->
  exists d l,
    special_interest_distance plat (JObj kv) w = (Ok d, set_log w l).
Proof.
  intros Hrec Hor.
  destruct (record_ok_fields kv Hrec) as (_ & _ & Hlat & Hlon).
  unfold special_interest_distance. cbn [issubset forallb].
  rewrite (bind_lift_ok _ _ _ _ eq_refl).
  destruct (dict_has "lat" kv) eqn:Dlat; cbn [andb].
  2:{ exists (DistStr "unknown"), (log w). now destruct w. }
  destruct (dict_has "lon" kv) eqn:Dlon; cbn [andb].
  2:{ exists (DistStr "unknown"), (log w). now destruct w. }
  unfold origin_cached in Hor.
  destruct (receiver_position w) as [p|] eqn:Hp; [|discriminate].
  unfold bind at 1. unfold get_receiver_position at 1. rewrite Hp.
  rewrite bind_logging. cbn [ret].
  destruct (dict_has_getitem _ _ Dlat) as (vlat & Llat & Glat).
  destruct (dict_has_getitem _ _ Dlon) as (vlon & Llon & Glon).
  rewrite (bind_lift_ok _ _ _ _ Glat), (bind_lift_ok _ _ _ _ Glon).
  destruct (numeric_lookup _ _ _ Hlat Llat) as (qlat & Nlat).
  destruct (numeric_lookup _ _ _ Hlon Llon) as (qlon & Nlon).
  assert (Hfin : finite_position (mkPosition vlat vlon) = true).
  { unfold finite_position. cbn [latitude longitude].
    now rewrite Nlat, Nlon. }
  destruct (haversine_distance_finite p (mkPosition vlat vlon) earth_radius
              Hor Hfin) as (a & b & c & d & _ & _ & _ & _ & E).
  rewrite (bind_lift_ok _ _ _ _ E). eexists. eexists. reflexivity.
Qed.

(** A notification of kind icao for a hex of the watchlist is handed to
    the transport with the remark of that hex. *)
Lemma send_slack_notification_icao (hex flight squawk : string)
  (distance : distance_arg) (w : World)
  (token channel scheme netloc remark : string) :
  credentials w = Some (token, channel) ->
  urlparse plat (PIAWARE_HOST plat) = Some (scheme, netloc) ->
  assoc hex ICAO_OF_SPECIAL_INTEREST = Some remark ->
  exists m sent l,
    send_slack_notification plat (JStr hex) flight (JStr squawk) distance
      "icao" w
    = (Ok sent, set_log (set_slack_sent w (slack_sent w ++ [m])) l)
    /\ msg_description m = remark.
Proof.
  intros Hc Hu Ha.
  destruct (credentials_env w token channel Hc) as (Ht & Hch).
  rewrite (send_slack_notification_configured plat (JStr hex) flight
             (JStr squawk) distance "icao" w token channel Ht Hch eq_refl).
  unfold post_slack_message. rewrite Hu.
  rewrite bind_ret.
  replace (String.eqb "icao" "emergency") with false by reflexivity.
  replace (String.eqb "icao" "registration") with false by reflexivity.
  cbn [table_getitem]. rewrite Ha. cbn [obind].
  rewrite (bind_lift_ok _ _ _ _ eq_refl). cbv beta iota zeta.
  match goal with
  | |- context [chat_postMessage w ?n ?m] =>
      exists m; destruct (chat_postMessage w n m) as [[c msg]|ok]
  end.
  - eexists. eexists. split; reflexivity.
  - exists ok, (log w). split; [|reflexivity]. now destruct w.
Qed.

(** The scan of a mapping comes down to the test of its hex: the table of
    callsigns is empty. *)
Lemma process_special_interest_hex (kv : list (string * json)) (w : World) :
  process_special_interest plat (JObj kv) w
  = match lookup "hex" kv with
    | None => (Ok tt, w)
    | Some v =>
        let hex := upper (trim plat v) in
        if existsb (String.eqb hex) (map fst ICAO_OF_SPECIAL_INTEREST)
        then
          (distance <- special_interest_distance plat (JObj kv);;
           flight <- trimmed_or_unknown plat (JObj kv) "flight";;
           squawk <- trimmed_or_unknown plat (JObj kv) "squawk";;
           sent <- send_slack_notification plat (JStr hex) flight
                     (JStr squawk) distance "icao";;
           if sent then
             remarks <- lift (table_getitem ICAO_OF_SPECIAL_INTEREST
                                (JStr (upper hex)));;
             logging INFO
               "Found Flight of Special Interest (hex:%s) in %s km distance. Remarks: %s"
               ([PStr (lower hex)] ++ distance_field distance
                ++ [PStr remarks])
           else ret tt) w
        else (Ok tt, w)
    end.
Proof.
  unfold process_special_interest. cbn [py_in].
  rewrite (bind_lift_ok _ _ _ _ eq_refl).
  replace (dict_has "flight" kv
           && (1 <=? Z.of_nat (List.length REGISTRATION_OF_SPECIAL_INTEREST)))
    with false by (cbn; now rewrite andb_false_r).
  rewrite bind_ret.
  rewrite (bind_lift_ok _ _ _ _ eq_refl).
  replace (1 <=? Z.of_nat (List.length ICAO_OF_SPECIAL_INTEREST))
    with true by reflexivity.
  unfold dict_has.
  destruct (lookup "hex" kv) as [v|] eqn:L; cbn [andb]; [|reflexivity].
  assert (G : py_getitem (JObj kv) "hex" = Ok v).
  { cbn [py_getitem]. now rewrite L. }
  rewrite (bind_lift_ok _ _ _ _ G).
  rewrite (bind_lift_ok _ _ _ _ (contains_any_str _ _)).
  rewrite upper_upper, watchlist_test. cbv zeta.
  now destruct (existsb (String.eqb (upper (trim plat v)))
                  (map fst ICAO_OF_SPECIAL_INTEREST)).
Qed.


(* ----------------------------------------------------------------- *)
(** *** The receiver position *)

(** X9. With no position cached, [get_receiver_position] fetches the
    receiver resource: when the transfer fails it answers (0, 0) and logs
    an error, and from a fetched mapping it takes lat and lon as they are
    when both are there, (0, 0) otherwise. *)
Theorem get_receiver_position_resolves (w : World) :
  receiver_position w = None ->
  defaults_ok plat = true ->
  is_valid_url plat (receiver_url plat) = true ->
  (transfer_failed (fetched w (receiver_url plat)) = true ->
   fst (get_receiver_position plat w) = Ok (mkPosition (JNum 0) (JNum 0))
   /\ exists l,
        log (snd (get_receiver_position plat w))
        = l ++ [mkLog ERROR "Could not get own Location. Own %s"
                  [PVal (JNum 0); PVal (JNum 0)]])
  /\ (forall r doc,
        fetched w (receiver_url plat) = HttpResponse r ->
        status_code r = 200 -> content r = Parsed (JObj doc) ->
        fst (get_receiver_position plat w)
        = Ok (match lookup "lat" doc, lookup "lon" doc with
              | Some lat, Some lon => mkPosition lat lon
              | _, _ => mkPosition (JNum 0) (JNum 0)
              end)).
Proof.
  intros Hp Hd Hv.
  destruct (defaults_ok_values plat Hd) as (retry & backoff & Hr & Hb).
  destruct (get_receiver_position plat w) as [o w'] eqn:E.
  unfold get_receiver_position in E. rewrite Hp in E.
  unfold get_receiver in E.
  unfold bind at 1 in E. unfold bind at 1 in E.
  rewrite (download_valid plat _ retry backoff w Hv Hr Hb) in E.
  cbn [fst snd]. split.
  - intros Hf.
    destruct (fetched w (receiver_url plat)) as [[c msg]|r]; cbn in Hf.
    + cbv [ret bind lift issubset forallb dict_has lookup andb logging] in E.
      injection E as <- <-.
      split; [reflexivity|]. cbn [log set_log]. eexists. reflexivity.
    + apply negb_true_iff in Hf. rewrite Hf in E.
      cbv [ret bind lift issubset forallb dict_has lookup andb logging] in E.
      injection E as <- <-.
      split; [reflexivity|]. cbn [log set_log]. eexists. reflexivity.
  - intros r doc Hf Hs Hc. rewrite Hf, Hs in E. cbn [Z.eqb Pos.eqb] in E.
    unfold response_json in E. rewrite Hc in E. unfold lift at 1 in E.
    cbn [issubset forallb] in E. rewrite (bind_lift_ok _ _ _ _ eq_refl) in E.
    unfold dict_has in E. cbn [py_getitem] in E.
    destruct (lookup "lat" doc) as [lat|]; cbn [andb] in E;
      [|now injection E as <- _].
    destruct (lookup "lon" doc) as [lon|]; cbn [andb] in E;
      now injection E as <- _.
Qed.

(** X10. [setup] leaves a receiver position cached whenever it returns,
    and from then on [get_receiver_position] answers with it without any
    request. *)
Theorem setup_caches_receiver_position (w w' : World) :
  setup plat w = (Ok tt, w') ->
  exists origin,
    receiver_position w' = Some origin
    /\ fst (get_receiver_position plat w') = Ok origin
    /\ requests (snd (get_receiver_position plat w')) = requests w'.
Proof.
  unfold setup. rewrite bind_logging. intros H.
  apply bind_returns in H as (origin & w1 & _ & H).
  injection H as <-. exists origin.
  unfold get_receiver_position. cbn [receiver_position set_receiver_position].
  rewrite bind_logging. cbn [ret fst snd]. repeat split.
Qed.

(* ----------------------------------------------------------------- *)
(** *** The secondary feed *)

Lemma download_with (url : string) (retry : Z) (backoff : Q) (w : World) :
  is_valid_url plat url = true ->
  download plat url (Some retry) (Some backoff) true w
  = match fetched w url with
    | HttpResponse r =>
        (Ok (if status_code r =? 200 then Some r else None),
         after_get plat w url retry backoff)
    | HttpRaise (Exn c msg) =>
        (Ok None,
         set_log (after_get plat w url retry backoff)
           (log w ++ [mkLog ERROR "Error GETing %s (error: %s)"
                        [PStr url; PStr msg]]))
    end.
Proof.
  intros Hv. unfold download. rewrite Hv. cbn [negb].
  unfold bind at 1. cbn [ret].
  unfold bind at 1. cbn [ret].
  unfold bind at 1. unfold session_get at 1. fold (fetched w url).
  fold (served_by plat url retry backoff).
  fold (after_get plat w url retry backoff).
  destruct (fetched w url) as [[c msg]|r].
  - reflexivity.
  - destruct (status_code r =? 200); reflexivity.
Qed.

Lemma preserves_requests_logging (lv : level) (format : string)
  (args : text) :
  preserves requests (logging lv format args).
Proof. intros w. reflexivity. Qed.

(** What follows the GET in [get_fr24_status] makes no request. *)
Ltac no_request :=
  repeat first
    [ apply preserves_ret | apply preserves_lift | apply preserves_throw
    | apply preserves_requests_logging
    | apply preserves_bind; [|intros ?]
    | match goal with
      | |- preserves _ (if ?b then _ else _) => destruct b
      | |- preserves _ (match ?x with _ => _ end) => destruct x
      end ].

(** The adapters of the session of [download]: the one mounted for
    PIAWARE_HOST and the two defaults. *)
Lemma mount_entries (adapters : list (string * adapter)) (prefix : string)
  (a : adapter) (k : string) (a' : adapter) :
  In (k, a') (mount adapters prefix a) ->
  (k = prefix /\ a' = a) \/ In (k, a') adapters.
Proof.
  unfold mount. intros H. apply in_app_or in H.
  assert (Hm : In (k, a')
                 (if existsb (fun kv => String.eqb (fst kv) prefix) adapters
                  then map (fun kv => if String.eqb (fst kv) prefix
                                      then (prefix, a) else kv) adapters
                  else adapters ++ [(prefix, a)])).
  { destruct H as [H|H]; apply filter_In in H; exact (proj1 H). }
  clear H.
  destruct (existsb (fun kv => String.eqb (fst kv) prefix) adapters).
  - apply in_map_iff in Hm as ([k0 a0] & E & Hin). cbn [fst] in E.
    destruct (String.eqb k0 prefix).
    + left. now injection E as <- <-.
    + right. now rewrite <- E.
  - apply in_app_or in Hm as [Hm|[Hm|[]]].
    + now right.
    + left. now injection Hm as <- <-.
Qed.

Lemma new_session_default (k : string) (a : adapter) :
  In (k, a) new_session -> a = DefaultAdapter.
Proof.
  intros [H|[H|[]]]; now injection H as _ <-.
Qed.

Lemma get_adapter_found (adapters : list (string * adapter)) (url : string)
  (a : adapter) :
  get_adapter adapters url = Some a ->
  exists k, In (k, a) adapters /\ under_prefix k url = true.
Proof.
  unfold get_adapter, under_prefix.
  destruct (find _ adapters) as [[k a0]|] eqn:E; [|discriminate].
  intros [= <-]. apply find_some in E as [Hin Hp]. now exists k.
Qed.

(** A URL that does not start with PIAWARE_HOST is served, if at all, by
    a default adapter. *)
Lemma served_by_default (url : string) (retry : Z) (backoff : Q)
  (a : adapter) :
  under_prefix (PIAWARE_HOST plat) url = false ->
  served_by plat url retry backoff = Some a -> a = DefaultAdapter.
Proof.
  intros Hu H. apply get_adapter_found in H as (k & Hin & Hp).
  apply mount_entries in Hin as [[-> _]|Hin]; [congruence|].
  exact (new_session_default k a Hin).
Qed.

Lemma eqb_longer (k prefix : string) :
  (String.length k < String.length prefix)%nat ->
  String.eqb k prefix = false.
Proof.
  intros H. apply String.eqb_neq. intros ->. lia.
Qed.

(** A URL that starts with PIAWARE_HOST, a host longer than the default
    prefixes are, is served by the adapter mounted for it. *)
Lemma served_by_mounted (url : string) (retry : Z) (backoff : Q) :
  (8 < String.length (PIAWARE_HOST plat))%nat ->
  under_prefix (PIAWARE_HOST plat) url = true ->
  served_by plat url retry backoff = Some (RetryAdapter retry backoff).
Proof.
  intros Hl Hu. unfold served_by, get_adapter.
  change new_session
    with [("https://", DefaultAdapter); ("http://", DefaultAdapter)].
  unfold mount. cbn [existsb fst orb].
  rewrite !eqb_longer by (cbn [String.length]; lia).
  cbn [orb app]. cbn [filter fst].
  replace (String.length "https://" <? String.length (PIAWARE_HOST plat))%nat
    with true by (symmetry; apply Nat.ltb_lt; cbn [String.length]; lia).
  replace (String.length "http://" <? String.length (PIAWARE_HOST plat))%nat
    with true by (symmetry; apply Nat.ltb_lt; cbn [String.length]; lia).
  rewrite Nat.ltb_irrefl. cbn [negb app find fst].
  unfold under_prefix in Hu. now rewrite Hu.
Qed.

(** X11. The secondary feed. [get_fr24_status] calls [session.get] once,
    for monitor.json, asking [download] for 2 retries and a backoff of
    0.1; but [download] mounts its retrying adapter on PIAWARE_HOST, so
    unless the URL starts with that host the call is served by a default
    adapter, which retries nothing. A failed transfer, or a mapping
    without feed_status, reads unknown; a connected feed reads Connected
    via its current mode, and raises KeyError when the mapping has no
    feed_current_mode. *)
Theorem get_fr24_status_reports (w : World) :
  is_valid_url plat (monitor_url plat) = true ->
  ascii_only (PIAWARE_HOST plat) = true ->
  ascii_only (FLIGHTRADAR_HOST plat) = true ->
  requests (snd (get_fr24_status plat w))
  = requests w
    ++ [mkRequest (monitor_url plat) true
          (served_by plat (monitor_url plat) 2 (1 # 10))]
  /\ (under_prefix (PIAWARE_HOST plat) (monitor_url plat) = false ->
      forall a,
        served_by plat (monitor_url plat) 2 (1 # 10) = Some a ->
        a = DefaultAdapter)
  /\ ((8 < String.length (PIAWARE_HOST plat))%nat ->
      under_prefix (PIAWARE_HOST plat) (monitor_url plat) = true ->
      served_by plat (monitor_url plat) 2 (1 # 10)
      = Some (RetryAdapter 2 (1 # 10)))
  /\ (transfer_failed (fetched w (monitor_url plat)) = true ->
      fst (get_fr24_status plat w) = Ok [PStr "unknown"])
  /\ (forall r doc,
        fetched w (monitor_url plat) = HttpResponse r ->
        status_code r = 200 -> content r = Parsed (JObj doc) ->
        (lookup "feed_status" doc = None ->
         fst (get_fr24_status plat w) = Ok [PStr "unknown"])
        /\ (lookup "feed_status" doc = Some (JStr "connected") ->
            fst (get_fr24_status plat w)
            = match lookup "feed_current_mode" doc with
              | Some current_mode =>
                  Ok [PStr "Connected via "; PVal current_mode]
              | None => Raise (Exn KeyError "feed_current_mode")
              end)).
Proof.
  intros Hv _ _.
  split; [|split; [|split]].
  2:{ intros Hu a. now apply served_by_default. }
  2:{ intros Hl Hu. now apply served_by_mounted. }
  all: destruct (get_fr24_status plat w) as [o w'] eqn:E;
    unfold get_fr24_status in E; unfold bind at 1 in E;
    rewrite (download_with _ 2 (1 # 10) w Hv) in E;
    cbn [fst snd].
  - assert (Hp : requests w'
                 = requests (after_get plat w (monitor_url plat) 2 (1 # 10))).
    { destruct (fetched w (monitor_url plat)) as [[c msg]|r].
      - cbv [bind ret lift py_in dict_has lookup logging] in E.
        now injection E as _ <-.
      - match type of E with
        | ?c ?w0 = _ =>
            assert (Hq : preserves requests c) by no_request;
              specialize (Hq w0)
        end.
        rewrite E in Hq. exact Hq. }
    rewrite Hp. reflexivity.
  - split.
    + destruct (fetched w (monitor_url plat)) as [[c msg]|r]; cbn [transfer_failed].
      * intros _.
        cbv [bind ret lift py_in dict_has lookup logging] in E.
        now injection E as <- _.
      * intros Hs. apply negb_true_iff in Hs. rewrite Hs in E.
        cbv [bind ret lift py_in dict_has lookup logging] in E.
        now injection E as <- _.
    + intros r doc Hf Hs Hc. rewrite Hf, Hs in E. cbn [Z.eqb Pos.eqb] in E.
      unfold response_json in E. rewrite Hc in E. cbv beta iota in E.
      rewrite (bind_lift_ok _ _ _ _ eq_refl) in E.
      cbn [py_in py_getitem] in E. unfold dict_has in E.
      split.
      * intros Hn. rewrite Hn in E.
        cbv [bind ret lift logging] in E. now injection E as <- _.
      * intros Hn. rewrite Hn in E.
        cbv [bind ret lift logging is_str String.eqb Ascii.eqb Bool.eqb] in E.
        destruct (lookup "feed_current_mode" doc) as [m|];
          now injection E as <- _.
Qed.

(** X21. A feed that reports a status other than connected: the status is
    shown with its first letter in upper case and the rest as it came;
    an empty status makes [ucfirst] index an empty string, and
    [get_fr24_status] raises IndexError. *)
Theorem get_fr24_status_disconnected (w : World) (r : response)
  (doc : list (string * json)) (s : string) :
  is_valid_url plat (monitor_url plat) = true ->
  fetched w (monitor_url plat) = HttpResponse r ->
  status_code r = 200 ->
  content r = Parsed (JObj doc) ->
  lookup "feed_status" doc = Some (JStr s) ->
  s <> "connected" ->
  fst (get_fr24_status plat w)
  = match s with
    | EmptyString => Raise (Exn IndexError "string index out of range")
    | String c s' => Ok [PStr (String (upper_ascii c) s')]
    end.
Proof.
  intros Hv Hf Hs Hc Hn Hne.
  unfold get_fr24_status. unfold bind at 1.
  rewrite (download_with _ 2 (1 # 10) w Hv), Hf, Hs. cbn [Z.eqb Pos.eqb].
  unfold response_json. rewrite Hc. cbv beta iota.
  rewrite (bind_lift_ok _ _ _ _ eq_refl).
  cbn [py_in py_getitem]. unfold dict_has. rewrite Hn.
  apply String.eqb_neq in Hne. rewrite String.eqb_sym in Hne.
  cbv [bind ret lift logging is_str]. rewrite Hne.
  destruct s as [|c s']; reflexivity.
Qed.

(* ----------------------------------------------------------------- *)
(** *** The device: shutdown, clears and pins *)

Lemma device_step (op : device_op) (w : World) (k : nat) :
  device_works w (S k) ->
  device op w
  = (Ok tt, set_device w (S (device_calls w)) (device_trace w ++ [op]))
  /\ device_works
       (set_device w (S (device_calls w)) (device_trace w ++ [op])) k.
Proof.
  intros H. split.
  - unfold device. rewrite <- (Nat.add_0_r (device_calls w)) at 1.
    rewrite (H 0%nat) by lia. reflexivity.
  - intros i Hi. cbn [device_fault device_calls set_device].
    replace (S (device_calls w) + i)%nat with (device_calls w + S i)%nat
      by lia.
    apply H. lia.
Qed.

Lemma device_works_log (w : World) (l : list log_record) (k : nat) :
  device_works w k -> device_works (set_log w l) k.
Proof. intros H i Hi. exact (H i Hi). Qed.

(** [__clear] on a working display. *)
Lemma clear_works (do_clear do_sleep : bool) (color : string) (w : World)
  (k : nat) :
  existsb (String.eqb color) ["0x00"; "0xFF"] = true ->
  device_works w (4 + k) ->
  exists w',
    clear do_clear do_sleep color w = (Ok tt, w')
    /\ device_trace w'
       = device_trace w
         ++ [EpdOpen; EpdInit]
         ++ (if do_clear then [EpdClear color] else [])
         ++ (if do_sleep then [EpdSleep] else [])
    /\ device_works w' k
    /\ log w' = log w.
Proof.
  intros Hcolor Hw. unfold clear. rewrite Hcolor.
  destruct (device_step EpdOpen w _ Hw) as (E1 & W1).
  rewrite (bind_ok _ _ _ _ _ E1).
  destruct (device_step EpdInit _ _ W1) as (E2 & W2).
  rewrite (bind_ok _ _ _ _ _ E2).
  destruct do_clear.
  - cbv iota. unfold bind at 1. rewrite bind_ret.
    destruct (device_step (EpdClear color) _ _ W2) as (E3 & W3).
    rewrite E3.
    destruct do_sleep.
    + destruct (device_step EpdSleep _ _ W3) as (E4 & W4).
      rewrite E4. eexists. split; [reflexivity|].
      cbn [device_trace set_device log]. rewrite <- !app_assoc.
      repeat split; try reflexivity. exact W4.
    + eexists. split; [reflexivity|].
      cbn [device_trace set_device log ret snd]. rewrite <- !app_assoc.
      repeat split; try reflexivity.
      intros i Hi. apply W3. lia.
  - rewrite bind_ret.
    destruct do_sleep.
    + match type of W2 with
      | device_works ?w2 _ =>
          assert (W2' : device_works w2 (S k))
            by (intros i Hi; apply W2; lia)
      end.
      destruct (device_step EpdSleep _ _ W2') as (E4 & W4).
      rewrite E4. eexists. split; [reflexivity|].
      cbn [device_trace set_device log]. rewrite <- !app_assoc.
      repeat split; try reflexivity. exact W4.
    + eexists. split; [reflexivity|].
      cbn [device_trace set_device log ret snd]. rewrite <- !app_assoc.
      repeat split; try reflexivity.
      intros i Hi. apply W2. lia.
Qed.

(** The shutdown procedure on a working device. *)
Lemma shutdown_run (signal_number : Z) (name : string) (w : World) :
  signal_name plat signal_number = Some name ->
  name <> "SIGHUP" ->
  device_works w 6 ->
  exists w',
    shutdown plat signal_number w = (Exit 0, w')
    /\ device_trace w' = device_trace w ++ final_clear
    /\ log w'
       = log w
         ++ [ mkLog INFO "Shutting down on Signal %s (%s)."
                [PInt signal_number; PStr name];
              mkLog INFO "Shutdown on Signal %s complete." [PStr name] ].
Proof.
  intros Hn Hname Hw. unfold shutdown. rewrite Hn.
  apply String.eqb_neq in Hname. rewrite Hname.
  rewrite bind_logging. cbv beta.
  match goal with
  | |- context [bind (clear true true "0xFF") _ ?w0] =>
      destruct (clear_works true true "0xFF" w0 2 eq_refl
                  (device_works_log w _ 6 Hw)) as (w1 & E1 & T1 & W1 & L1)
  end.
  rewrite (bind_ok _ _ _ _ _ E1).
  destruct (device_step GpioCleanup _ _ W1) as (E2 & W2).
  rewrite (bind_ok _ _ _ _ _ E2).
  destruct (device_step GpioSetmode _ _ W2) as (E3 & _).
  rewrite (bind_ok _ _ _ _ _ E3).
  rewrite bind_logging. unfold sys_exit. eexists. split; [reflexivity|].
  cbn [device_trace set_device set_log log]. rewrite T1, L1.
  cbn [device_trace set_log log]. unfold final_clear.
  now rewrite <- !app_assoc.
Qed.

(** [__shutdown] comes back for SIGHUP alone, having only logged. *)
Lemma shutdown_ok_sighup (signal_number : Z) (w w' : World) :
  shutdown plat signal_number w = (Ok tt, w') ->
  signal_name plat signal_number = Some "SIGHUP"
  /\ w' = set_log w (log w ++ [mkLog INFO "Received %s, ignoring."
                                 [PStr "SIGHUP"]]).
Proof.
  unfold shutdown. destruct (signal_name plat signal_number) as [name|].
  2:{ discriminate. }
  destruct (String.eqb name "SIGHUP") eqn:En.
  - apply String.eqb_eq in En. subst name. unfold logging.
    intros H. injection H as <-. split; reflexivity.
  - intros H.
    apply bind_returns in H as (? & ? & _ & H).
    apply bind_returns in H as (? & ? & _ & H).
    apply bind_returns in H as (? & ? & _ & H).
    apply bind_returns in H as (? & ? & _ & H).
    apply bind_returns in H as (? & ? & _ & H).
    discriminate.
Qed.

(** X12. The shutdown procedure: for a signal other than SIGHUP, on a
    working device, [__shutdown] clears the display white, puts it to
    sleep, releases the pins and ends the process with status 0.  A number
    that names no signal raises ValueError with the world untouched. *)
Theorem shutdown_clears_and_exits (signal_number : Z) (w : World) :
  (forall name,
      signal_name plat signal_number = Some name ->
      name <> "SIGHUP" ->
      device_works w 6 ->
      exists w',
        shutdown plat signal_number w = (Exit 0, w')
        /\ device_trace w' = device_trace w ++ final_clear)
  /\ (signal_name plat signal_number = None ->
      exists msg,
        shutdown plat signal_number w = (Raise (Exn ValueError msg), w)).
Proof.
  split.
  - intros name Hn Hname Hw.
    destruct (shutdown_run signal_number name w Hn Hname Hw)
      as (w' & E & T & _).
    exists w'. split; [exact E|exact T].
  - intros Hn. unfold shutdown. rewrite Hn. eexists. reflexivity.
Qed.

(** X13. [__shutdown] comes back to its caller for SIGHUP alone, and then
    it has done nothing but log: no call on the device, no request, no
    message. *)
Theorem shutdown_returns_only_for_sighup (signal_number : Z) (w w' : World) :
  shutdown plat signal_number w = (Ok tt, w') ->
  signal_name plat signal_number = Some "SIGHUP"
  /\ device_trace w' = device_trace w
  /\ device_calls w' = device_calls w
  /\ requests w' = requests w
  /\ slack_sent w' = slack_sent w.
Proof.
  intros H. destruct (shutdown_ok_sighup signal_number w w' H) as (Hn & ->).
  repeat split; assumption.
Qed.

(** X14. The pin handler: pin 5 clears the display black and pin 6 clears
    it white, neither puts it to sleep; any pin other than 5, 6, 13 and 19
    raises ValueError with the world untouched. *)
Theorem process_interrupt_pins (channel : Z) (w : World) :
  (channel = 5 \/ channel = 6 ->
   device_works w 4 ->
   exists w',
     process_interrupt plat channel w = (Ok tt, w')
     /\ device_trace w'
        = device_trace w
          ++ [EpdOpen; EpdInit;
              EpdClear (if channel =? 5 then "0x00" else "0xFF")])
  /\ (channel <> 5 -> channel <> 6 -> channel <> 13 -> channel <> 19 ->
      exists msg,
        process_interrupt plat channel w = (Raise (Exn ValueError msg), w)).
Proof.
  split.
  - intros Hc Hw. unfold process_interrupt.
    destruct Hc as [-> | ->]; cbn [Z.eqb Pos.eqb]; rewrite bind_logging;
      cbv beta.
    + match goal with
      | |- context [clear true false "0x00" ?w0] =>
          destruct (clear_works true false "0x00" w0 0 eq_refl
                      (device_works_log w _ 4 Hw)) as (w1 & E1 & T1 & _ & _)
      end.
      exists w1. split; [exact E1|].
      rewrite T1. cbn [device_trace set_log]. now rewrite app_nil_r.
    + match goal with
      | |- context [clear true false "0xFF" ?w0] =>
          destruct (clear_works true false "0xFF" w0 0 eq_refl
                      (device_works_log w _ 4 Hw)) as (w1 & E1 & T1 & _ & _)
      end.
      exists w1. split; [exact E1|].
      rewrite T1. cbn [device_trace set_log]. now rewrite app_nil_r.
  - intros H5 H6 H13 H19. unfold process_interrupt.
    apply Z.eqb_neq in H5, H6, H13, H19. rewrite H5, H6, H13, H19.
    eexists. reflexivity.
Qed.

(* ----------------------------------------------------------------- *)
(** *** What no event changes *)

Create HintDb frame.

#[local] Hint Resolve preserves_ret preserves_throw preserves_sys_exit
  preserves_lift preserves_logging preserves_os_getenv
  preserves_session_get preserves_download preserves_get_status
  preserves_get_receiver preserves_get_receiver_position
  preserves_send_slack_notification preserves_get_aircrafts
  preserves_distance preserves_has_emergency preserves_get_fr24_status
  preserves_bool_from_env preserves_status_field preserves_refresh_status
  preserves_refresh_aircrafts preserves_refresh_os : frame.

Ltac settle_step :=
  cbv beta;
  match goal with
  | |- preserves _ (bind _ _) => apply preserves_bind; [|intros ?]
  | |- preserves _ (try_except _ _ _) =>
      apply preserves_try_except; [|intros ?]
  | |- preserves _ (if ?b then _ else _) => destruct b
  | |- preserves _ (match ?x with _ => _ end) => destruct x
  end.

Ltac settle := repeat first [ solve [auto with frame] | settle_step ].

(** The sleep of the loop only logs. *)
Lemma preserves_sleeping {X : Type} (f : World -> X) (n : nat) (i : Z)
  (current_cycle : option Z) :
  stable f -> preserves f (sleeping n i current_cycle).
Proof.
  intros Hf. revert i. induction n as [|n IH]; intros i; cbn [sleeping];
    [settle|].
  destruct (i <? 300); [|settle].
  apply preserves_bind; [settle|intros _; apply IH].
Qed.

Section Settled.

Context {X : Type} (f : World -> X) (Hf : settled f).

Lemma settled_stable : stable f.
Proof. exact (proj1 Hf). Qed.

Hint Resolve settled_stable : frame.

Lemma preserves_device (op : device_op) : preserves f (device op).
Proof.
  intros w. unfold device.
  destruct (device_fault w (device_calls w)); apply (proj2 Hf).
Qed.

Hint Resolve preserves_device : frame.

Lemma preserves_clear (do_clear do_sleep : bool) (color : string) :
  preserves f (clear do_clear do_sleep color).
Proof. unfold clear. settle. Qed.

Hint Resolve preserves_clear : frame.

Lemma preserves_shutdown (signal_number : Z) :
  preserves f (shutdown plat signal_number).
Proof. unfold shutdown. settle. Qed.

Hint Resolve preserves_shutdown : frame.

Lemma preserves_refresh_body (cycle : option Z) :
  preserves f (refresh_body plat cycle).
Proof.
  unfold refresh_body.
  apply preserves_bind; [settle|intros status].
  apply preserves_bind; [settle|intros [status_slug status_lines]].
  settle.
Qed.

Hint Resolve preserves_refresh_body : frame.

Lemma preserves_refresh (cycle : option Z) :
  preserves f (refresh plat cycle).
Proof. unfold refresh. settle. Qed.

Hint Resolve preserves_refresh : frame.

Lemma preserves_process_interrupt (channel : Z) :
  preserves f (process_interrupt plat channel).
Proof. unfold process_interrupt. settle. Qed.

Hint Resolve preserves_sleeping : frame.

Lemma preserves_process_iteration (cycle : option Z) :
  preserves f (process_iteration plat cycle).
Proof. unfold process_iteration. settle. Qed.

Lemma step_preserves (ev : event) (s : System) :
  f (world (snd (step plat ev s))) = f (world s).
Proof.
  unfold step. destruct ev as [|channel|n].
  - pose proof (preserves_process_iteration (loop_cycle s) (world s)) as H.
    destruct (process_iteration plat (loop_cycle s) (world s))
      as [[c|e|n] w']; exact H.
  - pose proof (preserves_process_interrupt channel (world s)) as H.
    destruct (process_interrupt plat channel (world s)) as [r w']; exact H.
  - pose proof (preserves_shutdown n (world s)) as H.
    destruct (shutdown plat n (world s)) as [r w']; exact H.
Qed.

Lemma run_preserves (events : list event) (s : System) :
  f (world (snd (run plat events s))) = f (world s).
Proof.
  revert s. induction events as [|ev rest IH]; intros s; [reflexivity|].
  cbn [run]. pose proof (step_preserves ev s) as H.
  destruct (step plat ev s) as [[u|e|n] s1]; cbn [snd] in H |- *;
    try exact H.
  now rewrite IH.
Qed.

End Settled.

Lemma settled_receiver_position : settled receiver_position.
Proof. repeat split. Qed.

Lemma settled_getenv : settled getenv.
Proof. repeat split. Qed.

Lemma settled_http_get : settled http_get.
Proof. repeat split. Qed.

(** X15. No event writes the cached receiver position or the environment:
    after any sequence of loop turns, pin events and signals, however each
    of them ends, the receiver position is the one [setup] left and the
    credentials are the ones the process started with. *)
Theorem events_keep_receiver_position (events : list event) (s : System) :
  receiver_position (world (snd (run plat events s)))
  = receiver_position (world s)
  /\ credentials (world (snd (run plat events s))) = credentials (world s).
Proof.
  split.
  - exact (run_preserves receiver_position settled_receiver_position
             events s).
  - unfold credentials.
    now rewrite (run_preserves getenv settled_getenv events s).
Qed.

(* ----------------------------------------------------------------- *)
(** *** The colors the display is cleared with *)

Lemma tidy_of_preserves {A : Type} (c : M A) :
  preserves device_trace c -> tidy c.
Proof.
  intros H w. exists []. rewrite app_nil_r. split; [apply H|reflexivity].
Qed.

Lemma tidy_bind {A B : Type} (c : M A) (k : A -> M B) :
  tidy c -> (forall a, tidy (k a)) -> tidy (bind c k).
Proof.
  intros Hc Hk w. unfold bind. destruct (Hc w) as (ops1 & E1 & N1).
  destruct (c w) as [[a|e|n] w1]; cbn [snd] in E1 |- *;
    try (exists ops1; now split).
  destruct (Hk a w1) as (ops2 & E2 & N2).
  exists (ops1 ++ ops2). rewrite E2, E1, app_assoc. split; [reflexivity|].
  now rewrite forallb_app, N1, N2.
Qed.

Lemma tidy_try_except {A : Type} (c : M A) (catches : exn -> bool)
  (h : exn -> M A) :
  tidy c -> (forall e, tidy (h e)) -> tidy (try_except c catches h).
Proof.
  intros Hc Hh w. unfold try_except. destruct (Hc w) as (ops1 & E1 & N1).
  destruct (c w) as [[a|e|n] w1]; cbn [snd] in E1 |- *;
    try (exists ops1; now split).
  destruct (catches e); [|exists ops1; now split].
  destruct (Hh e w1) as (ops2 & E2 & N2).
  exists (ops1 ++ ops2). rewrite E2, E1, app_assoc. split; [reflexivity|].
  now rewrite forallb_app, N1, N2.
Qed.

Lemma tidy_device (op : device_op) :
  valid_clear op = true -> tidy (device op).
Proof.
  intros Hop w. unfold device.
  destruct (device_fault w (device_calls w)); cbn [snd set_device device_trace].
  - exists []. now rewrite app_nil_r.
  - exists [op]. split; [reflexivity|]. cbn. now rewrite Hop.
Qed.

Ltac tidy_step :=
  cbv beta;
  match goal with
  | |- tidy (bind _ _) => apply tidy_bind; [|intros ?]
  | |- tidy (try_except _ _ _) => apply tidy_try_except; [|intros ?]
  | |- tidy (device _) => apply tidy_device; reflexivity
  | |- tidy (if ?b then _ else _) => destruct b
  | |- tidy (match ?x with _ => _ end) => destruct x
  end.

#[local] Hint Resolve stable_device_trace : frame.

Ltac tidy_up :=
  repeat first [ solve [apply tidy_of_preserves; auto with frame]
               | tidy_step ].

(** [__clear] never clears with a color other than its two. *)
Lemma tidy_clear (do_clear do_sleep : bool) (color : string) :
  tidy (clear do_clear do_sleep color).
Proof.
  unfold clear.
  apply tidy_bind; [tidy_up|intros _].
  apply tidy_bind; [tidy_up|intros _].
  apply tidy_bind; [|intros _; tidy_up].
  destruct do_clear; [|tidy_up].
  destruct (existsb (String.eqb color) ["0x00"; "0xFF"]) eqn:Hc.
  - intros w. rewrite bind_ret. apply tidy_device.
    cbn [valid_clear]. cbn [existsb] in Hc. now rewrite orb_false_r in Hc.
  - intros w.
    destruct (tidy_device (EpdClear "0xFF") eq_refl
                (set_log w (log w ++ [mkLog WARNING
                   "Got invalid Display Color: %s - Resetting to 0xFF."
                   [PStr color]]))) as (ops & E & N).
    exists ops. split; [exact E|exact N].
Qed.

Lemma tidy_shutdown (signal_number : Z) : tidy (shutdown plat signal_number).
Proof.
  unfold shutdown.
  destruct (signal_name plat signal_number) as [name|]; [|tidy_up].
  destruct (String.eqb name "SIGHUP"); [tidy_up|].
  apply tidy_bind; [tidy_up|intros _].
  apply tidy_bind; [apply tidy_clear|intros _].
  tidy_up.
Qed.

Lemma tidy_refresh (cycle : option Z) : tidy (refresh plat cycle).
Proof.
  unfold refresh. apply tidy_bind; [tidy_up|intros _].
  apply tidy_try_except.
  - unfold refresh_body.
    apply tidy_bind; [tidy_up|intros status].
    apply tidy_bind; [tidy_up|intros [status_slug status_lines]].
    apply tidy_bind; [apply tidy_clear|intros _].
    tidy_up.
  - intros e. apply tidy_bind; [tidy_up|intros _].
    apply tidy_bind; [apply tidy_shutdown|intros _]. tidy_up.
Qed.

Lemma tidy_process_interrupt (channel : Z) :
  tidy (process_interrupt plat channel).
Proof.
  unfold process_interrupt.
  destruct (channel =? 5).
  { apply tidy_bind; [tidy_up|intros _; apply tidy_clear]. }
  destruct (channel =? 6).
  { apply tidy_bind; [tidy_up|intros _; apply tidy_clear]. }
  destruct (channel =? 13).
  { apply tidy_bind; [tidy_up|intros _].
    apply tidy_bind; [apply tidy_refresh|intros _; tidy_up]. }
  destruct (channel =? 19).
  { apply tidy_bind; [tidy_up|intros _; apply tidy_shutdown]. }
  tidy_up.
Qed.

Lemma tidy_process_iteration (cycle : option Z) :
  tidy (process_iteration plat cycle).
Proof.
  unfold process_iteration.
  apply tidy_bind; [tidy_up|intros _].
  apply tidy_bind; [apply tidy_refresh|intros c].
  apply tidy_bind; [tidy_up|intros _].
  apply tidy_bind; [|intros _; tidy_up].
  apply tidy_of_preserves.
  apply (preserves_sleeping device_trace). exact stable_device_trace.
Qed.

Lemma tidy_step_event (ev : event) (s : System) :
  exists ops,
    device_trace (world (snd (step plat ev s)))
    = device_trace (world s) ++ ops
    /\ forallb valid_clear ops = true.
Proof.
  unfold step. destruct ev as [|channel|n].
  - destruct (tidy_process_iteration (loop_cycle s) (world s))
      as (ops & E & N).
    exists ops. split; [|exact N].
    destruct (process_iteration plat (loop_cycle s) (world s))
      as [[c|e|n] w']; exact E.
  - destruct (tidy_process_interrupt channel (world s)) as (ops & E & N).
    exists ops. split; [|exact N].
    destruct (process_interrupt plat channel (world s)) as [r w']; exact E.
  - destruct (tidy_shutdown n (world s)) as (ops & E & N).
    exists ops. split; [|exact N].
    destruct (shutdown plat n (world s)) as [r w']; exact E.
Qed.

(** X16. The display is only ever cleared black or white: whatever the
    events and however they end, every clear they add to the calls on the
    device has color 0x00 or 0xFF, an invalid color asked of [__clear]
    being replaced by 0xFF. *)
Theorem events_clear_in_two_colors (events : list event) (s : System) :
  exists ops,
    device_trace (world (snd (run plat events s)))
    = device_trace (world s) ++ ops
    /\ forall color, In (EpdClear color) ops ->
                     color = "0x00" \/ color = "0xFF".
Proof.
  assert (H : exists ops,
             device_trace (world (snd (run plat events s)))
             = device_trace (world s) ++ ops
             /\ forallb valid_clear ops = true).
  { revert s. induction events as [|ev rest IH]; intros s.
    - exists []. now rewrite app_nil_r.
    - cbn [run]. destruct (tidy_step_event ev s) as (ops1 & E1 & N1).
      destruct (step plat ev s) as [[u|e|n] s1]; cbn [snd] in E1 |- *;
        try (exists ops1; now split).
      destruct (IH s1) as (ops2 & E2 & N2).
      exists (ops1 ++ ops2). rewrite E2, E1, app_assoc.
      split; [reflexivity|]. now rewrite forallb_app, N1, N2. }
  destruct H as (ops & E & N). exists ops. split; [exact E|].
  intros color Hin. rewrite forallb_forall in N.
  specialize (N _ Hin). cbn [valid_clear] in N.
  apply orb_true_iff in N as [N|N]; apply String.eqb_eq in N; auto.
Qed.

(* ----------------------------------------------------------------- *)
(** *** The loop counter *)

(** The [try] block of [refresh], when it returns, hands back its cycle
    plus one. *)
Lemma refresh_body_returns_next (c : Z) (r : option Z) (w w' : World) :
  refresh_body plat (Some c) w = (Ok r, w') -> r = Some (c + 1).
Proof.
  intros Eb. unfold refresh_body in Eb.
  apply bind_returns in Eb as (status & ? & _ & Eb).
  apply bind_returns in Eb as ([slug lines] & ? & _ & Eb).
  apply bind_returns in Eb as (? & ? & _ & Eb).
  apply bind_returns in Eb as (? & ? & _ & Eb).
  apply bind_returns in Eb as (? & ? & _ & Eb).
  apply bind_returns in Eb as (? & ? & _ & Eb).
  apply bind_returns in Eb as (? & ? & _ & Eb).
  apply bind_returns in Eb as (? & ? & _ & Eb).
  apply bind_returns in Eb as (? & ? & _ & Eb).
  apply bind_returns in Eb as (n & ? & En & Eb).
  apply bind_returns in Eb as (? & ? & _ & Eb).
  unfold ret in En, Eb. injection En as <- _. now injection Eb as <- _.
Qed.

(** Where signal 15 is not SIGHUP the handler of IOError never comes
    back, so a refresh that returns hands back the next cycle. *)
Lemma refresh_returns_successor (c : Z) (r : option Z) (w w' : World) :
  signal_name plat 15 <> Some "SIGHUP" ->
  refresh plat (Some c) w = (Ok r, w') -> r = Some (c + 1).
Proof.
  intros Hs H. unfold refresh in H.
  apply bind_returns in H as (u & w0 & _ & H).
  unfold try_except in H.
  destruct (refresh_body plat (Some c) w0) as [[a|e|n] w1] eqn:Eb.
  - injection H as <- _. exact (refresh_body_returns_next c a w0 w1 Eb).
  - destruct (is_IOError e); [|discriminate].
    apply bind_returns in H as (? & ? & _ & H).
    apply bind_returns in H as ([] & ? & Hshut & H).
    apply shutdown_ok_sighup in Hshut as [Hn _]. contradiction.
  - discriminate.
Qed.

Lemma tick_counts (s s' : System) (c : Z) :
  signal_name plat 15 <> Some "SIGHUP" ->
  loop_cycle s = Some c ->
  step plat Tick s = (Ok tt, s') ->
  loop_cycle s' = Some (c + 1).
Proof.
  intros Hs Hc. unfold step. rewrite Hc.
  destruct (process_iteration plat (Some c) (world s)) as [[r|e|n] w'] eqn:E;
    intros H; try discriminate.
  injection H as <-. cbn [loop_cycle].
  unfold process_iteration in E. rewrite bind_logging in E.
  apply bind_returns in E as (r' & w1 & Er & E).
  apply bind_returns in E as (? & ? & _ & E).
  apply bind_returns in E as (? & ? & _ & E).
  unfold ret in E. injection E as <- _.
  exact (refresh_returns_successor c r' _ _ Hs Er).
Qed.

(** X17. The cycle number counts the turns of the loop and nothing else:
    where signal 15 is not SIGHUP, a sequence of events that all return
    leaves in [cycle] its starting value plus the number of turns among
    them; pin events and signals, the forced refresh of pin 13 included,
    do not move it. *)
Theorem run_counts_turns (events : list event) (s s' : System) (c : Z) :
  signal_name plat 15 <> Some "SIGHUP" ->
  loop_cycle s = Some c ->
  run plat events s = (Ok tt, s') ->
  loop_cycle s' = Some (c + ticks events).
Proof.
  intros Hs. revert s c.
  induction events as [|ev rest IH]; intros s c Hc H.
  - cbn [run] in H. injection H as <-. cbn [ticks].
    now rewrite Z.add_0_r.
  - cbn [run] in H.
    destruct (step plat ev s) as [[[]|e|n] s1] eqn:E; try discriminate.
    destruct ev as [|channel|n].
    + cbn [ticks]. rewrite Z.add_assoc.
      apply (IH s1); [|exact H]. exact (tick_counts s s1 c Hs Hc E).
    + cbn [ticks]. apply (IH s1); [|exact H].
      pose proof (proj1 (handlers_keep_loop_cycle plat s channel 0)) as K.
      rewrite E in K. cbn [snd] in K. now rewrite K.
    + cbn [ticks]. apply (IH s1); [|exact H].
      pose proof (proj2 (handlers_keep_loop_cycle plat s 0 n)) as K.
      rewrite E in K. cbn [snd] in K. now rewrite K.
Qed.

(* ----------------------------------------------------------------- *)
(** *** An IOError during the refresh *)

(** X18. An IOError out of the [try] block of [refresh] (a device that
    fails, a body that is no JSON) is logged and ends the process through
    the shutdown procedure: on a device that works from then on the
    display is cleared white and put to sleep, the pins are released and
    the exit status is 0. Any other exception leaves [refresh] as it was
    raised, the handler not run. *)
Theorem refresh_ioerror_shuts_down (cycle : option Z) (w w1 : World)
  (e : exn) :
  load_fonts plat = Ok tt ->
  refresh_body plat cycle w = (Raise e, w1) ->
  (is_IOError e = true ->
   forall name,
     signal_name plat 15 = Some name -> name <> "SIGHUP" ->
     device_works w1 6 ->
     exists w',
       refresh plat cycle w = (Exit 0, w')
       /\ device_trace w' = device_trace w1 ++ final_clear
       /\ log w'
          = log w1
            ++ [ mkLog ERROR "%s" [PStr (match e with Exn _ msg => msg end)];
                 mkLog INFO "Shutting down on Signal %s (%s)."
                   [PInt 15; PStr name];
                 mkLog INFO "Shutdown on Signal %s complete." [PStr name] ])
  /\ (is_IOError e = false -> refresh plat cycle w = (Raise e, w1)).
Proof.
  intros Hf Hb. unfold refresh. rewrite (bind_lift_ok _ _ _ _ Hf).
  unfold try_except. rewrite Hb. split.
  - intros He name Hn Hname Hw. rewrite He. rewrite bind_logging.
    cbv beta.
    match goal with
    | |- context [bind (shutdown plat 15) _ ?w0] =>
        destruct (shutdown_run 15 name w0 Hn Hname
                    (device_works_log w1 _ 6 Hw)) as (w' & E & T & L)
    end.
    exists w'. rewrite (bind_exit _ _ _ _ _ E).
    split; [reflexivity|]. split; [exact T|].
    rewrite L. cbn [log set_log]. now rewrite <- app_assoc.
  - intros He. now rewrite He.
Qed.

(* ----------------------------------------------------------------- *)
(** *** The refresh while the host is down *)

Lemma preserved_at {X A : Type} (f : World -> X) (c : M A) (w w' : World)
  (o : outcome A) :
  preserves f c -> c w = (o, w') -> f w' = f w.
Proof. intros H E. specialize (H w). now rewrite E in H. Qed.

Lemma transfer_failed_feed_lost (o : http_outcome) :
  transfer_failed o = true -> feed_lost o = true.
Proof.
  destruct o as [e|r]; cbn; [reflexivity|].
  intros H. apply negb_true_iff in H. now rewrite H.
Qed.

Lemma host_down_at (w w' : World) :
  http_get w' = http_get w -> host_down w -> host_down w'.
Proof. intros E H n url. rewrite E. apply H. Qed.

Lemma get_status_failed (w : World) :
  defaults_ok plat = true ->
  is_valid_url plat (status_url plat) = true ->
  transfer_failed (fetched w (status_url plat)) = true ->
  exists w', get_status plat w = (Ok (JObj []), w').
Proof.
  intros Hd Hv Hf.
  destruct (download_failed plat _ w Hd Hv Hf) as (w' & E).
  exists w'. unfold get_status. now rewrite (bind_ok _ _ _ _ _ E).
Qed.

Lemma get_fr24_status_failed (w : World) :
  is_valid_url plat (monitor_url plat) = true ->
  transfer_failed (fetched w (monitor_url plat)) = true ->
  exists w', get_fr24_status plat w = (Ok [PStr "unknown"], w').
Proof.
  intros Hv Hf. unfold get_fr24_status. unfold bind at 1.
  rewrite (download_with _ 2 (1 # 10) w Hv).
  destruct (fetched w (monitor_url plat)) as [[c msg]|r]; cbn in Hf.
  - cbv [bind ret lift py_in dict_has lookup logging].
    eexists. reflexivity.
  - apply negb_true_iff in Hf. rewrite Hf.
    cbv [bind ret lift py_in dict_has lookup logging].
    eexists. reflexivity.
Qed.

(** On a lost feed the emergency scan raises, in both its modes. *)
Lemma has_emergency_feed_lost (current_status : text) (mode : string)
  (w : World) :
  defaults_ok plat = true ->
  is_valid_url plat (aircraft_url plat) = true ->
  existsb (String.eqb mode) ["slug"; "count"] = true ->
  feed_lost (fetched w (aircraft_url plat)) = true ->
  exists w',
    has_emergency plat current_status mode w
    = (Raise (Exn TypeError "argument is not iterable"), w').
Proof.
  intros Hd Hv Hm Hl.
  destruct (get_aircrafts_feed_lost plat true "adsb" 120 true w Hd Hv
              eq_refl Hl) as (w' & E).
  exists w'. unfold has_emergency.
  rewrite (bind_lift_ok _ _ _ _ (check_supported_in _ _ Hm)).
  rewrite (bind_ok _ _ _ _ _ E). reflexivity.
Qed.

Lemma bool_from_env_run (needle : string) (w : World) :
  exists b, bool_from_env needle w = (Ok b, w).
Proof. eexists. reflexivity. Qed.

Lemma status_field_missing (status : json) (key : string)
  (show : json -> outcome text) (fallback : string) (w : World) :
  py_in key status = Ok false ->
  status_field status key show fallback w = (Ok (true, [PStr fallback]), w).
Proof.
  intros H. unfold status_field. now rewrite (bind_lift_ok _ _ _ _ H).
Qed.

(** With the host down the status block gets as far as the emergency
    scan, which raises. *)
Lemma refresh_status_host_down (w : World) :
  defaults_ok plat = true ->
  is_valid_url plat (aircraft_url plat) = true ->
  is_valid_url plat (monitor_url plat) = true ->
  host_down w ->
  exists w',
    refresh_status plat (JObj []) w
    = (Raise (Exn TypeError "argument is not iterable"), w')
    /\ device_trace w' = device_trace w.
Proof.
  intros Hd Hv Hm Hdown. unfold refresh_status.
  destruct (bool_from_env_run "ENABLE_FR24" w) as (b & Eb).
  rewrite (bind_ok _ _ _ _ _ Eb).
  assert (Hslug : exists slug w1,
             (if b
              then bind (get_fr24_status plat)
                     (fun fr24 => ret ([PStr "OK"] ++ [PStr ", fr24: "]
                                       ++ fr24))
              else ret [PStr "OK"]) w = (Ok slug, w1)
             /\ http_get w1 = http_get w
             /\ device_trace w1 = device_trace w).
  { destruct b.
    - destruct (get_fr24_status_failed w Hm (Hdown _ _)) as (w1 & E1).
      eexists. exists w1. rewrite (bind_ok _ _ _ _ _ E1).
      split; [reflexivity|]. split.
      + exact (preserved_at http_get _ w w1 _
                 (preserves_get_fr24_status plat http_get stable_http_get)
                 E1).
      + exact (preserved_at device_trace _ w w1 _
                 (preserves_get_fr24_status plat device_trace
                    stable_device_trace) E1).
    - eexists. exists w. repeat split; reflexivity. }
  destruct Hslug as (slug & w1 & E1 & Hh & Ht).
  rewrite (bind_ok _ _ _ _ _ E1).
  do 5 (erewrite bind_ok by (apply status_field_missing; reflexivity)).
  cbv zeta. cbn [fst snd orb].
  match goal with
  | |- context [has_emergency plat ?cs "slug"] =>
      destruct (has_emergency_feed_lost cs "slug" w1 Hd Hv eq_refl
                  (transfer_failed_feed_lost _
                     (host_down_at w w1 Hh Hdown _ _))) as (w2 & E2)
  end.
  exists w2. rewrite (bind_raise _ _ _ _ _ E2). split; [reflexivity|].
  rewrite <- Ht.
  exact (preserved_at device_trace _ w1 w2 _
           (preserves_has_emergency plat device_trace stable_device_trace
              _ _) E2).
Qed.

(** X19. While the host is down the loop does not get to the display: the
    status is fetched as the empty mapping, the emergency scan of the
    status block is handed the count 0 for the aircraft document and
    raises TypeError, which is no IOError; the turn of the loop ends with
    that exception, no call made on the device and [cycle] as it was. *)
Theorem tick_on_host_down_raises (s : System) :
  defaults_ok plat = true ->
  is_valid_url plat (status_url plat) = true ->
  is_valid_url plat (aircraft_url plat) = true ->
  is_valid_url plat (monitor_url plat) = true ->
  load_fonts plat = Ok tt ->
  host_down (world s) ->
  exists s',
    step plat Tick s
    = (Raise (Exn TypeError "argument is not iterable"), s')
    /\ loop_cycle s' = loop_cycle s
    /\ device_trace (world s') = device_trace (world s).
Proof.
  intros Hd Hs Hv Hm Hf Hdown. unfold step, process_iteration.
  rewrite bind_logging. cbv zeta beta.
  match goal with
  | |- context [bind (refresh plat _) _ ?w0] =>
      assert (Hdown0 : host_down w0) by exact Hdown;
        assert (Ht0 : device_trace w0 = device_trace (world s))
          by reflexivity;
        generalize dependent w0
  end.
  intros w0 Hdown0 Ht0.
  destruct (get_status_failed w0 Hd Hs (Hdown0 _ _)) as (w1 & E1).
  pose proof (preserved_at http_get _ w0 w1 _
                (preserves_get_status plat http_get stable_http_get) E1)
    as Hh1.
  pose proof (preserved_at device_trace _ w0 w1 _
                (preserves_get_status plat device_trace stable_device_trace)
                E1) as Ht1.
  destruct (refresh_status_host_down w1 Hd Hv Hm
              (host_down_at w0 w1 Hh1 Hdown0)) as (w2 & E2 & Ht2).
  assert (E : refresh plat (loop_cycle s) w0
              = (Raise (Exn TypeError "argument is not iterable"), w2)).
  { unfold refresh. rewrite (bind_lift_ok _ _ _ _ Hf).
    unfold try_except, refresh_body.
    rewrite (bind_ok _ _ _ _ _ E1), (bind_raise _ _ _ _ _ E2).
    reflexivity. }
  rewrite (bind_raise _ _ _ _ _ E).
  eexists. split; [reflexivity|]. cbn [loop_cycle world].
  split; [reflexivity|]. now rewrite Ht2, Ht1.
Qed.

(* ----------------------------------------------------------------- *)
(** *** The status line *)

Lemma status_field_shows (kv : list (string * json)) (key : string)
  (show : json -> outcome text) (fallback : string) (w : World) :
  shows show key kv = true ->
  exists t,
    status_field (JObj kv) key show fallback w
    = (Ok (negb (dict_has key kv), t), w)
    /\ (dict_has key kv = false -> t = [PStr fallback]).
Proof.
  unfold shows, status_field, dict_has. cbn [py_in py_getitem].
  unfold dict_has.
  destruct (lookup key kv) as [v|]; intros H.
  - destruct (show v) as [t|e|n] eqn:Es; try discriminate.
    exists t. split; [|discriminate].
    rewrite (bind_lift_ok _ _ _ _ eq_refl).
    rewrite (bind_lift_ok _ _ _ _ eq_refl).
    rewrite (bind_lift_ok _ _ _ _ Es). reflexivity.
  - exists [PStr fallback]. split; [reflexivity|reflexivity].
Qed.


(* ----------------------------------------------------------------- *)
(** *** What a refresh does on the device *)

Lemma device_returns (op : device_op) (w w' : World) :
  device op w = (Ok tt, w') -> device_trace w' = device_trace w ++ [op].
Proof.
  unfold device. destruct (device_fault w (device_calls w)); intros H;
    [discriminate|].
  now injection H as <-.
Qed.

Lemma clear_returns (do_clear do_sleep : bool) (color : string)
  (w w' : World) :
  clear do_clear do_sleep color w = (Ok tt, w') ->
  device_trace w'
  = device_trace w
    ++ [EpdOpen; EpdInit]
    ++ (if do_clear
        then [EpdClear (if existsb (String.eqb color) ["0x00"; "0xFF"]
                        then color else "0xFF")]
        else [])
    ++ (if do_sleep then [EpdSleep] else []).
Proof.
  unfold clear. intros H.
  apply bind_returns in H as ([] & w1 & E1 & H). apply device_returns in E1.
  apply bind_returns in H as ([] & w2 & E2 & H). apply device_returns in E2.
  apply bind_returns in H as ([] & w3 & E3 & H).
  assert (T3 : device_trace w3
               = device_trace w2
                 ++ (if do_clear
                     then [EpdClear
                             (if existsb (String.eqb color) ["0x00"; "0xFF"]
                              then color else "0xFF")]
                     else [])).
  { destruct do_clear.
    - apply bind_returns in E3 as (shown & w2' & Ec & E3).
      apply device_returns in E3. rewrite E3.
      destruct (existsb (String.eqb color) ["0x00"; "0xFF"]).
      + unfold ret in Ec. now injection Ec as <- <-.
      + rewrite bind_logging in Ec. unfold ret in Ec.
        now injection Ec as <- <-.
    - unfold ret in E3. injection E3 as <-. now rewrite app_nil_r. }
  assert (T4 : device_trace w'
               = device_trace w3 ++ (if do_sleep then [EpdSleep] else [])).
  { destruct do_sleep.
    - now apply device_returns in H.
    - unfold ret in H. injection H as <-. now rewrite app_nil_r. }
  rewrite T4, T3, E2, E1. now rewrite <- !app_assoc.
Qed.

(** What a refresh that hands back a cycle number has done: the number is
    the cycle plus one, and the image shown is the header, the aircraft
    block and the block of the operating system. *)
Lemma refresh_returns_image (c r : Z) (w w' : World) :
  refresh plat (Some c) w = (Ok (Some r), w') ->
  r = c + 1
  /\ exists wa wb header aircrafts os,
       http_get wa = http_get w
       /\ refresh_aircrafts plat wa = (Ok aircrafts, wb)
       /\ device_trace w'
          = device_trace w
            ++ [EpdOpen; EpdInit]
            ++ (if c =? 1 then [EpdClear "0xFF"] else [])
            ++ [EpdDisplay (header ++ aircrafts ++ os); EpdSleep]
            ++ (if RUNNING_IN_DOCKER plat then []
                else [SaveImage (header ++ aircrafts ++ os)]).
Proof.
  intros H. unfold refresh in H.
  apply bind_returns in H as (u & w0 & Hfonts & H).
  unfold lift in Hfonts. injection Hfonts as _ <-.
  unfold try_except in H.
  destruct (refresh_body plat (Some c) w) as [[a|e|n] w1] eqn:Eb.
  - injection H as -> <-.
    split.
    { pose proof (refresh_body_returns_next c _ w w1 Eb) as K.
      now injection K. }
    unfold refresh_body in Eb.
    apply bind_returns in Eb as (status & wa & Ea & Eb).
    pose proof (preserved_at http_get _ _ _ _
                  (preserves_get_status plat http_get stable_http_get) Ea)
      as Ha.
    apply (preserved_at device_trace _ _ _ _
             (preserves_get_status plat device_trace stable_device_trace))
      in Ea.
    apply bind_returns in Eb as ([slug lines] & wb & Es & Eb).
    pose proof (preserved_at http_get _ _ _ _
                  (preserves_refresh_status plat http_get stable_http_get
                     status) Es) as Hs.
    apply (preserved_at device_trace _ _ _ _
             (preserves_refresh_status plat device_trace stable_device_trace
                status)) in Es.
    apply bind_returns in Eb as ([] & wc & Ec & Eb).
    pose proof (preserved_at http_get _ _ _ _
                  (preserves_clear http_get settled_http_get _ _ _) Ec)
      as Hc.
    apply clear_returns in Ec.
    rewrite bind_logging in Eb.
    apply bind_returns in Eb as (aircrafts & wd & Ed & Eb).
    pose proof (preserved_at device_trace _ _ _ _
                  (preserves_refresh_aircrafts plat device_trace
                     stable_device_trace) Ed) as Td.
    apply bind_returns in Eb as (os & we & Ee & Eb).
    apply (preserved_at device_trace _ _ _ _
             (preserves_refresh_os plat device_trace _ _ _)) in Ee.
    apply bind_returns in Eb as ([] & wf & Ef & Eb).
    apply device_returns in Ef.
    apply bind_returns in Eb as ([] & wg & Eg & Eb).
    apply device_returns in Eg.
    apply bind_returns in Eb as ([] & wh & Eh & Eb).
    apply bind_returns in Eb as (nc & wi & Ei & Eb).
    unfold ret in Ei. injection Ei as _ <-.
    rewrite bind_logging in Eb. unfold ret in Eb. injection Eb as _ <-.
    cbn [device_trace set_log] in *.
    match type of Ed with
    | refresh_aircrafts plat ?w0 = _ => exists w0, wd
    end.
    match type of Ef with
    | context [EpdDisplay (?header ++ aircrafts ++ os)] =>
        exists header, aircrafts, os;
          assert (Th : device_trace wh
                       = device_trace wg
                         ++ (if RUNNING_IN_DOCKER plat then []
                             else [SaveImage (header ++ aircrafts ++ os)]))
    end.
    { destruct (RUNNING_IN_DOCKER plat).
      - unfold ret in Eh. injection Eh as <-. now rewrite app_nil_r.
      - apply device_returns in Eh. exact Eh. }
    split; [|split; [exact Ed|]].
    { cbn [http_get set_log]. now rewrite Hc, Hs, Ha. }
    rewrite Th, Eg, Ef, Ee, Td, Ec, Es, Ea.
    cbn [cycle_is_one]. rewrite <- !app_assoc.
    destruct (c =? 1), (RUNNING_IN_DOCKER plat); reflexivity.
  - destruct (is_IOError e); [|discriminate].
    apply bind_returns in H as (? & ? & _ & H).
    apply bind_returns in H as (? & ? & _ & H).
    unfold ret in H. discriminate.
  - discriminate.
Qed.

(** X22. A refresh that hands back a cycle number has drawn one image:
    the display is opened and initialised, cleared white on cycle 1 only,
    shown the image and put to sleep, and outside Docker the same image is
    saved; nothing else is called on the device, and the number handed
    back is the cycle plus one. *)
Theorem refresh_draws_once (c r : Z) (w w' : World) :
  refresh plat (Some c) w = (Ok (Some r), w') ->
  r = c + 1
  /\ exists ep_image,
       device_trace w'
       = device_trace w
         ++ [EpdOpen; EpdInit]
         ++ (if c =? 1 then [EpdClear "0xFF"] else [])
         ++ [EpdDisplay ep_image; EpdSleep]
         ++ (if RUNNING_IN_DOCKER plat then [] else [SaveImage ep_image]).
Proof.
  intros H.
  destruct (refresh_returns_image c r w w' H)
    as (Hr & wa & wb & header & aircrafts & os & _ & _ & T).
  split; [exact Hr|]. now exists (header ++ aircrafts ++ os).
Qed.

(* ----------------------------------------------------------------- *)
(** *** The ranges when no aircraft is in range *)

(** On a lost feed the range computation is handed the count 0 where it
    expects the aircraft document, and subscripting it raises. *)
Lemma distance_feed_lost (origin : Position) (mode : string)
  (threshold : Z) (w : World) :
  defaults_ok plat = true ->
  is_valid_url plat (aircraft_url plat) = true ->
  existsb (String.eqb mode) ["min"; "max"] = true ->
  feed_lost (fetched w (aircraft_url plat)) = true ->
  exists w',
    distance plat origin mode threshold w
    = (Raise (Exn TypeError "object is not subscriptable"), w').
Proof.
  intros Hd Hv Hm Hl.
  destruct (get_aircrafts_feed_lost plat true "adsb" 120 true w Hd Hv
              eq_refl Hl) as (w' & E).
  exists w'. unfold distance.
  rewrite (bind_lift_ok _ _ _ _ (check_supported_in _ _ Hm)).
  rewrite (bind_ok _ _ _ _ _ E). reflexivity.
Qed.

Lemma always_empty_sky_at (w w' : World) :
  http_get w' = http_get w ->
  always_empty_sky plat w -> always_empty_sky plat w'.
Proof. intros E H n. rewrite E. apply H. Qed.

(** The aircraft block on an empty sky: the Min Range line it draws is
    [sys.maxsize] meters, divided by 1000 and rounded to one decimal. *)
Lemma refresh_aircrafts_min_range (w w' : World) (cmds : list draw_cmd) :
  defaults_ok plat = true ->
  is_valid_url plat (aircraft_url plat) = true ->
  always_empty_sky plat w ->
  refresh_aircrafts plat w = (Ok cmds, w') ->
  In (DrawText 8 142
        [PStr "Min Range: ";
         PFloat (py_round plat (IZR (sys_maxsize plat) / 1000) 1);
         PStr " km"] 12) cmds.
Proof.
  intros Hd Hv Hsky H. unfold refresh_aircrafts in H.
  apply bind_returns in H as (origin & w1 & E1 & H).
  pose proof (always_empty_sky_at w w1
                (preserved_at http_get _ _ _ _
                   (preserves_get_receiver_position plat http_get
                      stable_http_get) E1) Hsky) as S1.
  apply bind_returns in H as (c1 & w2 & E2 & H).
  pose proof (always_empty_sky_at w1 w2
                (preserved_at http_get _ _ _ _
                   (preserves_get_aircrafts plat http_get stable_http_get
                      _ _ _ _) E2) S1) as S2.
  apply bind_returns in H as (c2 & w3 & E3 & H).
  pose proof (always_empty_sky_at w2 w3
                (preserved_at http_get _ _ _ _
                   (preserves_get_aircrafts plat http_get stable_http_get
                      _ _ _ _) E3) S2) as S3.
  apply bind_returns in H as (c3 & w4 & E4 & H).
  pose proof (always_empty_sky_at w3 w4
                (preserved_at http_get _ _ _ _
                   (preserves_get_aircrafts plat http_get stable_http_get
                      _ _ _ _) E4) S3) as S4.
  apply bind_returns in H as (min_range & w5 & E5 & H).
  destruct (distance_run_without_candidates plat origin "min" 120 [] w4
              Hd Hv eq_refl (always_empty_sky_feed plat w4 S4)
              eq_refl eq_refl) as (w5' & E5').
  rewrite E5' in E5. injection E5 as <- _.
  apply bind_returns in H as (max_range & w6 & _ & H).
  unfold ret in H. injection H as <- _.
  do 4 right. left. reflexivity.
Qed.

(** C10 (the code departs from the claim). Where the aircraft document is
    fetched and lists no aircraft that has lat, lon and seen_pos with
    seen_pos within the threshold, [Helpers.distance] returns the
    accumulator it started from, 0 for max and [sys.maxsize] for min; and
    on an empty sky the image a refresh shows on the display carries the
    Min Range line with [sys.maxsize] meters divided by 1000 and rounded
    to one decimal. But where nothing is fetched, the feed lost, the
    accumulator is not returned: [get_aircrafts] hands back the count 0
    for the document and [Helpers.distance] raises TypeError. *)
Theorem distance_without_candidates (origin : Position) (mode : string)
  (threshold : Z) (w : World) :
  defaults_ok plat = true ->
  is_valid_url plat (aircraft_url plat) = true ->
  existsb (String.eqb mode) ["min"; "max"] = true ->
  (forall l,
      feed_lists plat w l ->
      forallb aged_record l = true ->
      existsb (in_range threshold) l = false ->
      fst (distance plat origin mode threshold w)
      = Ok (if String.eqb mode "max" then 0%R
            else IZR (sys_maxsize plat)))
  /\ (forall c r w',
        always_empty_sky plat w ->
        refresh plat (Some c) w = (Ok (Some r), w') ->
        exists ep_image,
          In (EpdDisplay ep_image) (new_device_ops w w')
          /\ In (DrawText 8 142
                   [PStr "Min Range: ";
                    PFloat (py_round plat (IZR (sys_maxsize plat) / 1000) 1);
                    PStr " km"] 12) ep_image)
  /\ (feed_lost (fetched w (aircraft_url plat)) = true ->
      fst (distance plat origin mode threshold w)
      = Raise (Exn TypeError "object is not subscriptable")).
Proof.
  intros Hd Hv Hm. split; [|split].
  - intros l Hfeed Hrec Hout.
    destruct (distance_run_without_candidates plat origin mode threshold l w
                Hd Hv Hm Hfeed Hrec Hout) as (w' & E).
    now rewrite E.
  - intros c r w' Hsky H.
    destruct (refresh_returns_image c r w w' H)
      as (_ & wa & wb & header & aircrafts & os & Ha & Ea & T).
    exists (header ++ aircrafts ++ os). split.
    + unfold new_device_ops. rewrite T, skipn_app_length.
      apply in_or_app. right. apply in_or_app. right. now left.
    + apply in_or_app. right. apply in_or_app. left.
      exact (refresh_aircrafts_min_range wa wb aircrafts Hd Hv
               (always_empty_sky_at w wa Ha Hsky) Ea).
  - intros Hl.
    destruct (distance_feed_lost origin mode threshold w Hd Hv Hm Hl)
      as (w' & E).
    now rewrite E.
Qed.

End Alerts.

(* ================================================================= *)
(** ** The further properties on the sample worlds *)

Lemma outcome_at {A B : Type} (p : outcome A * B) (o : outcome A) :
  fst p = o -> p = (o, snd p).
Proof. destruct p as [o' b]. cbn. now intros ->. Qed.

Lemma feed_world_lists (aircrafts : list json) :
  feed_lists sample_platform (feed_world aircrafts) aircrafts.
Proof. eexists. eexists. repeat split; reflexivity. Qed.




Lemma get_aircrafts_mlat_counts_witness :
  fst (get_aircrafts sample_platform true "mlat" 120 false
         (feed_world mlat_traffic)) = Ok (JNum 1)
  /\ slack_sent (snd (get_aircrafts sample_platform true "mlat" 120 false
                        (feed_world mlat_traffic)))
     = slack_sent (feed_world mlat_traffic).
Proof.
  exact (get_aircrafts_mlat_counts sample_platform true 120 mlat_traffic
           (feed_world mlat_traffic) eq_refl eq_refl
           (feed_world_lists mlat_traffic) eq_refl).
Defined.


Lemma send_slack_notification_emergency_witness :
  exists m,
    slack_sent
      (snd (send_slack_notification sample_platform (JStr "4ca2d1") "RYR4AB"
              (JStr "7700") (DistStr "unknown") "emergency" traffic_world))
    = slack_sent traffic_world ++ [m]
    /\ msg_channel m = "#alerts" /\ msg_token m = "xoxb-token"
    /\ msg_description m = "General emergency"
    /\ List.length (msg_fields m) = 6%nat
    /\ fst (send_slack_notification sample_platform (JStr "4ca2d1") "RYR4AB"
              (JStr "7700") (DistStr "unknown") "emergency" traffic_world)
       = Ok (acknowledged traffic_world m).
Proof.
  exact (proj1
           (send_slack_notification_emergency sample_platform (JStr "4ca2d1")
              "RYR4AB" "7700" (DistStr "unknown") traffic_world
              "xoxb-token" "#alerts" "http" "127.0.0.1:8080" eq_refl eq_refl)
           "General emergency" eq_refl).
Defined.


Lemma get_receiver_position_resolves_witness :
  fst (get_receiver_position sample_platform unreachable_world)
  = Ok (mkPosition (JNum 0) (JNum 0))
  /\ fst (get_receiver_position sample_platform empty_sky_world)
     = Ok (mkPosition (JNum 51) (JNum 7)).
Proof.
  split.
  - exact (proj1
             (proj1
                (get_receiver_position_resolves sample_platform
                   unreachable_world eq_refl eq_refl eq_refl) eq_refl)).
  - exact (proj2
             (get_receiver_position_resolves sample_platform empty_sky_world
                eq_refl eq_refl eq_refl)
             (mkResponse 200 (Parsed sample_receiver))
             [("lat", JNum 51); ("lon", JNum 7)] eq_refl eq_refl eq_refl).
Defined.

Lemma setup_caches_receiver_position_witness :
  exists origin,
    receiver_position (snd (setup sample_platform empty_sky_world))
    = Some origin
    /\ fst (get_receiver_position sample_platform
              (snd (setup sample_platform empty_sky_world))) = Ok origin
    /\ requests
         (snd (get_receiver_position sample_platform
                 (snd (setup sample_platform empty_sky_world))))
       = requests (snd (setup sample_platform empty_sky_world)).
Proof.
  refine (setup_caches_receiver_position sample_platform empty_sky_world
            (snd (setup sample_platform empty_sky_world)) _).
  apply run_ok. reflexivity.
Defined.

Lemma get_fr24_status_reports_witness :
  requests (snd (get_fr24_status sample_platform empty_sky_world))
  = [mkRequest (monitor_url sample_platform) true (Some DefaultAdapter)]
  /\ (forall a,
        served_by sample_platform (monitor_url sample_platform) 2 (1 # 10)
        = Some a -> a = DefaultAdapter)
  /\ served_by proxied_platform (monitor_url proxied_platform) 2 (1 # 10)
     = Some (RetryAdapter 2 (1 # 10))
  /\ fst (get_fr24_status sample_platform empty_sky_world)
     = Ok [PStr "unknown"]
  /\ fst (get_fr24_status sample_platform (fr24_world (JStr "connected")))
     = Raise (Exn KeyError "feed_current_mode").
Proof.
  destruct (get_fr24_status_reports sample_platform empty_sky_world
              eq_refl eq_refl eq_refl) as (R & D & _ & F & _).
  destruct (get_fr24_status_reports sample_platform
              (fr24_world (JStr "connected")) eq_refl eq_refl eq_refl)
    as (_ & _ & _ & _ & C).
  destruct (get_fr24_status_reports proxied_platform empty_sky_world
              eq_refl eq_refl eq_refl) as (_ & _ & M & _).
  split; [exact R|]. split; [exact (D eq_refl)|].
  split; [apply M; [cbn; lia|reflexivity]|].
  split; [exact (F eq_refl)|].
  exact (proj2
           (C (mkResponse 200
                 (Parsed (JObj [("feed_status", JStr "connected")])))
              [("feed_status", JStr "connected")] eq_refl eq_refl eq_refl)
           eq_refl).
Defined.

Lemma get_fr24_status_disconnected_witness :
  fst (get_fr24_status sample_platform (fr24_world (JStr "disconnected")))
  = Ok [PStr "Disconnected"]
  /\ fst (get_fr24_status sample_platform (fr24_world (JStr EmptyString)))
     = Raise (Exn IndexError "string index out of range").
Proof.
  split.
  - refine (get_fr24_status_disconnected sample_platform
              (fr24_world (JStr "disconnected"))
              (mkResponse 200
                 (Parsed (JObj [("feed_status", JStr "disconnected")])))
              [("feed_status", JStr "disconnected")] "disconnected"
              eq_refl eq_refl eq_refl eq_refl eq_refl _).
    discriminate.
  - refine (get_fr24_status_disconnected sample_platform
              (fr24_world (JStr EmptyString))
              (mkResponse 200
                 (Parsed (JObj [("feed_status", JStr EmptyString)])))
              [("feed_status", JStr EmptyString)] EmptyString
              eq_refl eq_refl eq_refl eq_refl eq_refl _).
    discriminate.
Defined.

Lemma shutdown_clears_and_exits_witness :
  (exists w',
      shutdown sample_platform 15 empty_sky_world = (Exit 0, w')
      /\ device_trace w' = device_trace empty_sky_world ++ final_clear)
  /\ exists msg,
       shutdown sample_platform 64 empty_sky_world
       = (Raise (Exn ValueError msg), empty_sky_world).
Proof.
  split.
  - apply (proj1 (shutdown_clears_and_exits sample_platform 15
                    empty_sky_world) "SIGTERM");
      [reflexivity|discriminate|intros i Hi; reflexivity].
  - apply (proj2 (shutdown_clears_and_exits sample_platform 64
                    empty_sky_world)).
    reflexivity.
Defined.

Lemma shutdown_returns_only_for_sighup_witness :
  signal_name sample_platform 1 = Some "SIGHUP"
  /\ device_trace (snd (shutdown sample_platform 1 empty_sky_world))
     = device_trace empty_sky_world
  /\ device_calls (snd (shutdown sample_platform 1 empty_sky_world))
     = device_calls empty_sky_world
  /\ requests (snd (shutdown sample_platform 1 empty_sky_world))
     = requests empty_sky_world
  /\ slack_sent (snd (shutdown sample_platform 1 empty_sky_world))
     = slack_sent empty_sky_world.
Proof.
  refine (shutdown_returns_only_for_sighup sample_platform 1 empty_sky_world
            (snd (shutdown sample_platform 1 empty_sky_world)) _).
  apply run_ok. reflexivity.
Defined.

Lemma process_interrupt_pins_witness :
  (exists w',
      process_interrupt sample_platform 5 empty_sky_world = (Ok tt, w')
      /\ device_trace w'
         = device_trace empty_sky_world
           ++ [EpdOpen; EpdInit; EpdClear "0x00"])
  /\ exists msg,
       process_interrupt sample_platform 7 empty_sky_world
       = (Raise (Exn ValueError msg), empty_sky_world).
Proof.
  split.
  - apply (proj1 (process_interrupt_pins sample_platform 5 empty_sky_world));
      [now left|intros i Hi; reflexivity].
  - apply (proj2 (process_interrupt_pins sample_platform 7 empty_sky_world));
      discriminate.
Defined.

Lemma run_counts_turns_witness :
  loop_cycle
    (snd (run sample_platform [Tick; Interrupt 13; Interrupt 5; Tick]
            (mkSystem (Some 1) empty_sky_world)))
  = Some 3.
Proof.
  refine (run_counts_turns sample_platform
            [Tick; Interrupt 13; Interrupt 5; Tick]
            (mkSystem (Some 1) empty_sky_world) _ 1 _ eq_refl _).
  - discriminate.
  - apply outcome_at. lazy. reflexivity.
Defined.

Lemma refresh_ioerror_shuts_down_witness :
  exists w',
    refresh sample_platform (Some 1) faulty_display_world = (Exit 0, w')
    /\ device_trace w' = final_clear.
Proof.
  assert (Hb : refresh_body sample_platform (Some 1) faulty_display_world
               = (Raise (Exn OSError "device"),
                  snd (refresh_body sample_platform (Some 1)
                         faulty_display_world))).
  { apply outcome_at. lazy. reflexivity. }
  destruct (proj1
              (refresh_ioerror_shuts_down sample_platform (Some 1)
                 faulty_display_world _ _ eq_refl Hb)
              eq_refl "SIGTERM" eq_refl) as (w' & E & T & _).
  - discriminate.
  - intros i Hi. lazy. reflexivity.
  - exists w'. split; [exact E|]. rewrite T. lazy. reflexivity.
Defined.

Lemma tick_on_host_down_raises_witness :
  exists s',
    step sample_platform Tick (mkSystem (Some 1) unreachable_world)
    = (Raise (Exn TypeError "argument is not iterable"), s')
    /\ loop_cycle s' = Some 1
    /\ device_trace (world s') = [].
Proof.
  refine (tick_on_host_down_raises sample_platform
            (mkSystem (Some 1) unreachable_world)
            eq_refl eq_refl eq_refl eq_refl eq_refl _).
  intros n url. reflexivity.
Defined.


Lemma refresh_draws_once_witness :
  exists ep_image,
    device_trace (snd (refresh sample_platform (Some 1) empty_sky_world))
    = [ EpdOpen; EpdInit; EpdClear "0xFF"; EpdDisplay ep_image; EpdSleep;
        SaveImage ep_image ].
Proof.
  assert (Hr : refresh sample_platform (Some 1) empty_sky_world
               = (Ok (Some 2),
                  snd (refresh sample_platform (Some 1) empty_sky_world))).
  { apply run_ok. lazy. reflexivity. }
  destruct (refresh_draws_once sample_platform 1 2 empty_sky_world _ Hr)
    as (_ & img & T).
  exists img. exact T.
Defined.

Lemma distance_without_candidates_witness :
  (fst (distance sample_platform (mkPosition (JNum 51) (JNum 7)) "min" 120
          distant_world)
   = Ok (IZR (sys_maxsize sample_platform))
   /\ fst (distance sample_platform (mkPosition (JNum 51) (JNum 7)) "max" 120
             distant_world)
      = Ok 0%R)
  /\ (exists ep_image,
        In (EpdDisplay ep_image)
          (new_device_ops settled_empty_sky_world
             (snd (refresh sample_platform (Some 1)
                     settled_empty_sky_world)))
        /\ In (DrawText 8 142
                 [PStr "Min Range: ";
                  PFloat (py_round sample_platform
                            (IZR (sys_maxsize sample_platform) / 1000) 1);
                  PStr " km"] 12) ep_image)
  /\ fst (distance sample_platform (mkPosition (JNum 51) (JNum 7)) "min" 120
            unreachable_world)
     = Raise (Exn TypeError "object is not subscriptable").
Proof.
  assert (Hfeed : feed_lists sample_platform distant_world distant_traffic).
  { eexists. eexists. repeat split; reflexivity. }
  assert (Hsky : always_empty_sky sample_platform settled_empty_sky_world).
  { intros n. eexists. eexists. repeat split; reflexivity. }
  assert (Hr : refresh sample_platform (Some 1) settled_empty_sky_world
               = (Ok (Some 2),
                  snd (refresh sample_platform (Some 1)
                         settled_empty_sky_world))).
  { apply run_ok. lazy. reflexivity. }
  split; [split|split].
  - exact (proj1
             (distance_without_candidates sample_platform
                (mkPosition (JNum 51) (JNum 7)) "min" 120 distant_world
                eq_refl eq_refl eq_refl)
             distant_traffic Hfeed eq_refl eq_refl).
  - exact (proj1
             (distance_without_candidates sample_platform
                (mkPosition (JNum 51) (JNum 7)) "max" 120 distant_world
                eq_refl eq_refl eq_refl)
             distant_traffic Hfeed eq_refl eq_refl).
  - exact (proj1
             (proj2
                (distance_without_candidates sample_platform
                   (mkPosition (JNum 51) (JNum 7)) "min" 120
                   settled_empty_sky_world eq_refl eq_refl eq_refl))
             1 2 _ Hsky Hr).
  - exact (proj2
             (proj2
                (distance_without_candidates sample_platform
                   (mkPosition (JNum 51) (JNum 7)) "min" 120
                   unreachable_world eq_refl eq_refl eq_refl))
             eq_refl).
Defined.

Lemma contains_any_exact_on_digits_witness :
  contains_any (JStr "7700") ["7500"; "7600"; "7700"] = Ok true
  /\ contains_any (JStr "77oo") ["7500"; "7600"; "7700"] = Ok false
  /\ (contains_any (JStr "7600") ["7500"; "7600"; "7700"] = Ok true
      <-> In "7600" ["7500"; "7600"; "7700"]).
Proof.
  split; [|split].
  - exact (proj1
             (contains_any_exact_on_digits "7700" ["7500"; "7600"; "7700"]
                eq_refl)).
  - exact (proj1
             (contains_any_exact_on_digits "77oo" ["7500"; "7600"; "7700"]
                eq_refl)).
  - exact (proj1
             (proj2
                (contains_any_exact_on_digits "7600" ["7500"; "7600"; "7700"]
                   eq_refl))).
Defined.
